(** * Rendering entry points of reportcreator_api: field formatting, template
    data assembly and render orchestration.

    Source: api/src/reportcreator_api/tasks/rendering/entry.py

    The Python code is embedded shallowly.  Values are a small universe of
    Python objects ([pyval]); a call that can raise returns a [Result];
    dictionaries keep their insertion order (association lists with unique
    keys); collaborators that live outside entry.py (the CVSS engine, the
    CWE table, the user store, the worker) are fields of a type class or
    components of an environment record. *)

From Stdlib Require Import ZArith QArith List String Ascii Bool Lia.
From Stdlib Require Import Permutation Sorted SetoidList DecimalString.
Import ListNotations.

Local Open Scope string_scope.
Local Open Scope Z_scope.

Set Implicit Arguments.
Set Warnings "-register-all".

(* ===================================================================== *)
(** ** Python values, exceptions and dictionaries *)
(* ===================================================================== *)

Module Py.

(** The exceptions that entry.py raises, catches or lets through.
    [CancelledError] derives from BaseException only; so does every
    [OtherBaseException]. *)
Inductive exn : Type :=
| TypeError
| AttributeError
| KeyError
| IndexError
| StopIteration
| ValueError
| TimeoutError (msg : string)
| CancelledError
| OtherException (name : string)
| OtherBaseException (name : string).

(** [isinstance(e, Exception)], the test behind [except Exception]. *)
Definition is_Exception (e : exn) : bool :=
  match e with
  | CancelledError | OtherBaseException _ => false
  | _ => true
  end.

Inductive Result (A : Type) : Type :=
| Ok (a : A)
| Raise (e : exn).

Arguments Ok {A} a.
Arguments Raise {A} e.

Definition bind {A B : Type} (r : Result A) (k : A -> Result B) : Result B :=
  match r with
  | Ok a => k a
  | Raise e => Raise e
  end.

Section MapM.
Variables A B : Type.
Variable f : A -> Result B.

(** A comprehension [[f(x) for x in l]] whose body can raise. *)
Fixpoint mapM (l : list A) : Result (list B) :=
  match l with
  | [] => Ok []
  | x :: l' =>
      match f x with
      | Raise e => Raise e
      | Ok y =>
          match mapM l' with
          | Raise e => Raise e
          | Ok ys => Ok (y :: ys)
          end
      end
  end.
End MapM.

(** The model classes whose instances reach the formatter. *)
Inductive pyclass : Type := ProjectMemberInfo | PentestUser.

Definition pyclass_eqb (a b : pyclass) : bool :=
  match a, b with
  | ProjectMemberInfo, ProjectMemberInfo => true
  | PentestUser, PentestUser => true
  | _, _ => false
  end.

(** Python values: JSON-like data, UUIDs, and model instances given by
    their class and attributes.  Numbers are integers. *)
Inductive pyval : Type :=
| PNone
| PBool (b : bool)
| PInt (n : Z)
| PStr (s : string)
| PUuid (s : string)
| PList (l : list pyval)
| PDict (d : list (string * pyval))
| PObj (c : pyclass) (attrs : list (string * pyval)).

(** *** Dictionaries with string keys, in insertion order *)

Fixpoint dict_get {V : Type} (d : list (string * V)) (k : string) : option V :=
  match d with
  | [] => None
  | (k', v) :: d' => if String.eqb k' k then Some v else dict_get d' k
  end.

(** [d[k] = v]: an existing key keeps its position. *)
Fixpoint dict_set {V : Type} (d : list (string * V)) (k : string) (v : V)
  : list (string * V) :=
  match d with
  | [] => [(k, v)]
  | (k', v') :: d' =>
      if String.eqb k' k then (k', v) :: d' else (k', v') :: dict_set d' k v
  end.

(** [d1 | d2] (and [d1 |= d2]): the entries of [d2] are written over [d1]. *)
Definition dict_or {V : Type} (d1 d2 : list (string * V)) : list (string * V) :=
  fold_left (fun acc kv => dict_set acc (fst kv) (snd kv)) d2 d1.

(** [d.pop(k, ...)]: the dictionary without [k]. *)
Fixpoint dict_remove {V : Type} (d : list (string * V)) (k : string)
  : list (string * V) :=
  match d with
  | [] => []
  | (k', v) :: d' =>
      if String.eqb k' k then dict_remove d' k else (k', v) :: dict_remove d' k
  end.

Definition dict_mem {V : Type} (d : list (string * V)) (k : string) : bool :=
  match dict_get d k with Some _ => true | None => false end.

(** [d.get(k, default)] *)
Definition dict_get_or {V : Type} (d : list (string * V)) (k : string) (default : V) : V :=
  match dict_get d k with Some v => v | None => default end.

(** *** Truthiness, iteration, [str] and equality *)

(** [bool(v)]: what [if not u] and [filter(None, ...)] test. *)
Definition truthy (v : pyval) : bool :=
  match v with
  | PNone => false
  | PBool b => b
  | PInt n => negb (n =? 0)
  | PStr s => negb (String.eqb s "")
  | PUuid _ => true
  | PList l => match l with [] => false | _ => true end
  | PDict d => match d with [] => false | _ => true end
  | PObj _ _ => true
  end.

Fixpoint chars (s : string) : list pyval :=
  match s with
  | EmptyString => []
  | String c s' => PStr (String c EmptyString) :: chars s'
  end.

(** [iter(v)]: a list yields its elements, a string its characters, a
    dictionary its keys; anything else here is not iterable. *)
Definition py_iter (v : pyval) : Result (list pyval) :=
  match v with
  | PList l => Ok l
  | PStr s => Ok (chars s)
  | PDict d => Ok (map (fun kv => PStr (fst kv)) d)
  | _ => Raise TypeError
  end.

(** [v == s] for a string [s]: only a string equals a string. *)
Definition py_eq_str (v : pyval) (s : string) : bool :=
  match v with
  | PStr t => String.eqb t s
  | _ => false
  end.

(** [hash(v)] succeeds: lists and dictionaries are unhashable, a model
    instance hashes by its primary key. *)
Definition is_atom (v : pyval) : bool :=
  match v with
  | PNone | PBool _ | PInt _ | PStr _ | PUuid _ => true
  | _ => false
  end.

Definition hashable (v : pyval) : bool :=
  match v with
  | PList _ | PDict _ => false
  | PObj _ attrs =>
      match dict_get attrs "id" with
      | Some i => is_atom i && negb (match i with PNone => true | _ => false end)
      | None => false
      end
  | _ => true
  end.

Definition atom_eqb (a b : pyval) : bool :=
  match a, b with
  | PNone, PNone => true
  | PBool x, PBool y => Bool.eqb x y
  | PBool x, PInt n | PInt n, PBool x => n =? (if x then 1 else 0)
  | PInt n, PInt m => n =? m
  | PStr s, PStr t => String.eqb s t
  | PUuid s, PUuid t => String.eqb s t
  | _, _ => false
  end.

(** [a == b] between hashable values, as a set uses it ([True == 1];
    model instances are equal when class and primary key agree). *)
Definition hash_eqb (a b : pyval) : bool :=
  match a, b with
  | PObj c1 a1, PObj c2 a2 =>
      pyclass_eqb c1 c2 &&
      match dict_get a1 "id", dict_get a2 "id" with
      | Some i, Some j => atom_eqb i j
      | _, _ => false
      end
  | PObj _ _, _ | _, PObj _ _ => false
  | _, _ => atom_eqb a b
  end.

Definition hash_eq (a b : pyval) : Prop := hash_eqb a b = true.

(** [x in v] for a string [x]. *)
Fixpoint is_prefix (p s : string) : bool :=
  match p, s with
  | EmptyString, _ => true
  | String a p', String b s' => Ascii.eqb a b && is_prefix p' s'
  | String _ _, EmptyString => false
  end.

Fixpoint is_substring (p s : string) : bool :=
  is_prefix p s ||
  match s with
  | EmptyString => false
  | String _ s' => is_substring p s'
  end.

Definition py_in (x : string) (v : pyval) : Result bool :=
  match v with
  | PList l => Ok (existsb (fun e => py_eq_str e x) l)
  | PStr s => Ok (is_substring x s)
  | PDict d => Ok (dict_mem d x)
  | _ => Raise TypeError
  end.

End Py.

Import Py.

(* ===================================================================== *)
(** ** Field definitions (pentests.customfields.types) *)
(* ===================================================================== *)

Module Fields.

(** Modelled from the spec: the types of pentests.customfields.types
    ([EnumChoice], [FieldDataType], [BaseField] and its subclasses) are not
    part of entry.py.  The spec's data model has a field definition as a
    tagged variant over scalar, enum, CVSS, CWE, user, list, object and
    markdown, each with its identifier, list and object variants holding
    child definitions and enum variants an ordered set of {value, label}
    choices.  What entry.py reads of them ([type], [id], [choices],
    [items], [fields]) is kept; [default] serves the default fill. *)
Record EnumChoice : Type := mkEnumChoice {
  choice_value : string;
  choice_label : string
}.

(** [FieldDataType], as far as entry.py tells the kinds apart. *)
Inductive FieldDataType : Type :=
| SCALAR | MARKDOWN | ENUM | CVSS | CWE | USER | LIST | OBJECT.

(** A field definition: a tagged variant with the field's [id]; list and
    object fields hold their child definitions. *)
Inductive BaseField : Type :=
| ScalarField (id : string) (default : pyval)
| MarkdownField (id : string) (default : pyval)
| EnumField (id : string) (choices : list EnumChoice) (default : pyval)
| CvssField (id : string) (default : pyval)
| CweField (id : string) (default : pyval)
| UserField (id : string)
| ListField (id : string) (items : BaseField)
| ObjectField (id : string) (fields : list BaseField).

Definition field_id (f : BaseField) : string :=
  match f with
  | ScalarField i _ | MarkdownField i _ | EnumField i _ _ | CvssField i _
  | CweField i _ | UserField i | ListField i _ | ObjectField i _ => i
  end.

Definition field_type (f : BaseField) : FieldDataType :=
  match f with
  | ScalarField _ _ => SCALAR
  | MarkdownField _ _ => MARKDOWN
  | EnumField _ _ _ => ENUM
  | CvssField _ _ => CVSS
  | CweField _ _ => CWE
  | UserField _ => USER
  | ListField _ _ => LIST
  | ObjectField _ _ => OBJECT
  end.

Definition field_default (f : BaseField) : pyval :=
  match f with
  | ScalarField _ d | MarkdownField _ d | EnumField _ _ d | CvssField _ d
  | CweField _ d => d
  | _ => PNone
  end.

(** [(value if isinstance(value, dict) else {}).get(k)] *)
Definition child (value : pyval) (k : string) : pyval :=
  match value with
  | PDict d => dict_get_or d k PNone
  | _ => PNone
  end.

Definition fill_fields (eds : BaseField -> pyval -> pyval)
    (value : pyval) (fields : list BaseField) : list (string * pyval) :=
  fold_left
    (fun out f => dict_set out (field_id f) (eds f (child value (field_id f))))
    fields [].

(** Modelled from the spec: [ensure_defined_structure] of
    pentests.customfields.utils is not part of entry.py.  The spec has it
    reconcile a raw value against the schema with a "fill missing with
    schema default" policy so that structural gaps are closed before
    formatting: an object becomes a mapping with exactly the declared
    fields, a list stays a list of reconciled items (anything else becomes
    the empty list), and a missing leaf gets the field's default. *)
Fixpoint ensure_defined_structure (definition : BaseField) (value : pyval) : pyval :=
  match definition with
  | ObjectField _ fields =>
      PDict (fill_fields ensure_defined_structure value fields)
  | ListField _ items =>
      match value with
      | PList l => PList (map (ensure_defined_structure items) l)
      | _ => PList []
      end
  | _ =>
      match value with
      | PNone => field_default definition
      | _ => value
      end
  end.

(** [ensure_defined_structure] at a [FieldDefinition] or [ObjectField],
    given by its [fields]. *)
Definition ensure_defined_fields (value : pyval) (fields : list BaseField)
  : list (string * pyval) :=
  fill_fields ensure_defined_structure value fields.

(** Modelled from the spec: [ProjectType] of pentests.models is not part
    of entry.py.  The spec has it govern the report and finding field
    structure; kept are its id and name and the fields of
    [all_report_fields_obj] and of [finding_fields_obj]. *)
Record ProjectType : Type := mkProjectType {
  project_type_id : string;
  project_type_name : string;
  all_report_fields_obj : list BaseField;
  finding_fields_obj : list BaseField
}.

End Fields.

Import Fields.

(* ===================================================================== *)
(** ** [sorted]: stable sorting by a key *)
(* ===================================================================== *)

Module Sorting.

Section ByKey.
Variable A : Type.
Variable key : A -> Z.

(** [x] stood before every element of [l]: it passes the elements whose
    key is strictly smaller and stops in front of the first other one. *)
Fixpoint insert_by (x : A) (l : list A) : list A :=
  match l with
  | [] => [x]
  | y :: l' => if key y <? key x then y :: insert_by x l' else x :: y :: l'
  end.

(** [sorted(l, key=key)] for integer keys: comparisons cannot raise and
    the sort is stable. *)
Definition sorted_by (l : list A) : list A := fold_right insert_by [] l.
End ByKey.

Section ByKeyM.
Variables A K : Type.
Variable lt : K -> K -> Result bool.

Fixpoint insertM (x : K * A) (l : list (K * A)) : Result (list (K * A)) :=
  match l with
  | [] => Ok [x]
  | y :: l' =>
      match lt (fst y) (fst x) with
      | Raise e => Raise e
      | Ok true =>
          match insertM x l' with
          | Raise e => Raise e
          | Ok r => Ok (y :: r)
          end
      | Ok false => Ok (x :: y :: l')
      end
  end.

Fixpoint sortM (l : list (K * A)) : Result (list (K * A)) :=
  match l with
  | [] => Ok []
  | x :: l' => bind (sortM l') (insertM x)
  end.

(** [sorted(l, key=key)] where computing or comparing keys can raise: the
    keys are computed first, one per element, then the decorated list is
    sorted with [<] only.  When no comparison raises the result is the
    stable sort, whatever the order of comparisons. *)
Definition py_sorted (key : A -> Result K) (l : list A) : Result (list A) :=
  bind (mapM (fun x => bind (key x) (fun k => Ok (k, x))) l) (fun keyed =>
  bind (sortM keyed) (fun s => Ok (map snd s))).
End ByKeyM.

End Sorting.

Import Sorting.

(* ===================================================================== *)
(** ** The field value formatter and the template data assembler *)
(* ===================================================================== *)

Module Formatter.

(** Outcome of [PentestUser.objects.get(id=value)]: a user, or one of the
    two exceptions that [format_template_field_user] catches. *)
Inductive StoreOutcome : Type :=
| Found (user : pyval)
| DoesNotExist
| ValidationError.

(** What [cvss.calculate_metrics] returns: the metrics tree, and the number
    found in it under ["final"]["score"]. *)
Record CvssMetrics : Type := mkCvssMetrics {
  metrics_tree : list (string * pyval);
  final_score : Q
}.

(** Collaborators of entry.py that live elsewhere. *)
Class Collaborators : Type := {
  (** the order in which a [set] built from a list yields its elements *)
  set_iter : list pyval -> list pyval;
  (** [str(v)] for containers and model instances *)
  py_repr : pyval -> string;
  (** [cvss.calculate_metrics] *)
  calculate_metrics : pyval -> CvssMetrics;
  (** [str(round(score, 2))] *)
  score_round2_str : Q -> string;
  (** [cvss.level_from_score(score).value] *)
  level_from_score : Q -> string;
  (** [cvss.level_number_from_score] *)
  level_number_from_score : Q -> Z;
  (** [CweField.cwe_definitions()] *)
  cwe_definitions : list (list (string * pyval));
  (** [PentestUser.objects.get(id=value)] *)
  user_store_get : pyval -> StoreOutcome;
  (** [sort_findings(findings, project_type, override_finding_order)] *)
  sort_findings : list pyval -> ProjectType -> bool -> list pyval;
  (** the identifier [str(uuid.uuid4())] yields when the n-th object
      formatted with [require_id] (the report is 0, the findings follow)
      needs one *)
  uuid4 : nat -> string
}.

(** What the proofs use of a set: it yields values of the list it was built
    from, and no two of them are equal.  The order is the interpreter's. *)
Record set_iter_ok (iter : list pyval -> list pyval) : Prop := {
  set_iter_nodup : forall l, NoDupA (fun a b => hash_eqb a b = true) (iter l);
  set_iter_incl : forall l x, In x (iter l) -> In x l
}.

(** [sort_findings] reorders the findings it is given. *)
Definition sort_findings_ok (sort : list pyval -> ProjectType -> bool -> list pyval) : Prop :=
  forall findings project_type override,
    Permutation (sort findings project_type override) findings.

Section Format.
Context {C : Collaborators}.

(** [str(v)] *)
Definition py_str (v : pyval) : string :=
  match v with
  | PNone => "None"
  | PBool true => "True"
  | PBool false => "False"
  | PInt n => NilZero.string_of_int (Z.to_int n)
  | PStr s => s
  | PUuid s => s
  | _ => py_repr v
  end.

(** Modelled from the spec: [get_key_or_attr] of utils.utils is not part
    of entry.py.  The spec has member records that are mappings or
    materialized model instances; the helper reads the key of the one and
    the attribute of the other, and gives the default otherwise. *)
Definition get_key_or_attr (d : pyval) (k : string) (default : pyval) : pyval :=
  match d with
  | PDict e => dict_get_or e k default
  | PObj _ attrs => dict_get_or attrs k default
  | _ => default
  end.

(** Modelled from the spec: [copy_keys] of utils.utils is not part of
    entry.py.  The spec has a matched record "projected to a fixed
    contact-field subset": the listed keys that the record has, and no
    others. *)
Definition copy_keys (d : pyval) (keys : list string) : list (string * pyval) :=
  let source :=
    match d with
    | PDict e => e
    | PObj _ attrs => attrs
    | _ => []
    end in
  fold_left
    (fun out k =>
       match dict_get source k with
       | Some v => dict_set out k v
       | None => out
       end)
    keys [].

Definition user_keys : list string :=
  ["id"; "name"; "title_before"; "first_name"; "middle_name"; "last_name";
   "title_after"; "email"; "phone"; "mobile"].

(** [{'lead': 0, 'pentester': 1, 'reviewer': 2}.get(r, 10)] *)
Definition role_priority (r : pyval) : Z :=
  if py_eq_str r "lead" then 0
  else if py_eq_str r "pentester" then 1
  else if py_eq_str r "reviewer" then 2
  else 10.

(** [set(l)]: raises on an unhashable element. *)
Definition py_set (l : list pyval) : Result (list pyval) :=
  if forallb hashable l then Ok (set_iter l) else Raise TypeError.

(** [sorted(set(filter(None, roles)), key=...)] *)
Definition format_roles (roles : pyval) : Result (list pyval) :=
  bind (py_iter roles) (fun l =>
  bind (py_set (filter truthy l)) (fun s =>
  Ok (sorted_by role_priority s))).

(** The inner function [format_user] of [format_template_field_user]. *)
Definition format_user (u : pyval) : Result pyval :=
  if negb (truthy u) then Ok PNone
  else
    bind (match u with
          | PObj ProjectMemberInfo attrs =>
              match dict_get attrs "user" with
              | Some usr => Ok usr
              | None => Raise AttributeError
              end
          | _ => Ok u
          end) (fun source =>
    let contact := copy_keys source user_keys in
    bind (format_roles (get_key_or_attr u "roles" (PList []))) (fun roles =>
    Ok (PDict (dict_or contact [("roles", PList roles)])))).

Definition format_template_field_user (value : pyval) (members : option (list pyval))
  : Result pyval :=
  match value with
  | PObj _ _ | PDict _ | PNone => format_user value
  | PStr _ | PUuid _ =>
      let candidates := match members with Some l => l | None => [] end in
      let lookup_store :=
        match user_store_get value with
        | Found usr =>
            format_user (PObj ProjectMemberInfo [("user", usr); ("roles", PList [])])
        | DoesNotExist | ValidationError => Ok PNone
        end in
      match find (fun i => String.eqb (py_str (get_key_or_attr i "id" PNone))
                                      (py_str value)) candidates with
      | Some u => if truthy u then format_user u else lookup_store
      | None => lookup_store
      end
  | _ => Ok PNone
  end.

(** [dataclasses.asdict] of an [EnumChoice] *)
Definition asdict (c : EnumChoice) : pyval :=
  PDict [("value", PStr (choice_value c)); ("label", PStr (choice_label c))].

(** [next(filter(lambda c: value == f"CWE-{c['id']}", table), {})] *)
Fixpoint find_cwe (value : pyval) (table : list (list (string * pyval)))
  : Result (list (string * pyval)) :=
  match table with
  | [] => Ok []
  | c :: table' =>
      match dict_get c "id" with
      | None => Raise KeyError
      | Some i =>
          if py_eq_str value ("CWE-" ++ py_str i) then Ok c
          else find_cwe value table'
      end
  end.

Section ObjectLoop.
Variable fmt : BaseField -> pyval -> Result pyval.

(** The loop [for f in definition.fields: out[f.id] = fmt(out.get(f.id), f)]. *)
Fixpoint format_fields (fields : list BaseField) (out : list (string * pyval))
  : Result (list (string * pyval)) :=
  match fields with
  | [] => Ok out
  | f :: fields' =>
      match fmt f (dict_get_or out (field_id f) PNone) with
      | Raise e => Raise e
      | Ok v => format_fields fields' (dict_set out (field_id f) v)
      end
  end.

(** [out = value | ensure_defined_structure(value, definition)] and the
    loop over the fields; [dict | dict] is the only [|] that does not
    raise here. *)
Definition format_object (value : pyval) (fields : list BaseField)
  : Result (list (string * pyval)) :=
  match value with
  | PDict d => format_fields fields (dict_or d (ensure_defined_fields value fields))
  | _ => Raise TypeError
  end.
End ObjectLoop.

Fixpoint format_template_field (definition : BaseField) (value : pyval)
    (members : option (list pyval)) {struct definition} : Result pyval :=
  match definition with
  | EnumField _ choices _ =>
      Ok (asdict
            match find (fun c => py_eq_str value (choice_value c)) choices with
            | Some c => c
            | None => mkEnumChoice "" ""
            end)
  | CvssField _ _ =>
      let score_metrics := calculate_metrics value in
      let score := final_score score_metrics in
      Ok (PDict (dict_or (metrics_tree score_metrics)
                   [("vector", value);
                    ("score", PStr (score_round2_str score));
                    ("level", PStr (level_from_score score));
                    ("level_number", PInt (level_number_from_score score))]))
  | CweField _ _ =>
      bind (find_cwe value cwe_definitions) (fun cwe_definition =>
      Ok (PDict (dict_or [("id", PNone); ("name", PNone);
                          ("description", PNone); ("value", value)]
                         cwe_definition)))
  | UserField _ => format_template_field_user value members
  | ListField _ items =>
      match py_iter value with
      | Raise e => Raise e
      | Ok l =>
          match mapM (fun e => format_template_field items e members) l with
          | Ok out => Ok (PList out)
          | Raise e => Raise e
          end
      end
  | ObjectField _ fields =>
      match format_object (fun f v => format_template_field f v members)
              value fields with
      | Ok out => Ok (PDict out)
      | Raise e => Raise e
      end
  | ScalarField _ _ | MarkdownField _ _ => Ok value
  end.

Definition format_template_field_object (value : pyval) (fields : list BaseField)
    (members : option (list pyval)) (require_id : bool) (new_id : string)
  : Result pyval :=
  match format_object (fun f v => format_template_field f v members)
          value fields with
  | Raise e => Raise e
  | Ok out =>
      if require_id && negb (dict_mem out "id")
      then Ok (PDict (dict_set out "id" (PStr new_id)))
      else Ok (PDict out)
  end.

(** [a < b] between the second components of two sort keys, reached only
    when [a != b].  None is ordered with nothing; numbers and strings are
    ordered among themselves.  Containers and model instances, which no
    formatted member holds under 'username', are taken as unordered. *)
Definition value_lt (a b : pyval) : Result bool :=
  match a, b with
  | PNone, PNone => Ok false
  | PStr s, PStr t => Ok (String.ltb s t)
  | PUuid s, PUuid t => Ok (String.ltb s t)
  | PInt n, PInt m => Ok (n <? m)
  | PBool x, PBool y => Ok ((if x then 1 else 0) <? (if y then 1 else 0))
  | PBool x, PInt m => Ok ((if x then 1 else 0) <? m)
  | PInt n, PBool y => Ok (n <? (if y then 1 else 0))
  | _, _ => Raise TypeError
  end.

(** [(p1, n1) < (p2, n2)] on tuples: the first components decide unless
    they are equal. *)
Definition key_lt (a b : Z * pyval) : Result bool :=
  if fst a =? fst b then value_lt (snd a) (snd b) else Ok (fst a <? fst b).

(** The sort key of [data['pentesters']]:
    [(0 if 'lead' in u.get('roles', []) else 1 if 'pentester' in ... else
      2 if 'reviewer' in ... else 10, u.get('username'))]. *)
Definition pentester_key (u : pyval) : Result (Z * pyval) :=
  match u with
  | PDict d =>
      let roles := dict_get_or d "roles" (PList []) in
      bind (bind (py_in "lead" roles) (fun lead =>
            if lead then Ok 0 else
            bind (py_in "pentester" roles) (fun pentester =>
            if pentester then Ok 1 else
            bind (py_in "reviewer" roles) (fun reviewer =>
            if reviewer then Ok 2 else Ok 10)))) (fun p =>
      Ok (p, dict_get_or d "username" PNone))
  | _ => Raise AttributeError
  end.

(** The first component of the sort key: the role priority of a member. *)
Definition member_priority (u : pyval) : Z :=
  match pentester_key u with
  | Ok k => fst k
  | Raise _ => 10
  end.

Definition format_template_data (data : pyval) (project_type : ProjectType)
    (imported_members : option (list pyval)) (override_finding_order : bool)
  : Result pyval :=
  match data with
  | PDict d =>
      let imported := match imported_members with Some l => l | None => [] end in
      bind (match dict_get_or d "pentesters" (PList []) with
            | PList l => Ok (l ++ imported)%list
            | _ => Raise TypeError
            end) (fun pool =>
      bind (mapM (fun u => format_template_field_user u imported_members) pool)
           (fun members =>
      let report_fields := all_report_fields_obj project_type in
      let finding_fields := finding_fields_obj project_type in
      bind (format_template_field_object
              (PDict (ensure_defined_fields (dict_get_or d "report" (PDict []))
                                            report_fields))
              report_fields (Some members) true (uuid4 0%nat)) (fun report =>
      let d1 := dict_set d "report" report in
      bind (py_iter (dict_get_or d1 "findings" (PList []))) (fun raw_findings =>
      bind (mapM
              (fun nf =>
                 let f := snd nf in
                 format_template_field_object
                   (PDict (dict_or (match f with PDict e => e | _ => [] end)
                                   (ensure_defined_fields f finding_fields)))
                   finding_fields (Some members) true (uuid4 (fst nf)))
              (combine (seq 1 (length raw_findings)) raw_findings))
           (fun findings =>
      let d2 := dict_set d1 "findings"
                  (PList (sort_findings findings project_type
                                        override_finding_order)) in
      bind (py_sorted key_lt pentester_key members) (fun pentesters =>
      Ok (PDict (dict_set d2 "pentesters" (PList pentesters)))))))))
  | _ => Raise AttributeError
  end.
End Format.
End Formatter.

Import Formatter.

(* ===================================================================== *)
(** ** Polling a queued task: [get_celery_result_async] *)
(* ===================================================================== *)

Module Celery.

(** One turn of the loop, as the environment decides it: what
    [task.ready()] answers, what [timezone.now()] would answer, and whether
    the coroutine is cancelled while it sleeps.  Times are in
    milliseconds. *)
Record turn : Type := mkTurn {
  ready : bool;
  now : Z;
  sleep_cancelled : bool
}.

(** What the coroutine does to the outside, in order. *)
Inductive effect : Type :=
| Poll                                  (* task.ready() *)
| Sleep (ms : Z)                        (* await asyncio.sleep(ms / 1000) *)
| Revoke (terminate wait : bool).       (* task.revoke(terminate=, wait=) *)

(** What [await sync_to_async(task.revoke)(terminate=True, wait=False)]
    gives the coroutine: it returns, or it raises. *)
Inductive revoke_outcome : Type :=
| Revoked
| RevokeRaises (e : exn).

(** [task.result]: a value, or an exception instance. *)
Inductive task_result : Type :=
| Value (v : pyval)
| Failure (e : exn).

Record Env : Type := mkEnv {
  start_time : Z;
  turns : list turn;
  result : task_result;
  revoke : revoke_outcome
}.

Inductive outcome : Type :=
| Returned (r : task_result)
| Raised (e : exn)
| Pending.          (* the script of turns ended while the loop still waits *)

(** How the [while] loop ends. *)
Inductive loop_exit : Type :=
| Ready
| TimedOut
| CancelledInSleep
| StillWaiting.

(** [bool(timeout)]: None and a zero timedelta are falsy. *)
Definition timeout_set (timeout : option Z) : bool :=
  match timeout with
  | Some d => negb (d =? 0)
  | None => false
  end.

Definition expired (start : Z) (timeout : option Z) (t : turn) : bool :=
  match timeout with
  | Some d => timeout_set timeout && (start + d <? now t)
  | None => false
  end.

(** [while not task.ready(): if timeout and now() > start + timeout: raise
    TimeoutError(); await asyncio.sleep(0.1)] *)
Fixpoint poll (start : Z) (timeout : option Z) (ts : list turn)
  : list effect * loop_exit :=
  match ts with
  | [] => ([], StillWaiting)
  | t :: ts' =>
      if ready t then ([Poll], Ready)
      else if expired start timeout t then ([Poll], TimedOut)
      else if sleep_cancelled t then ([Poll; Sleep 100], CancelledInSleep)
      else
        let (es, x) := poll start timeout ts' in
        (Poll :: Sleep 100 :: es, x)
  end.

Definition get_celery_result_async (env : Env) (timeout : option Z)
  : list effect * outcome :=
  let (es, x) := poll (start_time env) timeout (turns env) in
  match x with
  | Ready =>
      (* if isinstance(task.result, Exception): raise task.result
         return task.result *)
      match result env with
      | Failure e => if is_Exception e then (es, Raised e)
                     else (es, Returned (result env))
      | Value _ => (es, Returned (result env))
      end
  | TimedOut => (es, Raised (TimeoutError ""))
  | CancelledInSleep =>
      (* except asyncio.CancelledError: try: revoke except Exception: pass; raise *)
      let es' := (es ++ [Revoke true false])%list in
      match revoke env with
      | Revoked => (es', Raised CancelledError)
      | RevokeRaises e =>
          if is_Exception e then (es', Raised CancelledError) else (es', Raised e)
      end
  | StillWaiting => (es, Pending)
  end.

(** The shape of a polling trace: readiness checks separated by sleeps of
    [interval] milliseconds, possibly closed by a revocation. *)
Inductive polling (interval : Z) : list effect -> Prop :=
| polling_nil : polling interval []
| polling_last : polling interval [Poll]
| polling_revoke : forall terminate wait,
    polling interval [Poll; Sleep interval; Revoke terminate wait]
| polling_step : forall es,
    polling interval es -> polling interval (Poll :: Sleep interval :: es).

(** A turn on which the loop goes round once more. *)
Definition quiet (start : Z) (timeout : option Z) (t : turn) : bool :=
  negb (ready t) && negb (expired start timeout t) && negb (sleep_cancelled t).

(** What the loop does over the turns [pre] when all of them are quiet. *)
Definition rounds (pre : list turn) : list effect :=
  flat_map (fun _ => [Poll; Sleep 100]) pre.

End Celery.

(* ===================================================================== *)
(** ** The render stage result and [render_pdf_task] *)
(* ===================================================================== *)

Module RenderTask.

(** Modelled from the spec: the message types of
    tasks.rendering.error_messages are not part of entry.py.  The spec has
    a diagnostic message carry a severity, a text and an optional
    source-location pointer (here: type, id and name). *)
Inductive MessageLevel : Type := ERROR | WARNING | INFO | DEBUG.

Inductive MessageLocationType : Type := DESIGN | OTHER_LOCATION.

Record MessageLocationInfo : Type := mkLocation {
  location_type : MessageLocationType;
  location_id : string;
  location_name : string
}.

Record ErrorMessage : Type := mkMessage {
  level : MessageLevel;
  message : string;
  location : option MessageLocationInfo
}.

(** Modelled from the spec: [RenderStageResult] of
    tasks.rendering.render_utils is not part of entry.py.  The spec has it
    hold optional output bytes, an ordered sequence of messages, a mapping
    from stage name to elapsed seconds and an auxiliary bag.  Durations are
    exact numbers (integers, in microseconds): the rounding of Python
    floats is left out, and what is proved about timings is the formula
    the code evaluates, by no law of arithmetic that floats lack. *)
Record RenderStageResult : Type := mkResult {
  pdf : option string;
  messages : list ErrorMessage;
  timings : list (string * Z);
  other : list (string * pyval)
}.

(** [if not res.pdf]: None and empty bytes are falsy. *)
Definition has_pdf (r : RenderStageResult) : bool :=
  match pdf r with
  | Some b => negb (String.eqb b "")
  | None => false
  end.

(** Modelled from the spec: [RenderStageResult.add_timing] is not part of
    entry.py.  The spec has it record the duration of the enclosed work
    under the stage name. *)
Definition add_timing (r : RenderStageResult) (name : string) (elapsed : Z)
  : RenderStageResult :=
  mkResult (pdf r) (messages r) (dict_set (timings r) name elapsed) (other r).

(** Modelled from the spec: the merge [res |= sub] of [RenderStageResult] is
    not part of entry.py.  The spec has it concatenate the messages in
    order, overwrite timings by key, take the other's output bytes if
    present, and merge the auxiliary bag shallowly, the other winning. *)
Definition merge (r sub : RenderStageResult) : RenderStageResult :=
  mkResult
    (match pdf sub with Some b => Some b | None => pdf r end)
    (messages r ++ messages sub)%list
    (dict_or (timings r) (timings sub))
    (dict_or (other r) (other sub)).

Definition set_timing (r : RenderStageResult) (name : string) (v : Z)
  : RenderStageResult :=
  mkResult (pdf r) (messages r) (dict_set (timings r) name v) (other r).

(** [sum(timings.values())] *)
Definition total (t : list (string * Z)) : Z :=
  fold_left Z.add (map snd t) 0.

(** A [datetime]: its place on the time line in microseconds (its
    wall-clock reading, when it has no UTC offset) and whether it has a
    UTC offset. *)
Record datetime : Type := mkDatetime {
  instant : Z;
  aware : bool
}.

(** [(a - b).total_seconds()], in microseconds: an offset-naive and an
    offset-aware datetime cannot be subtracted. *)
Definition elapsed (a b : datetime) : Result Z :=
  if Bool.eqb (aware a) (aware b) then Ok (instant a - instant b)
  else Raise TypeError.

(** What happens around [render_pdf_task] during one call. *)
Record Env : Type := mkEnv {
  (** duration of the 'collect_data' block, and what [format_resources]
      did in it *)
  collect_data_elapsed : Z;
  resources : Result (list (string * string));
  (** [timezone.now()] just before the task is submitted *)
  before_task_start : datetime;
  (** duration of the 'task_total' block *)
  task_total_elapsed : Z;
  (** outcome of [_render_pdf_task_async] *)
  worker : Result RenderStageResult;
  (** what [dateparse.parse_datetime] makes of a text: a datetime (with
      an offset if the text has one), None for text that is no date, or an
      exception (ValueError for a date that is well formatted but does not
      exist) *)
  parse_text : string -> Result (option datetime)
}.

(** [dateparse.parse_datetime(value)] of django.utils: it hands [value] to
    [datetime.fromisoformat] and, when that finds no ISO date, to a
    regular-expression match.  Both take a string and raise TypeError on
    anything else, None included. *)
Definition parse_datetime (env : Env) (value : pyval) : Result (option datetime) :=
  match value with
  | PStr s => parse_text env s
  | _ => Raise TypeError
  end.

(** The accumulator when the task is submitted: the timings passed in,
    'collect_data', and 'queue' set to 0.0. *)
Definition at_submission (env : Env) (timings0 : option (list (string * Z)))
  : RenderStageResult :=
  let res := mkResult None [] (match timings0 with Some t => t | None => [] end) [] in
  set_timing (add_timing res "collect_data" (collect_data_elapsed env)) "queue" 0.

(** The accumulator after [res |= res_pdf], with 'task_total' recorded when
    its block was left. *)
Definition after_merge (env : Env) (timings0 : option (list (string * Z)))
    (res_pdf : RenderStageResult) : RenderStageResult :=
  merge (add_timing (at_submission env timings0) "task_total" (task_total_elapsed env))
        res_pdf.

(** [res.other.pop('task_start_time', None)]: the value handed to the date
    parser. *)
Definition popped_start_time (r : RenderStageResult) : pyval :=
  dict_get_or (other r) "task_start_time" PNone.

(** [(task_start_time - before_task_start).total_seconds()] when the
    parser gave a datetime (a datetime is always truthy): the new 'queue',
    if there is one. *)
Definition queue_time (env : Env) (task_start_time : option datetime)
  : Result (option Z) :=
  match task_start_time with
  | Some t => bind (elapsed t (before_task_start env)) (fun q => Ok (Some q))
  | None => Ok None
  end.

(** The timings when 'other' is computed: 'queue' reconciled if the worker
    reported a start. *)
Definition reconciled_timings (r : RenderStageResult) (queue : option Z)
  : list (string * Z) :=
  match queue with
  | Some q => dict_set (timings r) "queue" q
  | None => timings r
  end.

(** The stamp put on messages that have no location. *)
Definition stamp (project_type : ProjectType) (m : ErrorMessage) : ErrorMessage :=
  match location m with
  | Some _ => m
  | None =>
      mkMessage (level m) (message m)
        (Some (mkLocation DESIGN (project_type_id project_type)
                                 (project_type_name project_type)))
  end.

Definition render_pdf_task (env : Env) (project_type : ProjectType)
    (timings0 : option (list (string * Z))) : Result RenderStageResult :=
  bind (resources env) (fun _ =>
  let timing_before_task_total := total (timings (at_submission env timings0)) in
  bind (worker env) (fun res_pdf =>
  let res := after_merge env timings0 res_pdf in
  let popped := popped_start_time res in
  let other' := dict_remove (other res) "task_start_time" in
  bind (parse_datetime env popped) (fun task_start_time =>
  bind (queue_time env task_start_time) (fun queue =>
  let t := reconciled_timings res queue in
  match dict_get t "task_total" with
  | None => Raise KeyError
  | Some task_total =>
      let rest := dict_remove t "task_total" in
      let t' := dict_set rest "other"
                  (Z.max 0 (task_total + timing_before_task_total - total rest)) in
      Ok (mkResult (pdf res) (map (stamp project_type) (messages res)) t' other')
  end)))).

End RenderTask.

(* ===================================================================== *)
(** ** [render_project_markdown_fields_to_html] *)
(* ===================================================================== *)

Module Markdown.

Import RenderTask.

(** An lxml element: its attributes and children. *)
Inductive element : Type :=
| Element (attrib : list (string * string)) (children : list element).

Definition attrib (e : element) : list (string * string) :=
  match e with Element a _ => a end.

Definition getchildren (e : element) : list element :=
  match e with Element _ c => c end.

(** [l[i]] *)
Definition item {A : Type} (l : list A) (i : nat) : Result A :=
  match nth_error l i with
  | Some x => Ok x
  | None => Raise IndexError
  end.

(** [d[k]] on a value *)
Definition subscript (v : pyval) (k : string) : Result pyval :=
  match v with
  | PDict d => match dict_get d k with Some x => Ok x | None => Raise KeyError end
  | _ => Raise TypeError
  end.

(** What the function receives from outside during one call. *)
Record Env : Type := mkEnv {
  (** the markdown fields collected from sections and findings, by
      serialized path *)
  markdown_fields : list (string * string);
  (** outcome of [render_pdf_task] on the synthetic template *)
  rendered : Result RenderStageResult;
  (** [etree.HTML(text)]: an element, None for an empty document, or an
      exception *)
  etree_HTML : string -> Result (option element);
  (** [etree.tostring(e, method="html", pretty_print=True).decode()] *)
  tostring : element -> string;
  (** [PentestProjectDetailSerializer(instance=project, ...).data] *)
  serialized : Result pyval;
  (** [json.loads] on a serialized path *)
  json_loads : string -> Result (list string);
  (** [set_value_at_path(data, path, value)], giving the updated data *)
  set_value_at_path : pyval -> list string -> string -> Result pyval
}.

(** Modelled from the spec: [RenderStageResult.to_dict] is not part of
    entry.py.  The spec has it produce a plain form of the accumulator
    (bytes, messages, timings, auxiliary bag); it has no 'result' entry.
    What the call returns is that form, [ToDict res], or the dict with
    'result' and 'messages' that [format_output] builds. *)
Inductive output : Type :=
| ToDict (res : RenderStageResult)
| WithResult (result : pyval) (messages : list ErrorMessage).

Definition has_result (o : output) : bool :=
  match o with
  | WithResult _ _ => true
  | ToDict _ => false
  end.

Definition output_messages (o : output) : list ErrorMessage :=
  match o with
  | WithResult _ m => m
  | ToDict r => messages r
  end.

(** The loop over the rendered nodes: a node whose id is a known key
    replaces the markdown text by its serialized children. *)
Definition extract (env : Env) (nodes : list element)
    (fields : list (string * string)) : list (string * string) :=
  fold_left
    (fun acc mdf =>
       match dict_get (attrib mdf) "id" with
       | Some mdf_id =>
           if dict_mem acc mdf_id
           then dict_set acc mdf_id
                  (String.concat "" (map (tostring env) (getchildren mdf)))
           else acc
       | None => acc
       end)
    nodes fields.

(** [next(filter(lambda s: s['id'] == id, items))['data']] followed by
    [set_value_at_path] on it: the first item with that id gets its data
    updated in place. *)
Fixpoint splice_item (env : Env) (items : list pyval) (id : string)
    (path : list string) (html : string) : Result (list pyval) :=
  match items with
  | [] => Raise StopIteration
  | s :: items' =>
      bind (subscript s "id") (fun sid =>
      if py_eq_str sid id then
        bind (subscript s "data") (fun data =>
        bind (set_value_at_path env data path html) (fun data' =>
        match s with
        | PDict d => Ok (PDict (dict_set d "data" data') :: items')
        | _ => Raise TypeError
        end))
      else
        bind (splice_item env items' id path html) (fun r => Ok (s :: r)))
  end.

Definition splice (env : Env) (result : pyval) (entry : string * string)
  : Result pyval :=
  bind (json_loads env (fst entry)) (fun path =>
  bind (item path 0) (fun kind =>
  if String.eqb kind "sections" || String.eqb kind "findings" then
    bind (item path 1) (fun id =>
    bind (subscript result kind) (fun items =>
    bind (py_iter items) (fun l =>
    bind (splice_item env l id (skipn 2 path) (snd entry)) (fun l' =>
    match result with
    | PDict d => Ok (PDict (dict_set d kind (PList l')))
    | _ => Raise TypeError
    end))))
  else Ok result)).

Fixpoint splice_all (env : Env) (result : pyval) (entries : list (string * string))
  : Result pyval :=
  match entries with
  | [] => Ok result
  | e :: entries' => bind (splice env result e) (fun r => splice_all env r entries')
  end.

(** The inner function [format_output]: parse the rendered markup, take the
    fragments out, serialize the project and put the fragments in. *)
Definition format_output (env : Env) (res : RenderStageResult) : Result output :=
  bind (etree_HTML env (match pdf res with Some b => b | None => "" end))
       (fun html_tree =>
  bind (match html_tree with
        | Some root => Ok root
        | None => Raise AttributeError
        end) (fun root =>
  bind (item (getchildren root) 1) (fun body =>
  bind (item (getchildren body) 0) (fun wrapper =>
  let rendered_md_nodes := getchildren wrapper in
  let fields := extract env rendered_md_nodes (markdown_fields env) in
  bind (serialized env) (fun result =>
  bind (splice_all env result fields) (fun result' =>
  Ok (WithResult result' (messages res)))))))).

Definition formatting_error : ErrorMessage :=
  mkMessage ERROR "Error while formatting output" None.

(** What [await sync_to_async(f)()] gives the coroutine.  [f] runs in a
    worker thread and its outcome is copied to a future of the event loop.
    The loop's futures refuse a StopIteration: [Future.set_exception]
    raises TypeError in the loop's callback, where nothing catches it, so
    the future is never resolved and the coroutine is never resumed (CPython
    before 3.13, which hands over a RuntimeError instead). *)
Inductive awaited (A : Type) : Type :=
| Resumed (r : Result A)
| NeverResumed.

Arguments Resumed {A} r.
Arguments NeverResumed {A}.

Definition sync_to_async {A : Type} (r : Result A) : awaited A :=
  match r with
  | Raise StopIteration => NeverResumed
  | _ => Resumed r
  end.

(** The call as a whole: [try: return await sync_to_async(format_output)()
    except Exception: ...] after the render. *)
Definition render_project_markdown_fields_to_html (env : Env) : awaited output :=
  match rendered env with
  | Raise e => Resumed (Raise e)
  | Ok res =>
      if negb (has_pdf res) then Resumed (Ok (ToDict res))
      else
        match sync_to_async (format_output env res) with
        | NeverResumed => NeverResumed
        | Resumed (Ok out) => Resumed (Ok out)
        | Resumed (Raise e) =>
            if is_Exception e then
              Resumed
                (Ok (ToDict (mkResult (pdf res)
                               (messages res ++ [formatting_error])%list
                               (timings res) (other res))))
            else Resumed (Raise e)
        end
  end.

(** A call that raises nothing but instances of Exception. *)
Definition only_exceptions {A : Type} (r : Result A) : Prop :=
  forall e, r = Raise e -> is_Exception e = true.

(** The parser, the serializer, the JSON decoder and the path setter fail,
    when they do, with instances of Exception. *)
Record fails_with_exceptions (env : Env) : Prop := {
  etree_HTML_fails : forall text, only_exceptions (etree_HTML env text);
  serialized_fails : only_exceptions (serialized env);
  json_loads_fails : forall s, only_exceptions (json_loads env s);
  set_value_at_path_fails :
    forall data path html, only_exceptions (set_value_at_path env data path html)
}.

End Markdown.

(* ===================================================================== *)
(** ** Submitting the render: [_render_pdf_task_async] *)
(* ===================================================================== *)

Module RenderAsync.

(** [settings], as far as [_render_pdf_task_async] reads them: the limit
    is in seconds, None or 0 meaning that none is configured. *)
Record Settings : Type := mkSettings {
  PDF_RENDERING_TIME_LIMIT : option Z;
  CELERY_TASK_ALWAYS_EAGER : bool
}.

(** [bool(settings.PDF_RENDERING_TIME_LIMIT)] *)
Definition limit_set (settings : Settings) : bool :=
  match PDF_RENDERING_TIME_LIMIT settings with
  | Some l => negb (l =? 0)
  | None => false
  end.

(** [if not timeout and settings.PDF_RENDERING_TIME_LIMIT:
       timeout = timedelta(seconds=settings.PDF_RENDERING_TIME_LIMIT + 5)],
    timeouts being in milliseconds. *)
Definition effective_timeout (settings : Settings) (timeout : option Z) : option Z :=
  if negb (Celery.timeout_set timeout) && limit_set settings
  then match PDF_RENDERING_TIME_LIMIT settings with
       | Some l => Some ((l + 5) * 1000)
       | None => timeout
       end
  else timeout.

(** What happens around one call. *)
Record Env : Type := mkEnv {
  (** [await asyncio.wait_for(tasks.render_pdf_task_async(...),
      timeout=...)], given the timeout: the dict the task returns, or what
      the wait raises (CancelledError, the task's error, and for an expired
      wait the builtin TimeoutError on interpreters where asyncio's is the
      builtin one, an [OtherException] elsewhere) *)
  inline : Z -> Result pyval;
  (** what [await sync_to_async(tasks.render_pdf_task_celery.delay)(...)]
      gives the coroutine: the queued task, or the error of submitting
      it *)
  delay : Result Celery.Env;
  (** [RenderStageResult.from_dict(res)] *)
  from_dict : Celery.task_result -> Result RenderTask.RenderStageResult
}.

Inductive outcome : Type :=
| Done (r : Result RenderTask.RenderStageResult)
| Waiting.          (* the queued task's script of turns ended *)

(** The two handlers: a cancellation is logged and raised again, a
    TimeoutError becomes [TimeoutError('PDF rendering timeout')]; anything
    else passes. *)
Definition reraise (e : exn) : exn :=
  match e with
  | TimeoutError _ => TimeoutError "PDF rendering timeout"
  | _ => e
  end.

Definition handled {A : Type} (r : Result A) : Result A :=
  match r with
  | Ok a => Ok a
  | Raise e => Raise (reraise e)
  end.

Definition _render_pdf_task_async (settings : Settings) (env : Env)
    (timeout : option Z) : list Celery.effect * outcome :=
  let timeout := effective_timeout settings timeout in
  if CELERY_TASK_ALWAYS_EAGER settings then
    match timeout with
    | None => ([], Done (Raise AttributeError))   (* None.total_seconds() *)
    | Some ms =>
        ([], Done (handled (bind (inline env ms)
                                 (fun res => from_dict env (Celery.Value res)))))
    end
  else
    match delay env with
    | Raise e => ([], Done (Raise (reraise e)))
    | Ok task =>
        let (effects, polled) := Celery.get_celery_result_async task timeout in
        match polled with
        | Celery.Returned res => (effects, Done (handled (from_dict env res)))
        | Celery.Raised e => (effects, Done (Raise (reraise e)))
        | Celery.Pending => (effects, Waiting)
        end
    end.

End RenderAsync.

(* ===================================================================== *)
(** ** The resources sent to the worker: [format_resources] *)
(* ===================================================================== *)

Module Resources.

(** An uploaded asset or image: its name and the bytes of its file. *)
Record StoredFile : Type := mkFile {
  file_name : string;
  file_bytes : string
}.

(** The files of a project: its images, and whether it references one
    ([project.is_file_referenced(i, sections=True, findings=True,
    notes=False)]). *)
Record ProjectFiles : Type := mkProjectFiles {
  images : list StoredFile;
  is_file_referenced : StoredFile -> bool
}.

Section Comprehension.
Variable A : Type.
Variables (key value : A -> string).

(** A dict comprehension [{key(x): value(x) for x in xs}]. *)
Definition comprehension (xs : list A) : list (string * string) :=
  fold_left (fun acc x => dict_set acc (key x) (value x)) xs [].
End Comprehension.

Section FormatResources.
(** [b64encode(bytes).decode()] *)
Variable b64encode : string -> string.

Definition asset_key (a : StoredFile) : string := "/assets/name/" ++ file_name a.
Definition image_key (i : StoredFile) : string := "/images/name/" ++ file_name i.
Definition encoded (f : StoredFile) : string := b64encode (file_bytes f).

(** The inner function [format_resources] of [render_pdf_task]. *)
Definition format_resources (assets : list StoredFile) (project : option ProjectFiles)
  : list (string * string) :=
  let resources := dict_or [] (comprehension asset_key encoded assets) in
  match project with
  | Some p =>
      dict_or resources
        (comprehension image_key encoded (filter (is_file_referenced p) (images p)))
  | None => resources
  end.
End FormatResources.

End Resources.

(* ===================================================================== *)
(** ** Template data of a stored project: [format_project_template_data] *)
(* ===================================================================== *)

Module ProjectData.

(** A finding of the project: [str(f.finding_id)], [str(f.created)],
    [f.order] and [f.data]. *)
Record Finding : Type := mkFinding {
  finding_id : string;
  created : string;
  order : Z;
  finding_data : list (string * pyval)
}.

(** Modelled from the spec: [PentestProject] of pentests.models is not part
    of entry.py.  Kept is what [format_project_template_data] reads: the
    id, the report data, the findings, the members, the imported members,
    the flag that overrides the finding order, and the project type. *)
Record PentestProject : Type := mkProject {
  project_id : string;
  project_data : list (string * pyval);
  findings : list Finding;
  members : list pyval;
  imported_members : option (list pyval);
  override_finding_order : bool;
  project_type : ProjectType
}.




End ProjectData.

(* ===================================================================== *)
(** ** Shapes: what the claims say about values and schemas *)
(* ===================================================================== *)

Module Shape.

Section All.
Variable A : Type.
Variable P : A -> Prop.

(** [P] holds of every element. *)
Fixpoint list_all (l : list A) : Prop :=
  match l with
  | [] => True
  | x :: l' => P x /\ list_all l'
  end.
End All.

(** A formatted value has every key its schema declares, at every depth:
    an object holds an entry for each declared field, complete in turn; a
    list holds complete items. *)
Fixpoint complete (definition : BaseField) (v : pyval) : Prop :=
  match definition with
  | ListField _ items => exists l, v = PList l /\ Forall (complete items) l
  | ObjectField _ fields =>
      exists d, v = PDict d /\
        list_all (fun f => exists x, dict_get d (field_id f) = Some x /\ complete f x)
                 fields
  | _ => True
  end.

(** [complete] at a [FieldDefinition], given by its fields. *)
Definition complete_fields (fields : list BaseField) (d : list (string * pyval)) : Prop :=
  Forall (fun f => exists x, dict_get d (field_id f) = Some x /\ complete f x) fields.

(** The schema invariant of the data model: within one object, field ids
    are distinct. *)
Fixpoint unique_ids (definition : BaseField) : Prop :=
  match definition with
  | ListField _ items => unique_ids items
  | ObjectField _ fields =>
      NoDup (map field_id fields) /\ list_all unique_ids fields
  | _ => True
  end.

Definition unique_field_ids (fields : list BaseField) : Prop :=
  NoDup (map field_id fields) /\ Forall unique_ids fields.

(** A roles value that can be filtered, put in a set and sorted: it is
    iterable and its truthy elements are hashable. *)
Definition roles_ok (roles : pyval) : bool :=
  match py_iter roles with
  | Ok l => forallb hashable (filter truthy l)
  | Raise _ => false
  end.

(** A user value that [format_user] can project: empty, or a record with
    usable roles (and with its [user], for a ProjectMemberInfo).  Other
    values are ids or are not records at all. *)
Definition record_ok (u : pyval) : bool :=
  negb (truthy u) ||
  (match u with
   | PObj ProjectMemberInfo attrs => dict_mem attrs "user"
   | _ => true
   end &&
   roles_ok (get_key_or_attr u "roles" (PList []))).

Definition members_ok (members : option (list pyval)) : Prop :=
  match members with
  | Some l => Forall (fun u => record_ok u = true) l
  | None => True
  end.

(** Every entry of the CWE table has its 'id'. *)
Definition cwe_table_ok {C : Collaborators} : Prop :=
  Forall (fun c => dict_mem c "id" = true) cwe_definitions.

(** A value that is well-formed for its field: an iterable of well-formed
    items for a list field; a mapping whose declared children are
    well-formed once the defaults are filled in, for an object field; a
    usable reference for a user field. *)
Fixpoint well_formed (definition : BaseField) (value : pyval) : Prop :=
  match definition with
  | UserField _ => record_ok value = true
  | ListField _ items =>
      exists l, py_iter value = Ok l /\ Forall (well_formed items) l
  | ObjectField _ fields =>
      exists d, value = PDict d /\
        list_all
          (fun f => well_formed f
                      (ensure_defined_structure f (dict_get_or d (field_id f) PNone)))
          fields
  | _ => True
  end.

(** The user references that a raw value holds where the schema has user
    fields are usable; nothing is asked of the value's shape. *)
Fixpoint references_usable (definition : BaseField) (value : pyval) : Prop :=
  match definition with
  | UserField _ => record_ok value = true
  | ListField _ items =>
      match value with
      | PList l => Forall (references_usable items) l
      | _ => True
      end
  | ObjectField _ fields =>
      list_all (fun f => references_usable f (child value (field_id f))) fields
  | _ => True
  end.

(** A list is sorted by [key]: keys never decrease. *)
Definition sorted_by_key {A : Type} (key : A -> Z) (l : list A) : Prop :=
  StronglySorted (fun a b => key a <= key b) l.

(** Two lists hold the elements of key [k] in the same order. *)
Definition same_order_at {A : Type} (key : A -> Z) (k : Z) (l1 l2 : list A) : Prop :=
  filter (fun a => key a =? k) l1 = filter (fun a => key a =? k) l2.

(** The strings of a list of roles that have priority 10, in order. *)
Definition other_roles (roles : list pyval) : list string :=
  flat_map (fun r => match r with
                     | PStr s => if role_priority r =? 10 then [s] else []
                     | _ => []
                     end) roles.

(** Natural (lexicographic) order on strings. *)
Definition lexicographic (l : list string) : Prop :=
  StronglySorted (fun a b => String.leb a b = true) l.

End Shape.

(* ===================================================================== *)
(** ** A concrete set of collaborators, for examples *)
(* ===================================================================== *)

Module Sample.

(** A set that yields its elements in insertion order, each once. *)
Fixpoint insertion_order (l : list pyval) : list pyval :=
  match l with
  | [] => []
  | x :: l' => x :: filter (fun y => negb (hash_eqb x y)) (insertion_order l')
  end.

Definition admin : pyval :=
  PObj PentestUser
    [("id", PStr "u-1"); ("username", PStr "admin"); ("name", PStr "Ada Admin");
     ("email", PStr "ada@example.com")].

Definition collaborators : Collaborators := {|
  set_iter := insertion_order;
  py_repr := fun _ => "<object>";
  calculate_metrics := fun _ =>
    mkCvssMetrics [("final", PDict [("score", PInt 0)])] 0%Q;
  score_round2_str := fun _ => "0.0";
  level_from_score := fun _ => "info";
  level_number_from_score := fun _ => 1;
  cwe_definitions :=
    [[("id", PInt 79); ("name", PStr "Cross-site Scripting");
      ("description", PStr "Improper neutralization of input")]];
  user_store_get := fun v => if py_eq_str v "u-1" then Found admin else DoesNotExist;
  sort_findings := fun findings _ _ => findings;
  uuid4 := fun n => "generated-" ++ NilZero.string_of_uint (Nat.to_uint n)
|}.

Definition finding_schema : list BaseField :=
  [ScalarField "title" (PStr "TODO");
   CweField "cwe" PNone;
   ListField "affected" (ScalarField "" PNone);
   ObjectField "contact" [UserField "owner"; ScalarField "note" (PStr "")]].

Definition report_schema : list BaseField :=
  [ScalarField "title" (PStr "Report");
   EnumField "scope" [mkEnumChoice "web" "Web"; mkEnumChoice "net" "Network"] PNone].

Definition project_type : ProjectType :=
  mkProjectType "pt-1" "Demo design" report_schema finding_schema.

(** A task that is not ready when its 250 ms have passed. *)
Definition slow_task : Celery.Env :=
  Celery.mkEnv 1000
    [Celery.mkTurn false 1000 false; Celery.mkTurn false 1100 false;
     Celery.mkTurn false 1200 false; Celery.mkTurn false 1300 false;
     Celery.mkTurn true 1400 false]
    (Celery.Value (PStr "done")) Celery.Revoked.

(** A poll that is cancelled in its second sleep; the revocation fails. *)
Definition cancelled_task : Celery.Env :=
  Celery.mkEnv 1000
    [Celery.mkTurn false 1000 false; Celery.mkTurn false 1100 true;
     Celery.mkTurn true 1200 false]
    (Celery.Value (PStr "done"))
    (Celery.RevokeRaises (OtherException "OperationalError")).

(** The date parser on the texts of the examples: a datetime for the two
    well-formed texts, the second without offset, None for other text. *)
Definition parse_text (s : string) : Result (option RenderTask.datetime) :=
  if String.eqb s "2024-05-01T10:00:02+00:00"
  then Ok (Some (RenderTask.mkDatetime 1714557602000000 true))
  else if String.eqb s "2024-05-01T10:00:02"
  then Ok (Some (RenderTask.mkDatetime 1714557602000000 false))
  else Ok None.

(** A render of 5.5 s, submitted at 10:00:00 after 0.5 s of data
    collection; the worker started at 10:00:02 and rendered for 3 s. *)
Definition render_env (aux : list (string * pyval)) : RenderTask.Env :=
  RenderTask.mkEnv 500000 (Ok [])
    (RenderTask.mkDatetime 1714557600000000 true) 5500000
    (Ok (RenderTask.mkResult (Some "%PDF-1.7")
           [RenderTask.mkMessage RenderTask.WARNING "font not found" None]
           [("render", 3000000)] aux))
    parse_text.

(** A project with one section and one markdown field, rendered to the
    markup [tree]; [rendered] is what the render call gave. *)
Definition markdown_env (rendered : Result RenderTask.RenderStageResult)
    (tree : Result (option Markdown.element)) : Markdown.Env :=
  Markdown.mkEnv
    [("[sections, s1, summary]", "**bold**")]
    rendered
    (fun _ => tree)
    (fun _ => "<p><strong>bold</strong></p>")
    (Ok (PDict [("id", PStr "p1");
                ("sections",
                 PList [PDict [("id", PStr "s1");
                               ("data", PDict [("summary", PStr "**bold**");
                                               ("title", PStr "Summary")])]]);
                ("findings", PList [])]))
    (fun s => if String.eqb s "[sections, s1, summary]"
              then Ok ["sections"; "s1"; "summary"]
              else Raise ValueError)
    (fun data path html =>
       match data, path with
       | PDict d, [k] => Ok (PDict (dict_set d k (PStr html)))
       | _, _ => Raise KeyError
       end).

(** The same project after its section was deleted: the markdown field
    was collected while the section was there, the serializer does not
    find it any more. *)
Definition stale_markdown_env : Markdown.Env :=
  Markdown.mkEnv
    [("[sections, s1, summary]", "**bold**")]
    (Ok (RenderTask.mkResult (Some "<html>...</html>")
           [RenderTask.mkMessage RenderTask.WARNING "font not found" None] [] []))
    (fun _ =>
       Ok (Some (Markdown.Element []
                   [Markdown.Element [] [];
                    Markdown.Element []
                      [Markdown.Element []
                         [Markdown.Element [("id", "[sections, s1, summary]")]
                            [Markdown.Element [] []]]]])))
    (fun _ => "<p><strong>bold</strong></p>")
    (Ok (PDict [("id", PStr "p1");
                ("sections",
                 PList [PDict [("id", PStr "s2");
                               ("data", PDict [("title", PStr "Scope")])]]);
                ("findings", PList [])]))
    (fun s => if String.eqb s "[sections, s1, summary]"
              then Ok ["sections"; "s1"; "summary"]
              else Raise ValueError)
    (fun data path html =>
       match data, path with
       | PDict d, [k] => Ok (PDict (dict_set d k (PStr html)))
       | _, _ => Raise KeyError
       end).

Definition rendered_markup : RenderTask.RenderStageResult :=
  RenderTask.mkResult (Some "<html>...</html>")
    [RenderTask.mkMessage RenderTask.WARNING "font not found" None] [] [].

Definition markup_tree : Markdown.element :=
  Markdown.Element []
    [Markdown.Element [] [];
     Markdown.Element []
       [Markdown.Element []
          [Markdown.Element [("id", "[sections, s1, summary]")]
             [Markdown.Element [] []]]]].

Definition zed : pyval :=
  PDict [("id", PStr "m-1"); ("username", PStr "zed"); ("name", PStr "Zed");
         ("roles", PList [PStr "pentester"])].

Definition amy : pyval :=
  PDict [("id", PStr "m-2"); ("username", PStr "amy"); ("name", PStr "Amy");
         ("roles", PList [PStr "pentester"])].

(** A stored project: two findings, one of them with stale data, and two
    members of whom the second is a bare id no user has. *)
Definition project (members : list pyval) : ProjectData.PentestProject :=
  ProjectData.mkProject "p-1"
    [("title", PStr "Pentest 2024")]
    [ProjectData.mkFinding "f-1" "2024-05-01" 2 [("title", PStr "XSS")];
     ProjectData.mkFinding "f-2" "2024-05-02" 1
       [("title", PStr "SQLi"); ("retest", PStr "open")]]
    members None false project_type.

End Sample.

Import Shape.

(* ===================================================================== *)
(** * Facts *)
(* ===================================================================== *)

Unset Implicit Arguments.

(** ** Dictionaries *)

Section DictFacts.
Variable V : Type.
Implicit Types (d e : list (string * V)) (k : string) (v : V).

Lemma dict_get_set_same d k v : dict_get (dict_set d k v) k = Some v.
Proof.
  induction d as [|[k' v'] d IH]; simpl.
  - now rewrite String.eqb_refl.
  - destruct (String.eqb k' k) eqn:E; simpl; rewrite E; auto.
Qed.

Lemma dict_get_set_other d k k' v :
  k <> k' -> dict_get (dict_set d k v) k' = dict_get d k'.
Proof.
  intros Hne. induction d as [|[k0 v0] d IH]; simpl.
  - destruct (String.eqb_spec k k'); congruence.
  - destruct (String.eqb_spec k0 k) as [->|]; simpl.
    + destruct (String.eqb_spec k k'); congruence.
    + now rewrite IH.
Qed.

Lemma dict_get_set d k k' v :
  dict_get (dict_set d k v) k' = if String.eqb k k' then Some v else dict_get d k'.
Proof.
  destruct (String.eqb_spec k k') as [->|Hne].
  - apply dict_get_set_same.
  - now apply dict_get_set_other.
Qed.

Lemma dict_mem_set d k k' v :
  dict_mem (dict_set d k v) k' = String.eqb k k' || dict_mem d k'.
Proof.
  unfold dict_mem. rewrite dict_get_set. now destruct (String.eqb k k').
Qed.

Lemma dict_set_keys_nodup d k v :
  NoDup (map fst d) -> NoDup (map fst (dict_set d k v)).
Proof.
  induction d as [|[k0 v0] d IH]; simpl; intros Hnd.
  - repeat constructor. intros [].
  - inversion Hnd as [|? ? Hnotin Hnd']; subst.
    destruct (String.eqb_spec k0 k) as [->|Hne]; simpl.
    + now constructor.
    + constructor; auto. intros Hin. apply Hnotin.
      clear - Hin Hne. induction d as [|[k1 v1] d IH]; simpl in *.
      * destruct Hin as [<-|[]]. congruence.
      * destruct (String.eqb_spec k1 k) as [->|]; simpl in *; intuition.
Qed.

Lemma dict_get_remove_same d k : dict_get (dict_remove d k) k = None.
Proof.
  induction d as [|[k0 v0] d IH]; simpl; auto.
  destruct (String.eqb k0 k) eqn:E; simpl; auto. now rewrite E.
Qed.

Lemma dict_get_remove_other d k k' :
  k <> k' -> dict_get (dict_remove d k) k' = dict_get d k'.
Proof.
  intros Hne. induction d as [|[k0 v0] d IH]; simpl; auto.
  destruct (String.eqb_spec k0 k) as [->|]; simpl.
  - destruct (String.eqb_spec k k'); congruence.
  - now rewrite IH.
Qed.

(** Merging leaves alone the keys the right operand lacks. *)
Lemma dict_get_or_absent d e k :
  dict_get e k = None -> dict_get (dict_or d e) k = dict_get d k.
Proof.
  unfold dict_or. revert d.
  induction e as [|[k0 v0] e IH]; simpl; intros d Hnone; auto.
  destruct (String.eqb_spec k0 k) as [->|Hne]; [discriminate|].
  rewrite IH by assumption. now apply dict_get_set_other.
Qed.

(** Merging gives the right operand's entry, when its keys are distinct. *)
Lemma dict_get_or_present d e k v :
  NoDup (map fst e) -> dict_get e k = Some v -> dict_get (dict_or d e) k = Some v.
Proof.
  unfold dict_or. revert d.
  induction e as [|[k0 v0] e IH]; simpl; intros d Hnd Hget; [discriminate|].
  inversion Hnd as [|? ? Hnotin Hnd']; subst.
  destruct (String.eqb_spec k0 k) as [->|Hne].
  - injection Hget as ->.
    assert (Habsent : dict_get e k = None).
    { clear - Hnotin. induction e as [|[k1 v1] e IH]; simpl in *; auto.
      destruct (String.eqb_spec k1 k) as [->|]; intuition. }
    fold (dict_or (dict_set d k v) e).
    rewrite dict_get_or_absent by assumption. apply dict_get_set_same.
  - now apply IH.
Qed.

Lemma dict_mem_or_left d e k : dict_mem d k = true -> dict_mem (dict_or d e) k = true.
Proof.
  unfold dict_or. revert d.
  induction e as [|[k0 v0] e IH]; simpl; intros d Hm; auto.
  apply IH. rewrite dict_mem_set, Hm. apply orb_true_r.
Qed.

End DictFacts.

(** ** Comprehensions *)

Lemma mapM_ok (A B : Type) (f : A -> Result B) (l : list A) (out : list B) :
  mapM f l = Ok out -> Forall2 (fun x y => f x = Ok y) l out.
Proof.
  revert out. induction l as [|x l IH]; simpl; intros out H.
  - injection H as <-. constructor.
  - destruct (f x) eqn:Hx; [|discriminate].
    destruct (mapM f l) eqn:Hl; [|discriminate].
    injection H as <-. constructor; auto.
Qed.

Lemma mapM_total (A B : Type) (f : A -> Result B) (l : list A) :
  Forall (fun x => exists y, f x = Ok y) l -> exists out, mapM f l = Ok out.
Proof.
  induction 1 as [|x l [y Hy] _ [out Hout]]; simpl.
  - now exists [].
  - rewrite Hy, Hout. now eexists.
Qed.

Lemma list_all_Forall (A : Type) (P : A -> Prop) (l : list A) :
  list_all P l <-> Forall P l.
Proof.
  induction l as [|x l IH]; simpl; split; intros H; auto.
  - destruct H. constructor; tauto.
  - inversion H; subst. tauto.
Qed.

(** ** Induction over field definitions, children included *)

Lemma BaseField_induction (P : BaseField -> Prop) :
  (forall i d, P (ScalarField i d)) ->
  (forall i d, P (MarkdownField i d)) ->
  (forall i c d, P (EnumField i c d)) ->
  (forall i d, P (CvssField i d)) ->
  (forall i d, P (CweField i d)) ->
  (forall i, P (UserField i)) ->
  (forall i items, P items -> P (ListField i items)) ->
  (forall i fields, Forall P fields -> P (ObjectField i fields)) ->
  forall f, P f.
Proof.
  intros Hs Hm He Hc Hw Hu Hl Ho.
  fix IH 1.
  intros [i d|i d|i c d|i d|i d|i|i items|i fields];
    [apply Hs|apply Hm|apply He|apply Hc|apply Hw|apply Hu|apply Hl, IH|apply Ho].
  refine ((fix go (fs : list BaseField) : Forall P fs :=
             match fs with
             | [] => Forall_nil P
             | f :: fs' => Forall_cons f (IH f) (go fs')
             end) fields).
Qed.

(** ** Default fill *)

Lemma fill_fields_acc_other (eds : BaseField -> pyval -> pyval) (value : pyval)
    (fields : list BaseField) (acc : list (string * pyval)) (k : string) :
  ~ In k (map field_id fields) ->
  dict_get
    (fold_left (fun out f => dict_set out (field_id f) (eds f (child value (field_id f))))
               fields acc) k
  = dict_get acc k.
Proof.
  revert acc. induction fields as [|f fields IH]; simpl; intros acc Hnotin; auto.
  rewrite IH by tauto. apply dict_get_set_other. intros Heq. tauto.
Qed.

Lemma fill_fields_get (eds : BaseField -> pyval -> pyval) (value : pyval)
    (fields : list BaseField) (f : BaseField) :
  NoDup (map field_id fields) -> In f fields ->
  dict_get (fill_fields eds value fields) (field_id f)
  = Some (eds f (child value (field_id f))).
Proof.
  unfold fill_fields. generalize (@nil (string * pyval)) as acc.
  induction fields as [|f0 fields IH]; simpl; intros acc Hnd Hin; [tauto|].
  inversion Hnd as [|? ? Hnotin Hnd']; subst.
  destruct Hin as [->|Hin].
  - rewrite fill_fields_acc_other by assumption. apply dict_get_set_same.
  - now apply IH.
Qed.

Lemma fill_fields_keys_nodup (eds : BaseField -> pyval -> pyval) (value : pyval)
    (fields : list BaseField) :
  NoDup (map fst (fill_fields eds value fields)).
Proof.
  unfold fill_fields.
  assert (H : NoDup (map fst (@nil (string * pyval)))) by constructor.
  revert H. generalize (@nil (string * pyval)) as acc.
  induction fields as [|f fields IH]; simpl; intros acc H; auto.
  apply IH. now apply dict_set_keys_nodup.
Qed.

(** ** The loop over the declared fields *)

Section LoopFacts.
Variable fmt : BaseField -> pyval -> Result pyval.

Lemma format_fields_keeps fields out out' k :
  format_fields fmt fields out = Ok out' ->
  dict_mem out k = true -> dict_mem out' k = true.
Proof.
  revert out. induction fields as [|f fields IH]; simpl; intros out H Hm.
  - now injection H as <-.
  - destruct (fmt f _); [|discriminate].
    eapply IH; eauto. rewrite dict_mem_set, Hm. apply orb_true_r.
Qed.

(** Every declared field has an entry when the loop is done. *)
Lemma format_fields_declared fields out out' f :
  format_fields fmt fields out = Ok out' ->
  In f fields -> dict_mem out' (field_id f) = true.
Proof.
  revert out. induction fields as [|f0 fields IH]; simpl; intros out H Hin; [tauto|].
  destruct (fmt f0 _); [|discriminate].
  destruct Hin as [->|Hin]; [|eauto].
  eapply format_fields_keeps; eauto.
  rewrite dict_mem_set, String.eqb_refl. reflexivity.
Qed.

Lemma format_fields_other fields out out' k :
  format_fields fmt fields out = Ok out' ->
  ~ In k (map field_id fields) -> dict_get out' k = dict_get out k.
Proof.
  revert out. induction fields as [|f fields IH]; simpl; intros out H Hnotin.
  - now injection H as <-.
  - destruct (fmt f _); [|discriminate].
    erewrite IH by (eauto; tauto). apply dict_get_set_other. intros Heq. tauto.
Qed.

(** With distinct ids, the entry of a declared field is the formatted form
    of what stood under its id when the loop began. *)
Lemma format_fields_entry fields out out' f :
  NoDup (map field_id fields) ->
  format_fields fmt fields out = Ok out' ->
  In f fields ->
  exists v, fmt f (dict_get_or out (field_id f) PNone) = Ok v /\
            dict_get out' (field_id f) = Some v.
Proof.
  revert out. induction fields as [|f0 fields IH]; simpl; intros out Hnd H Hin; [tauto|].
  inversion Hnd as [|? ? Hnotin Hnd']; subst.
  destruct (fmt f0 _) as [v0|] eqn:Hf0; [|discriminate].
  destruct Hin as [->|Hin].
  - exists v0. split; auto.
    erewrite format_fields_other by eauto. apply dict_get_set_same.
  - destruct (IH _ Hnd' H Hin) as [v [Hv Hget]].
    exists v. split; auto.
    rewrite <- Hv. f_equal. unfold dict_get_or.
    rewrite dict_get_set_other; auto.
    intros Heq. apply Hnotin. rewrite Heq. now apply in_map.
Qed.

(** With distinct ids, the loop fails only where the formatter does. *)
Lemma format_fields_total fields out :
  NoDup (map field_id fields) ->
  Forall (fun f => exists v, fmt f (dict_get_or out (field_id f) PNone) = Ok v) fields ->
  exists out', format_fields fmt fields out = Ok out'.
Proof.
  revert out. induction fields as [|f fields IH]; simpl; intros out Hnd Hall.
  - now eexists.
  - inversion Hnd as [|? ? Hnotin Hnd']; subst.
    inversion Hall as [|? ? [v Hv] Hall']; subst.
    rewrite Hv. apply IH; auto.
    rewrite Forall_forall in *. intros f' Hin.
    destruct (Hall' f' Hin) as [v' Hv']. exists v'.
    rewrite <- Hv'. f_equal. unfold dict_get_or.
    rewrite dict_get_set_other; auto.
    intros Heq. apply Hnotin. rewrite Heq. now apply in_map.
Qed.

End LoopFacts.

(** ** The formatter: what it returns *)

Section FormatterFacts.
Context {C : Collaborators}.

Lemma format_object_dict fmt value fields out :
  format_object fmt value fields = Ok out ->
  exists d, value = PDict d /\
    format_fields fmt fields (dict_or d (ensure_defined_fields value fields)) = Ok out.
Proof.
  unfold format_object. destruct value; try discriminate. eauto.
Qed.

(** The formatted form of a value is complete for its definition. *)
Lemma format_template_field_complete definition :
  unique_ids definition ->
  forall value members out,
    format_template_field definition value members = Ok out ->
    complete definition out.
Proof.
  induction definition as [| | | | | |i items IH|i fields IH] using BaseField_induction;
    intros Huniq value members out H; simpl; auto.
  - (* list *)
    simpl in H. destruct (py_iter value) as [l|]; [|discriminate].
    destruct (mapM _ l) as [l'|] eqn:Hl; [|discriminate].
    injection H as <-. exists l'. split; auto.
    apply mapM_ok in Hl. induction Hl; constructor; eauto.
  - (* object *)
    simpl in H, Huniq. destruct Huniq as [Hnd Hall].
    destruct (format_object _ value fields) as [d|] eqn:Hd; [|discriminate].
    injection H as <-. exists d. split; auto.
    destruct (format_object_dict _ _ _ _ Hd) as [d0 [-> Hloop]].
    apply list_all_Forall. apply list_all_Forall in Hall.
    rewrite Forall_forall in *. intros f Hin.
    destruct (format_fields_entry _ _ _ _ _ Hnd Hloop Hin) as [v [Hv Hget]].
    exists v. split; auto. eapply IH; eauto.
Qed.

Lemma format_template_field_object_dict value fields members require_id new_id out :
  format_template_field_object value fields members require_id new_id = Ok out ->
  exists d0 d,
    format_object (fun f v => format_template_field f v members) value fields = Ok d0 /\
    out = PDict d /\
    forall k, k <> "id" -> dict_get d k = dict_get d0 k.
Proof.
  unfold format_template_field_object.
  destruct (format_object _ value fields) as [d0|] eqn:Hd; [|discriminate].
  destruct (require_id && negb (dict_mem d0 "id")) eqn:Hid; intros H; injection H as <-.
  - exists d0, (dict_set d0 "id" (PStr new_id)). repeat split; auto.
    intros k Hk. apply dict_get_set_other. congruence.
  - exists d0, d0. auto.
Qed.

(** Shallow form: an entry for every declared field, whatever the schema. *)
Lemma format_template_field_object_declared value fields members require_id new_id out :
  format_template_field_object value fields members require_id new_id = Ok out ->
  exists d, out = PDict d /\ forall f, In f fields -> dict_mem d (field_id f) = true.
Proof.
  unfold format_template_field_object.
  destruct (format_object _ value fields) as [d0|] eqn:Hd; [|discriminate].
  destruct (format_object_dict _ _ _ _ Hd) as [d1 [-> Hloop]].
  assert (Hdecl : forall f, In f fields -> dict_mem d0 (field_id f) = true)
    by (intros f Hin; eapply format_fields_declared; eauto).
  destruct (require_id && negb (dict_mem d0 "id")); intros H; injection H as <-.
  - eexists. split; eauto. intros f Hin.
    rewrite dict_mem_set, (Hdecl f Hin). apply orb_true_r.
  - eauto.
Qed.

(** Deep form, for schemas with distinct ids. *)
Lemma format_template_field_object_complete value fields members require_id new_id out :
  unique_field_ids fields ->
  format_template_field_object value fields members require_id new_id = Ok out ->
  exists d, out = PDict d /\ complete_fields fields d.
Proof.
  intros [Hnd Hall] H.
  destruct (format_template_field_object_declared _ _ _ _ _ _ H) as [d [-> Hdecl]].
  exists d. split; auto.
  unfold format_template_field_object in H.
  destruct (format_object _ value fields) as [d0|] eqn:Hd; [|discriminate].
  destruct (format_object_dict _ _ _ _ Hd) as [d1 [-> Hloop]].
  unfold complete_fields. rewrite Forall_forall in *. intros f Hin.
  destruct (format_fields_entry _ _ _ _ _ Hnd Hloop Hin) as [v [Hv Hget]].
  assert (Hc : complete f v) by (eapply format_template_field_complete; eauto).
  destruct (require_id && negb (dict_mem d0 "id")) eqn:Hid; injection H as <-.
  - rewrite dict_get_set.
    destruct (String.eqb_spec "id" (field_id f)) as [Heq|Hne]; [|eauto].
    apply andb_prop in Hid. destruct Hid as [_ Hid].
    unfold dict_mem in Hid. rewrite Heq, Hget in Hid. discriminate.
  - eauto.
Qed.

(** *** Returning *)

Lemma format_user_total u :
  record_ok u = true -> exists out, format_user u = Ok out.
Proof.
  unfold record_ok, format_user. intros H.
  destruct (truthy u); simpl in *; [|eauto].
  apply andb_prop in H. destruct H as [Huser Hroles].
  unfold roles_ok in Hroles. unfold format_roles, py_set.
  assert (Hsrc : exists src,
             match u with
             | PObj ProjectMemberInfo attrs =>
                 match dict_get attrs "user" with
                 | Some usr => Ok usr
                 | None => Raise AttributeError
                 end
             | _ => Ok u
             end = Ok src).
  { destruct u as [| | | | | | |c attrs]; eauto.
    destruct c; eauto. unfold dict_mem in Huser.
    destruct (dict_get attrs "user"); eauto. discriminate. }
  destruct Hsrc as [src ->]. simpl.
  destruct (py_iter _) as [l|]; [|discriminate]. simpl.
  rewrite Hroles. simpl. eauto.
Qed.

Lemma format_user_found usr :
  exists out,
    format_user (PObj ProjectMemberInfo [("user", usr); ("roles", PList [])]) = Ok out.
Proof. apply format_user_total. reflexivity. Qed.

Lemma format_template_field_user_total value members :
  members_ok members -> record_ok value = true ->
  exists out, format_template_field_user value members = Ok out.
Proof.
  intros Hm Hv. unfold format_template_field_user.
  assert (Hstore : exists out,
             match user_store_get value with
             | Found usr =>
                 format_user (PObj ProjectMemberInfo [("user", usr); ("roles", PList [])])
             | _ => Ok PNone
             end = Ok out).
  { destruct (user_store_get value); eauto using format_user_found. }
  assert (Hfind : forall s, exists out,
             match find (fun i => String.eqb (py_str (get_key_or_attr i "id" PNone)) s)
                        match members with Some l => l | None => [] end with
             | Some u =>
                 if truthy u then format_user u
                 else match user_store_get value with
                      | Found usr =>
                          format_user
                            (PObj ProjectMemberInfo [("user", usr); ("roles", PList [])])
                      | _ => Ok PNone
                      end
             | None =>
                 match user_store_get value with
                 | Found usr =>
                     format_user
                       (PObj ProjectMemberInfo [("user", usr); ("roles", PList [])])
                 | _ => Ok PNone
                 end
             end = Ok out).
  { intros s. destruct (find _ _) as [u|] eqn:Hf; auto.
    destruct (truthy u); auto. apply format_user_total.
    apply find_some in Hf. destruct Hf as [Hin _].
    destruct members as [l|]; simpl in *; [|tauto].
    rewrite Forall_forall in Hm. auto. }
  destruct value; eauto using format_user_total.
Qed.

Lemma find_cwe_total value :
  cwe_table_ok -> exists c, find_cwe value cwe_definitions = Ok c.
Proof.
  unfold cwe_table_ok. induction (cwe_definitions) as [|c table IH]; simpl; intros H.
  - eauto.
  - inversion H as [|? ? Hid Htable]; subst. unfold dict_mem in Hid.
    destruct (dict_get c "id"); [|discriminate].
    destruct (py_eq_str value _); eauto.
Qed.

(** On a well-formed value the formatter returns. *)
Lemma format_template_field_total definition :
  cwe_table_ok -> unique_ids definition ->
  forall value members,
    members_ok members -> well_formed definition value ->
    exists out, format_template_field definition value members = Ok out.
Proof.
  intros Hcwe.
  induction definition as [| | | | | |i items IH|i fields IH] using BaseField_induction;
    intros Huniq value members Hm Hwf; simpl; eauto.
  - destruct (find_cwe_total value Hcwe) as [c ->]. simpl. eauto.
  - now apply format_template_field_user_total.
  - simpl in Hwf, Huniq. destruct Hwf as [l [-> Hall]].
    destruct (mapM_total _ _ (fun e => format_template_field items e members) l) as [out Hout];
      [|rewrite Hout; eauto].
    rewrite Forall_forall in *. eauto.
  - simpl in Hwf, Huniq. destruct Huniq as [Hnd Huniq].
    destruct Hwf as [d [-> Hall]].
    apply list_all_Forall in Hall, Huniq. simpl.
    destruct (format_fields_total (fun f v => format_template_field f v members) fields
                (dict_or d (ensure_defined_fields (PDict d) fields)) Hnd) as [out Hout];
      [|rewrite Hout; eauto].
    rewrite Forall_forall in *. intros f Hin.
    unfold dict_get_or at 1, ensure_defined_fields.
    erewrite dict_get_or_present;
      [|apply fill_fields_keys_nodup|apply fill_fields_get; auto].
    apply IH; auto.
Qed.

(** Default fill keeps usable references usable... *)
Lemma ensure_defined_structure_usable definition :
  unique_ids definition ->
  forall value,
    references_usable definition value ->
    references_usable definition (ensure_defined_structure definition value).
Proof.
  induction definition as [| | | | | |i items IH|i fields IH] using BaseField_induction;
    intros Huniq value Hv; simpl; auto.
  - destruct value; auto.
  - simpl in Hv, Huniq. destruct value; simpl; auto.
    rewrite Forall_forall in *. intros x Hx. apply in_map_iff in Hx.
    destruct Hx as [y [<- Hy]]. auto.
  - simpl in Hv, Huniq. destruct Huniq as [Hnd Huniq].
    apply list_all_Forall. apply list_all_Forall in Hv, Huniq.
    rewrite Forall_forall in *. intros f Hin. simpl. unfold dict_get_or.
    rewrite fill_fields_get by assumption. auto.
Qed.

(** ... and makes every value well-formed whose references are usable. *)
Lemma ensure_defined_structure_well_formed definition :
  unique_ids definition ->
  forall value,
    references_usable definition value ->
    well_formed definition (ensure_defined_structure definition value).
Proof.
  induction definition as [| | | | | |i items IH|i fields IH] using BaseField_induction;
    intros Huniq value Hv; simpl; auto.
  - destruct value; auto.
  - simpl in Hv, Huniq. destruct value; simpl; eauto.
    eexists. split; [reflexivity|].
    rewrite Forall_forall in *. intros x Hx. apply in_map_iff in Hx.
    destruct Hx as [y [<- Hy]]. auto.
  - simpl in Hv, Huniq. destruct Huniq as [Hnd Huniq].
    eexists. split; [reflexivity|].
    apply list_all_Forall. apply list_all_Forall in Hv, Huniq.
    rewrite Forall_forall in *. intros f Hin. unfold dict_get_or.
    rewrite fill_fields_get by assumption.
    apply IH; auto. apply ensure_defined_structure_usable; auto.
Qed.

(** Every mapping is well-formed for an object field, as long as the user
    references in it are usable. *)
Lemma mapping_is_well_formed i fields d :
  unique_ids (ObjectField i fields) ->
  references_usable (ObjectField i fields) (PDict d) ->
  well_formed (ObjectField i fields) (PDict d).
Proof.
  simpl. intros [Hnd Huniq] Hv. exists d. split; auto.
  apply list_all_Forall. apply list_all_Forall in Hv, Huniq.
  rewrite Forall_forall in *. intros f Hin.
  apply ensure_defined_structure_well_formed; auto.
Qed.

Lemma format_template_field_object_total d fields members require_id new_id :
  cwe_table_ok -> unique_field_ids fields -> members_ok members ->
  well_formed (ObjectField "" fields) (PDict d) ->
  exists out, format_template_field_object (PDict d) fields members require_id new_id = Ok out.
Proof.
  intros Hcwe [Hnd Huniq] Hm Hwf.
  assert (Huniq' : unique_ids (ObjectField "" fields))
    by (simpl; split; auto; now apply list_all_Forall).
  destruct (format_template_field_total (ObjectField "" fields) Hcwe Huniq'
              (PDict d) members Hm Hwf) as [out Hout].
  unfold format_template_field_object. simpl in Hout. unfold format_object.
  destruct (format_fields _ fields _) as [d0|]; [|discriminate].
  destruct (require_id && negb (dict_mem d0 "id")); eauto.
Qed.

End FormatterFacts.

(** ** The assembler *)

Section AssemblerFacts.
Context {C : Collaborators}.

(** What [format_template_data] returns, step by step. *)
Lemma format_template_data_inv data project_type imported_members override out :
  format_template_data data project_type imported_members override = Ok out ->
  exists d pool members report findings pentesters,
    data = PDict d /\
    Forall2 (fun u m => format_template_field_user u imported_members = Ok m)
            pool members /\
    format_template_field_object
      (PDict (ensure_defined_fields (dict_get_or d "report" (PDict []))
                                    (all_report_fields_obj project_type)))
      (all_report_fields_obj project_type) (Some members) true (uuid4 0%nat) = Ok report /\
    Forall (fun f => exists value new_id,
                format_template_field_object value (finding_fields_obj project_type)
                  (Some members) true new_id = Ok f) findings /\
    py_sorted key_lt pentester_key members = Ok pentesters /\
    out = PDict (dict_set
                   (dict_set (dict_set d "report" report) "findings"
                      (PList (sort_findings findings project_type override)))
                   "pentesters" (PList pentesters)).
Proof.
  unfold format_template_data. destruct data as [| | | | | |d|]; try discriminate.
  destruct (dict_get_or d "pentesters" (PList [])) as [| | | | |l| |]; try discriminate.
  simpl. destruct (mapM _ (l ++ _)%list) as [members|] eqn:Hm; [|discriminate]. simpl.
  destruct (format_template_field_object _ _ _ true (uuid4 0%nat)) as [report|] eqn:Hr;
    [|discriminate]. simpl.
  destruct (py_iter _) as [raw|]; [|discriminate]. simpl.
  destruct (mapM _ (combine _ raw)) as [findings|] eqn:Hf; [|discriminate]. simpl.
  destruct (py_sorted _ _ members) as [pentesters|] eqn:Hp; [|discriminate]. simpl.
  intros H. injection H as <-.
  apply mapM_ok in Hm.
  eexists d, _, members, report, findings, pentesters.
  split; [reflexivity|]. split; [exact Hm|]. repeat split; auto.
  apply mapM_ok in Hf. induction Hf; constructor; eauto.
Qed.

Lemma format_template_data_complete data project_type imported_members override out :
  sort_findings_ok sort_findings ->
  unique_field_ids (all_report_fields_obj project_type) ->
  unique_field_ids (finding_fields_obj project_type) ->
  format_template_data data project_type imported_members override = Ok out ->
  exists d report findings,
    out = PDict d /\
    dict_get d "report" = Some (PDict report) /\
    complete_fields (all_report_fields_obj project_type) report /\
    dict_get d "findings" = Some (PList findings) /\
    Forall (fun f => exists fd, f = PDict fd /\
                       complete_fields (finding_fields_obj project_type) fd) findings.
Proof.
  intros Hsort Hur Huf H.
  destruct (format_template_data_inv _ _ _ _ _ H)
    as (d & pool & members & report & findings & pentesters
        & -> & _ & Hr & Hf & _ & ->).
  destruct (format_template_field_object_complete _ _ _ _ _ _ Hur Hr) as [rd [-> Hrc]].
  eexists _, rd, _. split; [reflexivity|].
  repeat split.
  - rewrite dict_get_set_other by discriminate.
    rewrite dict_get_set_other by discriminate.
    apply dict_get_set_same.
  - assumption.
  - rewrite dict_get_set_other by discriminate. apply dict_get_set_same.
  - eapply Permutation_Forall; [apply Permutation_sym, Hsort|].
    rewrite Forall_forall in *. intros f Hin.
    destruct (Hf f Hin) as (value & new_id & Hfo).
    eapply format_template_field_object_complete; eauto.
Qed.

End AssemblerFacts.

(** ** Stable sorting *)

Section SortFacts.
Variable A : Type.
Variable key : A -> Z.

Lemma insert_by_perm x l : Permutation (insert_by key x l) (x :: l).
Proof.
  induction l as [|y l IH]; simpl; auto.
  destruct (key y <? key x); auto.
  rewrite IH. apply perm_swap.
Qed.

Lemma sorted_by_perm l : Permutation (sorted_by key l) l.
Proof.
  induction l as [|x l IH]; simpl; auto.
  rewrite insert_by_perm. now constructor.
Qed.

Lemma insert_by_sorted x l :
  sorted_by_key key l -> sorted_by_key key (insert_by key x l).
Proof.
  unfold sorted_by_key. induction 1 as [|y l Hs IH Hall]; simpl.
  - repeat constructor.
  - destruct (Z.ltb_spec (key y) (key x)) as [Hlt|Hge].
    + constructor; auto.
      eapply Permutation_Forall; [apply Permutation_sym, insert_by_perm|].
      constructor; auto. lia.
    + constructor; [constructor; auto|].
      constructor; auto.
      rewrite Forall_forall in *. intros z Hz. specialize (Hall z Hz). lia.
Qed.

Lemma sorted_by_sorted l : sorted_by_key key (sorted_by key l).
Proof.
  induction l as [|x l IH]; simpl.
  - constructor.
  - now apply insert_by_sorted.
Qed.

(** Insertion does not reorder elements of equal key. *)
Lemma insert_by_stable k x l :
  filter (fun a => key a =? k) (insert_by key x l)
  = filter (fun a => key a =? k) (x :: l).
Proof.
  induction l as [|y l IH]; simpl; auto.
  destruct (Z.ltb_spec (key y) (key x)) as [Hlt|Hge]; simpl; auto.
  rewrite IH. simpl.
  destruct (Z.eqb_spec (key x) k), (Z.eqb_spec (key y) k); auto. lia.
Qed.

(** The sort is stable: elements of equal key keep their order. *)
Lemma sorted_by_stable k l : same_order_at key k (sorted_by key l) l.
Proof.
  unfold same_order_at. induction l as [|x l IH]; simpl; auto.
  rewrite insert_by_stable. simpl. now rewrite IH.
Qed.

End SortFacts.

(** ** Equality of hashable values, and sets *)

Lemma atom_eqb_sym a b : atom_eqb a b = atom_eqb b a.
Proof.
  destruct a, b; simpl; auto using Z.eqb_sym, String.eqb_sym.
  destruct b, b0; reflexivity.
Qed.

Lemma hash_eqb_sym a b : hash_eqb a b = hash_eqb b a.
Proof.
  destruct a, b; simpl; auto using Z.eqb_sym, String.eqb_sym.
  - destruct b, b0; reflexivity.
  - destruct c, c0; simpl; auto;
      destruct (dict_get attrs "id"), (dict_get attrs0 "id"); auto using atom_eqb_sym.
Qed.

Lemma hash_eqb_refl a : hashable a = true -> hash_eqb a a = true.
Proof.
  destruct a; simpl; try discriminate;
    auto using Z.eqb_refl, String.eqb_refl, Bool.eqb_reflx.
  destruct c; simpl; destruct (dict_get attrs "id") as [i|]; try discriminate;
    destruct i; simpl; try discriminate;
    auto using Z.eqb_refl, String.eqb_refl, Bool.eqb_reflx.
Qed.

Lemma NoDupA_hash_eq_perm l l' :
  Permutation l l' -> NoDupA hash_eq l -> NoDupA hash_eq l'.
Proof.
  assert (Hin : forall x l l', Permutation l l' -> InA hash_eq x l -> InA hash_eq x l').
  { intros x l0 l0' Hp H. rewrite InA_alt in *. destruct H as [y [Hy Hiny]].
    exists y. split; auto. eapply Permutation_in; eauto. }
  induction 1 as [|x l l' Hp IH|x y l|l l' l'' Hp1 IH1 Hp2 IH2]; intros Hnd; auto.
  - inversion Hnd; subst. constructor; auto.
    intros Hx. eauto using Permutation_sym.
  - inversion Hnd as [|? ? Hy Hnd']; subst. inversion Hnd' as [|? ? Hx Hnd'']; subst.
    constructor.
    + intros H. inversion H; subst; auto.
      apply Hy. constructor. unfold hash_eq in *. now rewrite hash_eqb_sym.
    + constructor; auto.
Qed.

Lemma NoDupA_hash_eq_NoDup l :
  Forall (fun x => hashable x = true) l -> NoDupA hash_eq l -> NoDup l.
Proof.
  induction 1 as [|x l Hx Hall IH]; intros Hnd; constructor; inversion Hnd; subst; auto.
  intros Hin. apply H1. rewrite InA_alt. exists x. split; auto.
  now apply hash_eqb_refl.
Qed.

Lemma insertion_order_incl l x : In x (Sample.insertion_order l) -> In x l.
Proof.
  revert x. induction l as [|y l IH]; simpl; intros x H; auto.
  destruct H as [->|H]; auto. apply filter_In in H. right. apply IH. tauto.
Qed.

Lemma insertion_order_ok : set_iter_ok Sample.insertion_order.
Proof.
  split; [|exact insertion_order_incl].
  induction l as [|x l IH]; simpl; constructor.
  - rewrite InA_alt. intros [y [Hxy Hy]]. apply filter_In in Hy.
    destruct Hy as [_ Hy]. rewrite Hxy in Hy. discriminate.
  - induction IH as [|y l' Hy Hnd IH']; simpl; [constructor|].
    destruct (negb (hash_eqb x y)); auto. constructor; auto.
    rewrite InA_alt in *. intros [z [Hyz Hz]]. apply Hy.
    exists z. split; auto. apply filter_In in Hz. tauto.
Qed.

(** ** User records and resolution misses *)

Section UserFacts.
Context {C : Collaborators}.

Lemma copy_keys_only source keys k v :
  dict_get (copy_keys source keys) k = Some v -> In k keys.
Proof.
  unfold copy_keys.
  set (src := match source with PDict e => e | PObj _ attrs => attrs | _ => [] end).
  assert (Hgen : forall acc,
             dict_get
               (fold_left (fun out k0 => match dict_get src k0 with
                                         | Some v0 => dict_set out k0 v0
                                         | None => out
                                         end) keys acc) k = Some v ->
             In k keys \/ dict_get acc k = Some v).
  { induction keys as [|k0 keys IH]; simpl; intros acc H; auto.
    destruct (IH _ H) as [Hin|Hacc]; auto.
    destruct (dict_get src k0); auto.
    rewrite dict_get_set in Hacc.
    destruct (String.eqb_spec k0 k); auto. }
  intros H. destruct (Hgen [] H) as [Hin|Hnil]; auto. discriminate.
Qed.

(** What [format_user] returns: None for an empty value, else the contact
    fields with the sorted roles; the record never has a 'username'. *)
Lemma format_user_inv u out :
  format_user u = Ok out ->
  (truthy u = false /\ out = PNone) \/
  exists d l,
    out = PDict d /\
    py_iter (get_key_or_attr u "roles" (PList [])) = Ok l /\
    forallb hashable (filter truthy l) = true /\
    dict_get d "roles"
    = Some (PList (sorted_by role_priority (set_iter (filter truthy l)))) /\
    dict_get d "username" = None.
Proof.
  unfold format_user. destruct (truthy u); simpl; intros H.
  2: { injection H as <-. auto. }
  right.
  destruct (match u with
            | PObj ProjectMemberInfo attrs => _
            | _ => Ok u
            end) as [src|]; [|discriminate].
  simpl in H. unfold format_roles, py_set in H.
  destruct (py_iter _) as [l|]; [|discriminate]. simpl in H.
  destruct (forallb hashable (filter truthy l)) eqn:Hh; [|discriminate].
  simpl in H. injection H as <-.
  eexists _, l. repeat split; auto.
  - unfold dict_or. simpl. apply dict_get_set_same.
  - unfold dict_or. simpl. rewrite dict_get_set_other by discriminate.
    destruct (dict_get (copy_keys src user_keys) "username") as [v|] eqn:Hu; auto.
    apply copy_keys_only in Hu. simpl in Hu.
    repeat (destruct Hu as [Hu|Hu]; [discriminate|]). destruct Hu.
Qed.

(** Every outcome of [format_template_field_user] is None or comes from
    [format_user]. *)
Lemma format_template_field_user_inv value members out :
  format_template_field_user value members = Ok out ->
  out = PNone \/ exists u, format_user u = Ok out.
Proof.
  unfold format_template_field_user.
  assert (Hstore : match user_store_get value with
                   | Found usr =>
                       format_user
                         (PObj ProjectMemberInfo [("user", usr); ("roles", PList [])])
                   | _ => Ok PNone
                   end = Ok out ->
                   out = PNone \/ exists u, format_user u = Ok out).
  { destruct (user_store_get value); intros H; eauto; injection H as <-; auto. }
  destruct value; intros H; eauto;
    try (injection H as <-; auto; fail);
    destruct (find _ _) as [u|]; auto; destruct (truthy u); eauto.
Qed.

Lemma find_no_match (A : Type) (p : A -> bool) (l : list A) :
  (forall x, In x l -> p x = false) -> find p l = None.
Proof.
  induction l as [|x l IH]; simpl; intros H; auto.
  rewrite (H x) by auto. auto.
Qed.

(** An enum value that is no choice's value. *)
Lemma enum_miss i choices default value members :
  (forall c, In c choices -> py_eq_str value (choice_value c) = false) ->
  format_template_field (EnumField i choices default) value members
  = Ok (PDict [("value", PStr ""); ("label", PStr "")]).
Proof.
  intros H. simpl. now rewrite find_no_match.
Qed.

(** A CWE value that is no table entry's key. *)
Lemma cwe_miss i default value members :
  Forall (fun c => exists n, dict_get c "id" = Some n /\
                             py_eq_str value ("CWE-" ++ py_str n) = false)
         cwe_definitions ->
  format_template_field (CweField i default) value members
  = Ok (PDict [("id", PNone); ("name", PNone); ("description", PNone);
               ("value", value)]).
Proof.
  intros H. simpl.
  assert (Hfind : find_cwe value cwe_definitions = Ok []).
  { induction H as [|c table [n [Hid Hne]] _ IH]; cbn [find_cwe]; auto.
    now rewrite Hid, Hne. }
  now rewrite Hfind.
Qed.

(** An id that no candidate member has and the user store does not know. *)
Lemma user_miss value members :
  (exists s, value = PStr s \/ value = PUuid s) ->
  (forall i, In i (match members with Some l => l | None => [] end) ->
             py_str (get_key_or_attr i "id" PNone) <> py_str value) ->
  user_store_get value = DoesNotExist \/ user_store_get value = ValidationError ->
  format_template_field_user value members = Ok PNone.
Proof.
  intros [s Hs] Hmembers Hstore. unfold format_template_field_user.
  assert (Hfind : find (fun i => String.eqb (py_str (get_key_or_attr i "id" PNone))
                                            (py_str value))
                       match members with Some l => l | None => [] end = None).
  { apply find_no_match. intros i Hin. apply String.eqb_neq. auto. }
  destruct Hs as [-> | ->]; rewrite Hfind; destruct Hstore as [-> | ->]; reflexivity.
Qed.

End UserFacts.

(* ===================================================================== *)
(** * The claims *)
(* ===================================================================== *)

(** Distinctness of a concrete list of field ids. *)
Ltac distinct_ids :=
  simpl; repeat (constructor; [simpl; intuition discriminate|]); constructor.

(** The sample schemas and collaborators are as the theorems want them. *)
Lemma sample_report_schema_unique : unique_field_ids Sample.report_schema.
Proof. split; [distinct_ids|repeat constructor]. Qed.

Lemma sample_finding_schema_unique : unique_field_ids Sample.finding_schema.
Proof.
  split; [distinct_ids|].
  repeat (apply Forall_cons || apply Forall_nil); simpl; auto.
  split; [distinct_ids|auto].
Qed.

Lemma sample_sort_findings_ok : sort_findings_ok (@sort_findings Sample.collaborators).
Proof. intros findings project_type override. apply Permutation_refl. Qed.

Lemma sample_cwe_table_ok : @cwe_table_ok Sample.collaborators.
Proof. repeat constructor. Qed.

(** ** Field value formatter *)

(** C1 (as stated, refuted).  [format_template_field] does raise on values
    that are malformed for their kind: None or a number where a list field
    wants something iterable, and a non-mapping where an object field wants
    a mapping, all end in TypeError. *)
Lemma format_template_field_raises_on_malformed :
  @format_template_field Sample.collaborators
     (ListField "affected" (ScalarField "" PNone)) PNone None = Raise TypeError /\
  @format_template_field Sample.collaborators
     (ListField "affected" (ScalarField "" PNone)) (PInt 5) None = Raise TypeError /\
  @format_template_field Sample.collaborators
     (ObjectField "contact" [ScalarField "note" PNone]) (PList []) None
  = Raise TypeError /\
  @format_template_field Sample.collaborators
     (ObjectField "contact" [ScalarField "note" PNone]) PNone None
  = Raise TypeError.
Proof. repeat split. Qed.

(** C1 (amended).  On a value that is well-formed for its field definition
    -- something iterable with well-formed items for a list field, a
    mapping whose default-filled children are well-formed for an object
    field, a usable reference for a user field -- [format_template_field]
    returns a value and raises nothing, given a schema with distinct field
    ids per object, usable candidate members and a CWE table whose entries
    have ids. *)
Theorem format_template_field_returns_on_well_formed
    {C : Collaborators} definition value members :
  cwe_table_ok ->
  unique_ids definition ->
  members_ok members ->
  well_formed definition value ->
  exists out, format_template_field definition value members = Ok out.
Proof.
  intros Hcwe Huniq Hm Hwf.
  exact (format_template_field_total definition Hcwe Huniq value members Hm Hwf).
Qed.

(** [format_template_field_returns_on_well_formed] at a concrete input. *)
Lemma format_template_field_returns_on_well_formed_witness :
  exists out,
    @format_template_field Sample.collaborators
      (ObjectField "finding" Sample.finding_schema)
      (PDict [("title", PStr "SQL injection");
              ("affected", PList [PStr "https://example.com"]);
              ("contact", PDict [("owner", PStr "m-1")])])
      (Some [Sample.zed; Sample.amy]) = Ok out.
Proof.
  apply (@format_template_field_returns_on_well_formed Sample.collaborators).
  - exact sample_cwe_table_ok.
  - simpl. split; [distinct_ids|]. repeat split. distinct_ids.
  - simpl. repeat constructor.
  - simpl. eexists. split; [reflexivity|]. simpl. repeat split.
    + eexists. split; [reflexivity|]. repeat constructor.
    + eexists. split; [reflexivity|]. simpl. repeat split.
Defined.

(** C2.  The output of [format_template_field_object] has an entry for
    every field the definition declares, whatever the raw value held
    (default fill); with distinct field ids the same holds at every depth
    below it; on every mapping, whatever it lacks, the call does return as
    long as the user references in it are usable; and the tree that
    [format_template_data] returns has a 'report' and 'findings' that are
    complete for the project type's schemas at every depth. *)
Theorem default_fill_invariant {C : Collaborators} (fields : list BaseField)
    (project_type : ProjectType) :
  (forall value members require_id new_id out,
      format_template_field_object value fields members require_id new_id = Ok out ->
      exists d, out = PDict d /\
        (forall f, In f fields -> dict_mem d (field_id f) = true) /\
        (unique_field_ids fields -> complete_fields fields d)) /\
  (forall d members require_id new_id,
      cwe_table_ok -> unique_field_ids fields -> members_ok members ->
      references_usable (ObjectField "" fields) (PDict d) ->
      exists out,
        format_template_field_object (PDict d) fields members require_id new_id
        = Ok out) /\
  (forall data imported_members override out,
      sort_findings_ok sort_findings ->
      unique_field_ids (all_report_fields_obj project_type) ->
      unique_field_ids (finding_fields_obj project_type) ->
      format_template_data data project_type imported_members override = Ok out ->
      exists d report findings,
        out = PDict d /\
        dict_get d "report" = Some (PDict report) /\
        complete_fields (all_report_fields_obj project_type) report /\
        dict_get d "findings" = Some (PList findings) /\
        Forall (fun f => exists fd, f = PDict fd /\
                           complete_fields (finding_fields_obj project_type) fd)
               findings).
Proof.
  repeat split.
  - intros value members require_id new_id out H.
    destruct (format_template_field_object_declared _ _ _ _ _ _ H) as [d [-> Hd]].
    exists d. repeat split; auto. intros Huniq.
    destruct (format_template_field_object_complete _ _ _ _ _ _ Huniq H)
      as [d' [Heq Hc]].
    now injection Heq as ->.
  - intros d members require_id new_id Hcwe Huniq Hm Hrefs.
    apply format_template_field_object_total; auto.
    apply mapping_is_well_formed; auto.
    destruct Huniq as [Hnd Hall]. simpl. split; auto. now apply list_all_Forall.
  - intros. eapply format_template_data_complete; eauto.
Qed.

(** [default_fill_invariant] at concrete inputs: an empty finding, and a
    data tree with one finding that has only a title and one that is no
    mapping at all. *)
Lemma default_fill_invariant_witness :
  (exists d,
      @format_template_field_object Sample.collaborators
         (PDict []) Sample.finding_schema None false "" = Ok (PDict d) /\
      (forall f, In f Sample.finding_schema -> dict_mem d (field_id f) = true) /\
      complete_fields Sample.finding_schema d) /\
  (exists d report findings,
      @format_template_data Sample.collaborators
         (PDict [("pentesters", PList [Sample.zed]);
                 ("findings", PList [PDict [("title", PStr "XSS")]; PNone])])
         Sample.project_type None false = Ok (PDict d) /\
      dict_get d "report" = Some (PDict report) /\
      complete_fields Sample.report_schema report /\
      dict_get d "findings" = Some (PList findings) /\
      Forall (fun f => exists fd, f = PDict fd /\
                         complete_fields Sample.finding_schema fd) findings).
Proof.
  destruct (@default_fill_invariant Sample.collaborators Sample.finding_schema
              Sample.project_type) as (Hkeys & Hreturns & Htree).
  split.
  - destruct (Hreturns [] None false "" sample_cwe_table_ok
                sample_finding_schema_unique I)
      as [out Hout].
    { simpl. repeat split. }
    destruct (Hkeys _ _ _ _ _ Hout) as (d & -> & Hdeclared & Hdeep).
    exists d. split; [exact Hout|]. split; [exact Hdeclared|].
    exact (Hdeep sample_finding_schema_unique).
  - destruct (Htree (PDict [("pentesters", PList [Sample.zed]);
                            ("findings", PList [PDict [("title", PStr "XSS")]; PNone])])
                None false _
                sample_sort_findings_ok
                sample_report_schema_unique
                sample_finding_schema_unique
                eq_refl)
      as (d & report & findings & Heq & Hrest).
    injection Heq as <-.
    eexists _, report, findings. split; [reflexivity|exact Hrest].
Defined.

(** C3 (as stated, refuted).  Roles of equal priority need not come out in
    lexicographic order: the sort key is the priority alone, so 'zeta' and
    'alpha' (both of priority 10) stay as the set yields them, here 'zeta'
    first. *)
Lemma roles_ties_not_lexicographic :
  set_iter_ok (@set_iter Sample.collaborators) /\
  @format_template_field_user Sample.collaborators
     (PDict [("id", PStr "m-3"); ("roles", PList [PStr "zeta"; PStr "alpha"])]) None
  = Ok (PDict [("id", PStr "m-3"); ("roles", PList [PStr "zeta"; PStr "alpha"])]) /\
  role_priority (PStr "zeta") = 10 /\
  role_priority (PStr "alpha") = 10 /\
  String.leb "zeta" "alpha" = false.
Proof. split; [exact insertion_order_ok|repeat split]. Qed.

(** C3 (amended).  When [format_template_field_user] resolves a reference to
    a record, its 'roles' are sorted by the fixed priority lead = 0,
    pentester = 1, reviewer = 2, any other role = 10, and roles of equal
    priority appear in the order in which the set of the truthy roles of
    the matched record yields them. *)
Theorem roles_sorted_by_priority {C : Collaborators} value members d :
  format_template_field_user value members = Ok (PDict d) ->
  exists u raw roles,
    format_user u = Ok (PDict d) /\
    py_iter (get_key_or_attr u "roles" (PList [])) = Ok raw /\
    dict_get d "roles" = Some (PList roles) /\
    sorted_by_key role_priority roles /\
    Permutation roles (set_iter (filter truthy raw)) /\
    (forall k, same_order_at role_priority k roles (set_iter (filter truthy raw))) /\
    role_priority (PStr "lead") = 0 /\
    role_priority (PStr "pentester") = 1 /\
    role_priority (PStr "reviewer") = 2 /\
    (forall r, py_eq_str r "lead" = false -> py_eq_str r "pentester" = false ->
               py_eq_str r "reviewer" = false -> role_priority r = 10).
Proof.
  intros H.
  destruct (format_template_field_user_inv _ _ _ H) as [Hnone|[u Hu]]; [discriminate|].
  destruct (format_user_inv _ _ Hu)
    as [[_ Hnone]|(d' & raw & Heq & Hraw & _ & Hroles & _)]; [discriminate|].
  injection Heq as <-.
  exists u, raw, (sorted_by role_priority (set_iter (filter truthy raw))).
  repeat split; auto.
  - apply sorted_by_sorted.
  - apply sorted_by_perm.
  - intros k. apply sorted_by_stable.
  - intros r H1 H2 H3. unfold role_priority. now rewrite H1, H2, H3.
Qed.

(** [roles_sorted_by_priority] at a concrete input. *)
Lemma roles_sorted_by_priority_witness :
  exists u raw roles,
    @format_user Sample.collaborators u
    = Ok (PDict [("id", PStr "m-4");
                 ("roles", PList [PStr "lead"; PStr "pentester"; PStr "reviewer";
                                  PStr "observer"])]) /\
    py_iter (get_key_or_attr u "roles" (PList [])) = Ok raw /\
    dict_get [("id", PStr "m-4");
              ("roles", PList [PStr "lead"; PStr "pentester"; PStr "reviewer";
                               PStr "observer"])] "roles"
    = Some (PList roles) /\
    sorted_by_key role_priority roles /\
    Permutation roles (@set_iter Sample.collaborators (filter truthy raw)) /\
    (forall k, same_order_at role_priority k roles
                 (@set_iter Sample.collaborators (filter truthy raw))) /\
    role_priority (PStr "lead") = 0 /\
    role_priority (PStr "pentester") = 1 /\
    role_priority (PStr "reviewer") = 2 /\
    (forall r, py_eq_str r "lead" = false -> py_eq_str r "pentester" = false ->
               py_eq_str r "reviewer" = false -> role_priority r = 10).
Proof.
  apply (@roles_sorted_by_priority Sample.collaborators
           (PDict [("id", PStr "m-4");
                   ("roles", PList [PStr "observer"; PStr "reviewer"; PStr "";
                                    PStr "lead"; PStr "pentester"; PStr "lead"])])
           None).
  reflexivity.
Defined.

(** C9.  The 'roles' of a record returned by [format_template_field_user]
    hold no duplicates (no two entries are equal, in Python's sense and so
    also as values) and no falsy entries. *)
Theorem roles_distinct_and_truthy {C : Collaborators} value members d :
  set_iter_ok set_iter ->
  format_template_field_user value members = Ok (PDict d) ->
  exists roles,
    dict_get d "roles" = Some (PList roles) /\
    NoDupA hash_eq roles /\
    NoDup roles /\
    Forall (fun r => truthy r = true) roles.
Proof.
  intros [Hnodup Hincl] H.
  destruct (format_template_field_user_inv _ _ _ H) as [Hnone|[u Hu]]; [discriminate|].
  destruct (format_user_inv _ _ Hu) as [[_ Hnone]|(d' & raw & Heq & _ & Hh & Hroles & _)];
    [discriminate|].
  injection Heq as <-.
  set (s := set_iter (filter truthy raw)) in *.
  assert (Hperm : Permutation s (sorted_by role_priority s))
    by apply Permutation_sym, sorted_by_perm.
  assert (Hfrom : Forall (fun r => truthy r = true /\ hashable r = true) s).
  { apply Forall_forall. intros r Hr. apply Hincl in Hr.
    rewrite forallb_forall in Hh. split; [|auto].
    apply filter_In in Hr. tauto. }
  assert (Hdistinct : NoDupA hash_eq (sorted_by role_priority s))
    by (eapply NoDupA_hash_eq_perm; [exact Hperm|apply Hnodup]).
  exists (sorted_by role_priority s). repeat split; auto.
  - apply NoDupA_hash_eq_NoDup; auto.
    eapply Permutation_Forall; [exact Hperm|].
    eapply Forall_impl; [|exact Hfrom]. simpl. tauto.
  - eapply Permutation_Forall; [exact Hperm|].
    eapply Forall_impl; [|exact Hfrom]. simpl. tauto.
Qed.

(** [roles_distinct_and_truthy] at a concrete input. *)
Lemma roles_distinct_and_truthy_witness :
  exists roles,
    dict_get [("id", PStr "m-5"); ("roles", PList [PStr "lead"; PStr "observer"])]
             "roles" = Some (PList roles) /\
    NoDupA hash_eq roles /\
    NoDup roles /\
    Forall (fun r => truthy r = true) roles.
Proof.
  apply (@roles_distinct_and_truthy Sample.collaborators
           (PDict [("id", PStr "m-5");
                   ("roles", PList [PStr "observer"; PStr ""; PStr "lead"; PNone;
                                    PStr "observer"; PStr "lead"])])
           None).
  - exact insertion_order_ok.
  - reflexivity.
Defined.

(** C5.  Resolution misses give the documented sentinels: an enum value
    that is no choice's value gives [{value: '', label: ''}]; a CWE value
    that is no table entry's key gives [{id: None, name: None, description:
    None, value: <the value>}]; an id that no candidate member has and the
    user store does not know (not found, or not a valid id) gives None. *)
Theorem resolution_misses_give_sentinels {C : Collaborators} value members :
  (forall i choices default,
      (forall c, In c choices -> py_eq_str value (choice_value c) = false) ->
      format_template_field (EnumField i choices default) value members
      = Ok (PDict [("value", PStr ""); ("label", PStr "")])) /\
  (forall i default,
      Forall (fun c => exists n, dict_get c "id" = Some n /\
                                 py_eq_str value ("CWE-" ++ py_str n) = false)
             cwe_definitions ->
      format_template_field (CweField i default) value members
      = Ok (PDict [("id", PNone); ("name", PNone); ("description", PNone);
                   ("value", value)])) /\
  (forall i,
      (exists s, value = PStr s \/ value = PUuid s) ->
      (forall m, In m (match members with Some l => l | None => [] end) ->
                 py_str (get_key_or_attr m "id" PNone) <> py_str value) ->
      user_store_get value = DoesNotExist \/ user_store_get value = ValidationError ->
      format_template_field (UserField i) value members = Ok PNone).
Proof.
  repeat split.
  - intros. now apply enum_miss.
  - intros. now apply cwe_miss.
  - intros. simpl. now apply user_miss.
Qed.

(** [resolution_misses_give_sentinels] at a concrete input. *)
Lemma resolution_misses_give_sentinels_witness :
  @format_template_field Sample.collaborators
     (EnumField "scope" [mkEnumChoice "web" "Web"; mkEnumChoice "net" "Network"] PNone)
     (PStr "u-404") (Some [Sample.zed; Sample.amy])
  = Ok (PDict [("value", PStr ""); ("label", PStr "")]) /\
  @format_template_field Sample.collaborators (CweField "cwe" PNone)
     (PStr "u-404") (Some [Sample.zed; Sample.amy])
  = Ok (PDict [("id", PNone); ("name", PNone); ("description", PNone);
               ("value", PStr "u-404")]) /\
  @format_template_field Sample.collaborators (UserField "owner")
     (PStr "u-404") (Some [Sample.zed; Sample.amy])
  = Ok PNone.
Proof.
  destruct (@resolution_misses_give_sentinels Sample.collaborators
              (PStr "u-404") (Some [Sample.zed; Sample.amy])) as (He & Hc & Hu).
  split; [|split].
  - apply He. simpl. intros c [<-|[<-|[]]]; reflexivity.
  - apply Hc. repeat constructor. eexists. split; reflexivity.
  - apply Hu.
    + eexists. left. reflexivity.
    + simpl. intros m [<-|[<-|[]]]; discriminate.
    + left. reflexivity.
Defined.

(** ** Template data assembler *)

(** The sort key of a formatted member never carries a name: the projection
    of [format_user] drops 'username', so the second component is None. *)
Lemma pentester_key_has_no_name {C : Collaborators} value members u k :
  format_template_field_user value members = Ok u ->
  pentester_key u = Ok k ->
  snd k = PNone.
Proof.
  intros Hu Hk.
  destruct (format_template_field_user_inv _ _ _ Hu) as [->|[u0 Hu0]]; [discriminate|].
  destruct (format_user_inv _ _ Hu0) as [[_ ->]|(d & raw & -> & _ & _ & _ & Hname)];
    [discriminate|].
  unfold pentester_key in Hk.
  destruct (bind (py_in "lead" _) _) as [p|]; [|discriminate].
  simpl in Hk. injection Hk as <-. simpl. unfold dict_get_or. now rewrite Hname.
Qed.

(** *** Sorting with keys that carry no name *)

Lemma key_lt_unnamed p q : key_lt (p, PNone) (q, PNone) = Ok (p <? q).
Proof.
  unfold key_lt. simpl. destruct (Z.eqb_spec p q) as [->|]; auto.
  now rewrite Z.ltb_irrefl.
Qed.

Section DecoratedSort.
Variable A : Type.
Variable key : A -> Z * pyval.
Hypothesis key_unnamed : forall x, snd (key x) = PNone.

Let decorated (keyed : list ((Z * pyval) * A)) : Prop :=
  Forall (fun ka => fst ka = key (snd ka)) keyed.

Lemma insertM_unnamed x keyed :
  decorated keyed ->
  insertM key_lt (key x, x) keyed
  = Ok (insert_by (fun ka => fst (fst ka)) (key x, x) keyed).
Proof.
  induction 1 as [|[k y] keyed Hk _ IH]; simpl; auto.
  simpl in Hk. subst k.
  rewrite (surjective_pairing (key y)), (surjective_pairing (key x)).
  rewrite !key_unnamed, key_lt_unnamed. simpl.
  destruct (fst (key y) <? fst (key x)); auto.
  rewrite (surjective_pairing (key x)), key_unnamed in IH. now rewrite IH.
Qed.

Lemma sortM_unnamed l :
  sortM key_lt (map (fun x => (key x, x)) l)
  = Ok (sorted_by (fun ka => fst (fst ka)) (map (fun x => (key x, x)) l)).
Proof.
  induction l as [|x l IH]; simpl; auto.
  rewrite IH. simpl. apply insertM_unnamed.
  eapply Permutation_Forall; [apply Permutation_sym, sorted_by_perm|].
  apply Forall_forall. intros ka Hin. apply in_map_iff in Hin.
  now destruct Hin as [y [<- _]].
Qed.

Lemma insert_by_decorated x keyed :
  decorated keyed ->
  map snd (insert_by (fun ka => fst (fst ka)) (key x, x) keyed)
  = insert_by (fun y => fst (key y)) x (map snd keyed).
Proof.
  induction 1 as [|[k y] keyed Hk _ IH]; simpl; auto.
  simpl in Hk. subst k.
  destruct (fst (key y) <? fst (key x)); simpl; auto. now rewrite IH.
Qed.

Lemma sorted_by_decorated l :
  map snd (sorted_by (fun ka => fst (fst ka)) (map (fun x => (key x, x)) l))
  = sorted_by (fun y => fst (key y)) l.
Proof.
  induction l as [|x l IH]; simpl; auto.
  rewrite insert_by_decorated, IH; auto.
  eapply Permutation_Forall; [apply Permutation_sym, sorted_by_perm|].
  apply Forall_forall. intros ka Hin. apply in_map_iff in Hin.
  now destruct Hin as [y [<- _]].
Qed.

End DecoratedSort.

(** Sorting formatted members is sorting by role priority alone. *)
Lemma py_sorted_members {C : Collaborators} imported_members pool members pentesters :
  Forall2 (fun u m => format_template_field_user u imported_members = Ok m)
          pool members ->
  py_sorted key_lt pentester_key members = Ok pentesters ->
  pentesters = sorted_by member_priority members.
Proof.
  intros Hpool. unfold py_sorted.
  destruct (mapM _ members) as [keyed|] eqn:Hk; [|discriminate]. simpl.
  apply mapM_ok in Hk.
  set (key := fun u => (member_priority u, PNone)).
  assert (Hkeyed : keyed = map (fun u => (key u, u)) members).
  { clear - Hpool Hk. revert keyed Hk.
    induction Hpool as [|u m pool members Hm _ IH]; intros keyed Hk;
      inversion Hk as [|? ka ? keyed' Hka Hk']; subst; auto.
    simpl. f_equal; auto.
    destruct (pentester_key m) as [k|] eqn:Hkey; [|discriminate].
    simpl in Hka. injection Hka as <-.
    unfold key, member_priority. rewrite Hkey.
    rewrite (surjective_pairing k) at 1.
    now rewrite (pentester_key_has_no_name _ _ _ _ Hm Hkey). }
  rewrite Hkeyed, (sortM_unnamed _ key) by reflexivity. simpl.
  intros H. injection H as <-.
  now rewrite (sorted_by_decorated _ key).
Qed.

(** C4 (what the code does, and the failing input).  The 'pentesters' that
    [format_template_data] returns are the formatted member pool sorted by
    role priority and by nothing else: members of equal priority keep their
    pool order, whatever their names.  The sort key reads 'username' from
    the formatted members, which never have it. *)
Theorem pentesters_of_equal_role_keep_pool_order {C : Collaborators}
    data project_type imported_members override d :
  format_template_data data project_type imported_members override = Ok (PDict d) ->
  exists pool members,
    Forall2 (fun u m => format_template_field_user u imported_members = Ok m)
            pool members /\
    dict_get d "pentesters" = Some (PList (sorted_by member_priority members)) /\
    sorted_by_key member_priority (sorted_by member_priority members) /\
    forall k, same_order_at member_priority k
                (sorted_by member_priority members) members.
Proof.
  intros H.
  destruct (format_template_data_inv _ _ _ _ _ H)
    as (d0 & pool & members & report & findings & pentesters
        & _ & Hpool & _ & _ & Hsort & Heq).
  injection Heq as ->.
  exists pool, members. repeat split; auto.
  - rewrite dict_get_set_same.
    now rewrite (py_sorted_members _ _ _ _ Hpool Hsort).
  - apply sorted_by_sorted.
  - intros k. apply sorted_by_stable.
Qed.

(** [pentesters_of_equal_role_keep_pool_order] at the failing input. *)
Lemma pentesters_of_equal_role_keep_pool_order_witness :
  exists d,
    @format_template_data Sample.collaborators
       (PDict [("pentesters", PList [Sample.zed; Sample.amy])])
       Sample.project_type None false = Ok (PDict d) /\
    exists pool members,
      Forall2 (fun u m => @format_template_field_user Sample.collaborators u None = Ok m)
              pool members /\
      dict_get d "pentesters" = Some (PList (sorted_by member_priority members)) /\
      sorted_by_key member_priority (sorted_by member_priority members) /\
      forall k, same_order_at member_priority k
                  (sorted_by member_priority members) members.
Proof.
  eexists. split; [reflexivity|].
  apply (@pentesters_of_equal_role_keep_pool_order Sample.collaborators
           (PDict [("pentesters", PList [Sample.zed; Sample.amy])])
           Sample.project_type None false).
  reflexivity.
Defined.

(** The failing input evaluated: two pentesters, Zed before Amy in the
    pool, come out Zed first although 'Amy' sorts before 'Zed' (and 'amy'
    before 'zed'). *)
Lemma pentesters_zed_before_amy :
  exists d,
    @format_template_data Sample.collaborators
       (PDict [("pentesters", PList [Sample.zed; Sample.amy])])
       Sample.project_type None false = Ok (PDict d) /\
    dict_get d "pentesters"
    = Some (PList [PDict [("id", PStr "m-1"); ("name", PStr "Zed");
                          ("roles", PList [PStr "pentester"])];
                   PDict [("id", PStr "m-2"); ("name", PStr "Amy");
                          ("roles", PList [PStr "pentester"])]]) /\
    String.ltb "Amy" "Zed" = true /\
    String.ltb "amy" "zed" = true.
Proof. eexists. repeat split. Qed.

(** ** Polling a queued task *)

Section CeleryFacts.
Import Celery.
Variables (start : Z) (timeout : option Z).

(** Over quiet turns the loop polls, sleeps 100 ms, and goes on. *)
Lemma poll_quiet_prefix pre rest :
  Forall (fun t => quiet start timeout t = true) pre ->
  poll start timeout (pre ++ rest)
  = ((rounds pre ++ fst (poll start timeout rest))%list, snd (poll start timeout rest)).
Proof.
  induction 1 as [|t pre Ht _ IH]; simpl.
  - now destruct (poll start timeout rest).
  - unfold quiet in Ht.
    apply andb_prop in Ht. destruct Ht as [Ht Hc].
    apply andb_prop in Ht. destruct Ht as [Hr He].
    rewrite negb_true_iff in Hr, He, Hc. rewrite Hr, He, Hc, IH. reflexivity.
Qed.

Lemma poll_trace ts :
  match snd (poll start timeout ts) with
  | CancelledInSleep =>
      polling 100 (fst (poll start timeout ts) ++ [Revoke true false])
  | _ => polling 100 (fst (poll start timeout ts))
  end.
Proof.
  induction ts as [|t ts IH]; simpl.
  - constructor.
  - destruct (ready t); simpl; [constructor|].
    destruct (expired start timeout t); simpl; [constructor|].
    destruct (sleep_cancelled t); simpl; [constructor|].
    destruct (poll start timeout ts) as [es x]; simpl in *.
    destruct x; now constructor.
Qed.

End CeleryFacts.

(** C6 (as stated, refuted).  A timeout of zero is no deadline: the guard
    [if timeout and ...] finds a zero duration falsy.  The slow task,
    polled with [timedelta(0)], is found not ready 100, 200 and 300 ms
    after the start, and no check raises: the loop goes on until the task
    is ready and returns its result. *)
Lemma zero_timeout_is_no_deadline :
  Celery.start_time Sample.slow_task + 0 < 1100 /\
  Celery.get_celery_result_async Sample.slow_task (Some 0)
  = ([Celery.Poll; Celery.Sleep 100; Celery.Poll; Celery.Sleep 100;
      Celery.Poll; Celery.Sleep 100; Celery.Poll; Celery.Sleep 100; Celery.Poll],
     Celery.Returned (Celery.Value (PStr "done"))).
Proof. split; [simpl; lia|reflexivity]. Qed.

(** C6 (amended).  In queued mode the coroutine checks the task's
    readiness, sleeping 100 ms between two checks; it raises TimeoutError
    at the first check that finds the task not ready after [timeout] (a
    set, non-zero duration) has elapsed since the start; and when it is
    cancelled in its sleep it calls [revoke(terminate=True, wait=False)],
    ignores whatever error that call raises, and raises the
    cancellation. *)
Theorem polling_timeout_and_cancellation (env : Celery.Env) (timeout : option Z) :
  Celery.polling 100 (fst (Celery.get_celery_result_async env timeout)) /\
  (forall d pre t post,
      timeout = Some d -> d <> 0 ->
      Celery.turns env = (pre ++ t :: post)%list ->
      Forall (fun t => Celery.quiet (Celery.start_time env) timeout t = true) pre ->
      Celery.ready t = false ->
      Celery.start_time env + d < Celery.now t ->
      snd (Celery.get_celery_result_async env timeout)
      = Celery.Raised (TimeoutError "")) /\
  (forall pre t post,
      Celery.turns env = (pre ++ t :: post)%list ->
      Forall (fun t => Celery.quiet (Celery.start_time env) timeout t = true) pre ->
      Celery.ready t = false ->
      Celery.expired (Celery.start_time env) timeout t = false ->
      Celery.sleep_cancelled t = true ->
      (forall e, Celery.revoke env = Celery.RevokeRaises e -> is_Exception e = true) ->
      Celery.get_celery_result_async env timeout
      = ((Celery.rounds pre ++ [Celery.Poll; Celery.Sleep 100;
                         Celery.Revoke true false])%list,
         Celery.Raised CancelledError)).
Proof.
  split; [|split].
  - unfold Celery.get_celery_result_async.
    pose proof (poll_trace (Celery.start_time env) timeout (Celery.turns env)) as H.
    destruct (Celery.poll _ _ _) as [es x]; simpl in *.
    destruct x; simpl; auto.
    + destruct (Celery.result env) as [v|e]; auto. now destruct (is_Exception e).
    + destruct (Celery.revoke env) as [|e]; auto. now destruct (is_Exception e).
  - intros d pre t post -> Hd Hturns Hpre Hready Hlate.
    unfold Celery.get_celery_result_async.
    rewrite Hturns, poll_quiet_prefix by assumption. simpl.
    rewrite Hready. unfold Celery.expired, Celery.timeout_set.
    destruct (Z.eqb_spec d 0); [contradiction|]. simpl.
    destruct (Z.ltb_spec (Celery.start_time env + d) (Celery.now t)); [|lia].
    reflexivity.
  - intros pre t post Hturns Hpre Hready Hfresh Hcancel Hrevoke.
    unfold Celery.get_celery_result_async.
    rewrite Hturns, poll_quiet_prefix by assumption. simpl.
    rewrite Hready, Hfresh, Hcancel. simpl.
    rewrite <- app_assoc. simpl.
    destruct (Celery.revoke env) as [|e] eqn:Hr; auto.
    now rewrite (Hrevoke e eq_refl).
Qed.

(** [polling_timeout_and_cancellation] at a concrete input. *)
Lemma polling_timeout_and_cancellation_witness :
  snd (Celery.get_celery_result_async Sample.slow_task (Some 250))
  = Celery.Raised (TimeoutError "") /\
  Celery.get_celery_result_async Sample.cancelled_task (Some 250)
  = ([Celery.Poll; Celery.Sleep 100; Celery.Poll; Celery.Sleep 100;
      Celery.Revoke true false],
     Celery.Raised CancelledError).
Proof.
  split.
  - apply (proj1 (proj2 (polling_timeout_and_cancellation Sample.slow_task (Some 250)))
             250 [Celery.mkTurn false 1000 false; Celery.mkTurn false 1100 false;
                  Celery.mkTurn false 1200 false]
             (Celery.mkTurn false 1300 false) [Celery.mkTurn true 1400 false]).
    + reflexivity.
    + discriminate.
    + reflexivity.
    + repeat constructor.
    + reflexivity.
    + simpl. lia.
  - apply (proj2 (proj2 (polling_timeout_and_cancellation Sample.cancelled_task
                           (Some 250)))
             [Celery.mkTurn false 1000 false]
             (Celery.mkTurn false 1100 true) [Celery.mkTurn true 1200 false]).
    + reflexivity.
    + repeat constructor.
    + reflexivity.
    + reflexivity.
    + reflexivity.
    + simpl. intros e He. injection He as <-. reflexivity.
Defined.

(** ** Timing reconciliation in [render_pdf_task] *)

Section RenderTaskFacts.
Import RenderTask.

(** How a call that returns went. *)
Lemma render_pdf_task_inv env project_type timings0 r :
  render_pdf_task env project_type timings0 = Ok r ->
  exists res_pdf start queue task_total,
    worker env = Ok res_pdf /\
    parse_datetime env (popped_start_time (after_merge env timings0 res_pdf)) = Ok start /\
    queue_time env start = Ok queue /\
    dict_get (reconciled_timings (after_merge env timings0 res_pdf) queue)
             "task_total" = Some task_total /\
    r = mkResult
          (pdf (after_merge env timings0 res_pdf))
          (map (stamp project_type) (messages (after_merge env timings0 res_pdf)))
          (dict_set
             (dict_remove
                (reconciled_timings (after_merge env timings0 res_pdf) queue)
                "task_total")
             "other"
             (Z.max 0
                (task_total + total (timings (at_submission env timings0))
                 - total (dict_remove
                            (reconciled_timings (after_merge env timings0 res_pdf)
                                                queue)
                            "task_total"))))
          (dict_remove (other (after_merge env timings0 res_pdf)) "task_start_time").
Proof.
  unfold render_pdf_task.
  destruct (resources env); [|discriminate]. simpl.
  destruct (worker env) as [res_pdf|]; [|discriminate]. simpl.
  destruct (parse_datetime env _) as [start|] eqn:Hparse; [|discriminate]. simpl.
  destruct (queue_time env start) as [queue|] eqn:Hqueue; [|discriminate]. simpl.
  destruct (dict_get _ "task_total") as [task_total|] eqn:Ht; [|discriminate].
  intros H. injection H as <-.
  exists res_pdf, start, queue, task_total. auto.
Qed.

(** The new 'queue' is the difference of the two instants. *)
Lemma queue_time_inv env start queue :
  queue_time env start = Ok queue ->
  match start with
  | Some t => aware t = aware (before_task_start env) /\
              queue = Some (instant t - instant (before_task_start env))
  | None => queue = None
  end.
Proof.
  destruct start as [t|]; simpl.
  - unfold elapsed. destruct (Bool.eqb _ _) eqn:Haware; simpl; [|discriminate].
    intros H. injection H as <-. split; auto. now apply Bool.eqb_prop.
  - intros H. now injection H as <-.
Qed.

(** The entries after the merge: 'task_total' and 'queue' are the
    orchestrator's unless the worker's timings carry the same names. *)
Lemma after_merge_task_total env timings0 res_pdf :
  dict_get (timings res_pdf) "task_total" = None ->
  dict_get (timings (after_merge env timings0 res_pdf)) "task_total"
  = Some (task_total_elapsed env).
Proof.
  intros H. unfold after_merge, merge, add_timing. simpl.
  rewrite dict_get_or_absent by assumption. apply dict_get_set_same.
Qed.

Lemma after_merge_queue env timings0 res_pdf :
  dict_get (timings res_pdf) "queue" = None ->
  dict_get (timings (after_merge env timings0 res_pdf)) "queue" = Some 0.
Proof.
  intros H. unfold after_merge, merge, add_timing, at_submission, set_timing. simpl.
  rewrite dict_get_or_absent by assumption.
  rewrite dict_get_set_other by discriminate. apply dict_get_set_same.
Qed.

(** When the parser finds no date, 'queue' is not recomputed; and the
    returned auxiliary data never has 'task_start_time'. *)
Lemma queue_kept_when_start_is_no_date env project_type timings0 r :
  render_pdf_task env project_type timings0 = Ok r ->
  dict_get (other r) "task_start_time" = None /\
  forall res_pdf,
    worker env = Ok res_pdf ->
    parse_datetime env (popped_start_time (after_merge env timings0 res_pdf)) = Ok None ->
    dict_get (timings r) "queue"
    = dict_get (timings (after_merge env timings0 res_pdf)) "queue" /\
    (dict_get (timings res_pdf) "queue" = None ->
     dict_get (timings r) "queue" = Some 0).
Proof.
  intros H.
  destruct (render_pdf_task_inv _ _ _ _ H)
    as (res_pdf & start & queue & task_total & Hw & Hp & Hq & Ht & ->).
  simpl. split; [apply dict_get_remove_same|].
  intros res_pdf' Hw' Hp'. rewrite Hw in Hw'. injection Hw' as <-.
  rewrite Hp in Hp'. injection Hp' as ->. simpl in Hq. injection Hq as <-. simpl.
  rewrite dict_get_set_other by discriminate.
  rewrite dict_get_remove_other by discriminate.
  split; auto. apply after_merge_queue.
Qed.

End RenderTaskFacts.

(** C8.  When [render_pdf_task] returns, timings['queue'] is the start
    timestamp the worker reported minus the timestamp taken just before
    submission, and timings['other'] is max(0, task_total + the sum of the
    timings recorded before submission - the sum of all entries other than
    task_total), where task_total is the recorded entry of that name: the
    elapsed time of the task block (a worker that reports a timing under
    the same name replaces it in the merge). *)
Theorem timing_reconciliation (env : RenderTask.Env) project_type timings0 r :
  RenderTask.render_pdf_task env project_type timings0 = Ok r ->
  exists res_pdf start queue task_total,
    RenderTask.worker env = Ok res_pdf /\
    RenderTask.parse_datetime env
      (RenderTask.popped_start_time (RenderTask.after_merge env timings0 res_pdf))
    = Ok start /\
    RenderTask.queue_time env start = Ok queue /\
    (forall t, start = Some t ->
       dict_get (RenderTask.timings r) "queue"
       = Some (RenderTask.instant t
               - RenderTask.instant (RenderTask.before_task_start env))) /\
    dict_get (RenderTask.reconciled_timings
                (RenderTask.after_merge env timings0 res_pdf) queue) "task_total"
    = Some task_total /\
    (dict_get (RenderTask.timings res_pdf) "task_total" = None ->
     task_total = RenderTask.task_total_elapsed env) /\
    dict_get (RenderTask.timings r) "other"
    = Some (Z.max 0
              (task_total
               + RenderTask.total
                   (RenderTask.timings (RenderTask.at_submission env timings0))
               - RenderTask.total
                   (dict_remove
                      (RenderTask.reconciled_timings
                         (RenderTask.after_merge env timings0 res_pdf) queue)
                      "task_total"))).
Proof.
  intros H.
  destruct (render_pdf_task_inv _ _ _ _ H)
    as (res_pdf & start & queue & task_total & Hw & Hp & Hq & Ht & ->).
  exists res_pdf, start, queue, task_total. simpl. repeat split; auto.
  - intros t ->. apply queue_time_inv in Hq. destruct Hq as [_ ->]. simpl.
    rewrite dict_get_set_other by discriminate.
    rewrite dict_get_remove_other by discriminate.
    apply dict_get_set_same.
  - intros Hnone.
    assert (Hm := after_merge_task_total env timings0 res_pdf Hnone).
    destruct queue as [q|]; unfold RenderTask.reconciled_timings in Ht.
    + rewrite dict_get_set_other in Ht by discriminate. congruence.
    + congruence.
  - apply dict_get_set_same.
Qed.

(** [timing_reconciliation] at a concrete input. *)
Lemma timing_reconciliation_witness :
  exists r,
    RenderTask.render_pdf_task
      (Sample.render_env [("task_start_time", PStr "2024-05-01T10:00:02+00:00")])
      Sample.project_type None = Ok r /\
    dict_get (RenderTask.timings r) "queue" = Some 2000000 /\
    dict_get (RenderTask.timings r) "other" = Some 500000.
Proof.
  eexists. split; [reflexivity|].
  destruct (timing_reconciliation
              (Sample.render_env [("task_start_time", PStr "2024-05-01T10:00:02+00:00")])
              Sample.project_type None _ eq_refl)
    as (res_pdf & start & queue & task_total & Hw & Hp & Hqt & Hq & Ht & Hel & Ho).
  injection Hw as <-. injection Hp as <-. injection Hqt as <-.
  split.
  - exact (Hq _ eq_refl).
  - rewrite (Hel eq_refl) in Ho. exact Ho.
Defined.

(** C10 (the code at the failing inputs).  When the worker result has no
    'task_start_time' in its auxiliary data, the value popped is None and
    the date parser is called on None: [render_pdf_task] raises TypeError
    and returns no timings at all, instead of leaving 'queue' at 0.0. *)
Theorem render_pdf_task_raises_without_start_time
    (env : RenderTask.Env) project_type timings0 res_pdf resources :
  RenderTask.resources env = Ok resources ->
  RenderTask.worker env = Ok res_pdf ->
  dict_get (RenderTask.other res_pdf) "task_start_time" = None ->
  RenderTask.render_pdf_task env project_type timings0 = Raise TypeError.
Proof.
  intros Hres Hw Hnone. unfold RenderTask.render_pdf_task.
  rewrite Hres, Hw. simpl.
  unfold RenderTask.popped_start_time, RenderTask.after_merge, RenderTask.merge,
    dict_get_or.
  simpl. now rewrite dict_get_or_absent by assumption.
Qed.

(** [render_pdf_task_raises_without_start_time] at a concrete input. *)
Lemma render_pdf_task_raises_without_start_time_witness :
  RenderTask.render_pdf_task (Sample.render_env []) Sample.project_type None
  = Raise TypeError.
Proof.
  apply (render_pdf_task_raises_without_start_time
           (Sample.render_env []) Sample.project_type None _ [] eq_refl eq_refl).
  reflexivity.
Defined.

(** With a 'task_start_time' that is text but no date the call returns,
    'queue' is its pre-initialized 0 and the key is gone from the auxiliary
    data. *)
Lemma render_pdf_task_with_unparseable_start_time :
  exists r,
    RenderTask.render_pdf_task
      (Sample.render_env [("task_start_time", PStr "unknown")])
      Sample.project_type None = Ok r /\
    dict_get (RenderTask.timings r) "queue" = Some 0 /\
    dict_get (RenderTask.other r) "task_start_time" = None.
Proof. eexists. repeat split. Qed.

(** With a 'task_start_time' that has no UTC offset, against a submission
    time that has one, the subtraction raises TypeError. *)
Lemma render_pdf_task_with_naive_start_time :
  RenderTask.render_pdf_task
    (Sample.render_env [("task_start_time", PStr "2024-05-01T10:00:02")])
    Sample.project_type None
  = Raise TypeError.
Proof. reflexivity. Qed.

(** ** Markdown round trip: failures while formatting the output *)

Section MarkdownFacts.
Import Markdown.

Lemma only_exceptions_ok (A : Type) (a : A) : only_exceptions (Ok a).
Proof. intros e H. discriminate. Qed.

Lemma only_exceptions_bind (A B : Type) (r : Result A) (k : A -> Result B) :
  only_exceptions r -> (forall a, r = Ok a -> only_exceptions (k a)) ->
  only_exceptions (bind r k).
Proof.
  intros Hr Hk e. destruct r as [a|e']; simpl.
  - now apply Hk.
  - intros H. injection H as <-. now apply Hr.
Qed.

Lemma only_exceptions_item (A : Type) (l : list A) (i : nat) :
  only_exceptions (item l i).
Proof.
  unfold item. intros e. destruct (nth_error l i); [discriminate|].
  intros H. now injection H as <-.
Qed.

Lemma only_exceptions_subscript v k : only_exceptions (subscript v k).
Proof.
  unfold subscript. intros e.
  destruct v; try (intros H; now injection H as <-).
  destruct (dict_get d k); [discriminate|]. intros H. now injection H as <-.
Qed.

Lemma only_exceptions_py_iter v : only_exceptions (py_iter v).
Proof.
  intros e. destruct v; simpl; try discriminate; intros H; now injection H as <-.
Qed.

Create HintDb only_exc.
#[local] Hint Resolve only_exceptions_ok only_exceptions_item only_exceptions_subscript
  only_exceptions_py_iter : only_exc.

Ltac step_bind := apply only_exceptions_bind; [auto with only_exc|intros ? _].

Variable env : Env.
Hypothesis Henv : fails_with_exceptions env.

Lemma only_exceptions_splice_item items id path html :
  only_exceptions (splice_item env items id path html).
Proof.
  induction items as [|s items IH]; simpl.
  - intros e H. now injection H as <-.
  - step_bind. destruct (py_eq_str _ id).
    + step_bind. apply only_exceptions_bind; [apply Henv|intros data' _].
      destruct s; auto with only_exc; intros e H; now injection H as <-.
    + apply only_exceptions_bind; auto with only_exc.
Qed.

Lemma only_exceptions_splice result entry : only_exceptions (splice env result entry).
Proof.
  unfold splice. apply only_exceptions_bind; [apply Henv|intros path _].
  step_bind. destruct (_ || _); auto with only_exc.
  do 3 step_bind.
  apply only_exceptions_bind; [apply only_exceptions_splice_item|intros l' _].
  destruct result; auto with only_exc; intros e H; now injection H as <-.
Qed.

Lemma only_exceptions_splice_all entries :
  forall result, only_exceptions (splice_all env result entries).
Proof.
  induction entries as [|entry entries IH]; simpl; intros result.
  - auto with only_exc.
  - apply only_exceptions_bind; auto using only_exceptions_splice.
Qed.

(** Whatever fails in [format_output] fails with an instance of
    Exception. *)
Lemma only_exceptions_format_output res : only_exceptions (format_output env res).
Proof.
  unfold format_output.
  apply only_exceptions_bind; [apply Henv|intros html_tree _].
  apply only_exceptions_bind.
  { destruct html_tree; auto with only_exc. intros e H. now injection H as <-. }
  intros root _. do 2 step_bind.
  apply only_exceptions_bind; [apply Henv|intros result _].
  apply only_exceptions_bind; [apply only_exceptions_splice_all|intros result' _].
  auto with only_exc.
Qed.

End MarkdownFacts.

(** C7 (as stated, refuted).  A failure of step 3, the render call itself,
    is not caught: when [render_pdf_task] raises the timeout, so does
    [render_project_markdown_fields_to_html]. *)
Lemma render_failure_propagates :
  Markdown.render_project_markdown_fields_to_html
    (Sample.markdown_env (Raise (TimeoutError "PDF rendering timeout"))
                         (Ok (Some Sample.markup_tree)))
  = Markdown.Resumed (Raise (TimeoutError "PDF rendering timeout")).
Proof. reflexivity. Qed.

(** C7 (amended).  A failure while parsing the rendered markup or while
    splicing the fragments into the serialized project (steps 4-5, the
    inner [format_output]) does not propagate when it is an instance of
    Exception that the thread can hand to the coroutine, that is any but a
    StopIteration: the call returns [res.to_dict()], without 'result', with
    the messages collected so far followed by one error-level message.
    The failures that arise in these steps are instances of Exception as
    long as the parser, the serializer, the JSON decoder and the path
    setter fail that way, and then the call returns whenever the render
    call did and [format_output] raised no StopIteration. *)
Theorem formatting_failures_are_reported (env : Markdown.Env) res :
  Markdown.rendered env = Ok res ->
  (forall e,
      RenderTask.has_pdf res = true ->
      Markdown.format_output env res = Raise e ->
      is_Exception e = true ->
      e <> StopIteration ->
      exists out,
        Markdown.render_project_markdown_fields_to_html env
        = Markdown.Resumed (Ok out) /\
        Markdown.has_result out = false /\
        Markdown.output_messages out
        = (RenderTask.messages res
           ++ [RenderTask.mkMessage RenderTask.ERROR
                 "Error while formatting output" None])%list) /\
  (Markdown.fails_with_exceptions env ->
   Markdown.format_output env res <> Raise StopIteration ->
   exists out,
     Markdown.render_project_markdown_fields_to_html env = Markdown.Resumed (Ok out)).
Proof.
  intros Hres. unfold Markdown.render_project_markdown_fields_to_html.
  rewrite Hres. split.
  - intros e Hpdf Hfail Hexc Hstop. rewrite Hpdf, Hfail. simpl.
    destruct e; try contradiction; try discriminate; simpl;
      eexists; repeat split.
  - intros Henv Hstop. destruct (RenderTask.has_pdf res); simpl; [|eauto].
    destruct (Markdown.format_output env res) as [out|e] eqn:Hout; [simpl; eauto|].
    pose proof (only_exceptions_format_output env Henv res e Hout) as Hexc.
    destruct e; try contradiction; try discriminate; simpl; eauto.
Qed.

(** [formatting_failures_are_reported] at a concrete input. *)
Lemma formatting_failures_are_reported_witness :
  exists out,
    Markdown.render_project_markdown_fields_to_html
      (Sample.markdown_env (Ok Sample.rendered_markup) (Ok None))
    = Markdown.Resumed (Ok out) /\
    Markdown.has_result out = false /\
    Markdown.output_messages out
    = [RenderTask.mkMessage RenderTask.WARNING "font not found" None;
       RenderTask.mkMessage RenderTask.ERROR "Error while formatting output" None].
Proof.
  apply (proj1 (formatting_failures_are_reported
                  (Sample.markdown_env (Ok Sample.rendered_markup) (Ok None))
                  Sample.rendered_markup eq_refl)
           AttributeError); try reflexivity.
  discriminate.
Defined.

(* ===================================================================== *)
(** * Further properties of the code *)
(* ===================================================================== *)

(** ** The formatter, kind by kind *)

Lemma mapM_first_failure (A B : Type) (f : A -> Result B) pre e post x :
  Forall (fun a => exists b, f a = Ok b) pre ->
  f e = Raise x ->
  mapM f (pre ++ e :: post) = Raise x.
Proof.
  induction 1 as [|a pre [b Hb] _ IH]; simpl; intros He.
  - now rewrite He.
  - now rewrite Hb, IH.
Qed.

(** X1.  A list field is formatted item by item: the output has one entry
    per item of the value, in the value's order, each the formatted form of
    its item; and the first item that fails makes the whole list fail with
    that item's exception. *)
Theorem list_items_formatted_in_order {C : Collaborators} i items value members :
  (forall out,
      format_template_field (ListField i items) value members = Ok out ->
      exists l outs,
        py_iter value = Ok l /\ out = PList outs /\
        Forall2 (fun e o => format_template_field items e members = Ok o) l outs /\
        length outs = length l) /\
  (forall pre e post x,
      py_iter value = Ok (pre ++ e :: post)%list ->
      Forall (fun e' => exists o, format_template_field items e' members = Ok o) pre ->
      format_template_field items e members = Raise x ->
      format_template_field (ListField i items) value members = Raise x).
Proof.
  split.
  - intros out H. simpl in H.
    destruct (py_iter value) as [l|]; [|discriminate].
    destruct (mapM _ l) as [outs|] eqn:Hl; [|discriminate].
    injection H as <-. apply mapM_ok in Hl.
    exists l, outs. repeat split; auto.
    symmetry. eapply Forall2_length; eauto.
  - intros pre e post x Hiter Hpre He. simpl. rewrite Hiter.
    now rewrite (mapM_first_failure _ _ _ pre e post x Hpre He).
Qed.

(** [list_items_formatted_in_order] at concrete inputs: three enum items,
    and a list of lists whose second item is no list. *)
Lemma list_items_formatted_in_order_witness :
  (exists l outs,
      py_iter (PList [PStr "net"; PStr "fax"; PStr "web"]) = Ok l /\
      PList [PDict [("value", PStr "net"); ("label", PStr "Network")];
             PDict [("value", PStr ""); ("label", PStr "")];
             PDict [("value", PStr "web"); ("label", PStr "Web")]] = PList outs /\
      Forall2 (fun e o =>
                 @format_template_field Sample.collaborators
                   (EnumField "" [mkEnumChoice "web" "Web"; mkEnumChoice "net" "Network"]
                              PNone) e None = Ok o) l outs /\
      length outs = length l) /\
  @format_template_field Sample.collaborators
     (ListField "rows" (ListField "" (ScalarField "" PNone)))
     (PList [PList [PInt 1]; PInt 2; PList []]) None
  = Raise TypeError.
Proof.
  split.
  - apply (proj1 (@list_items_formatted_in_order Sample.collaborators "scopes"
                    (EnumField "" [mkEnumChoice "web" "Web"; mkEnumChoice "net" "Network"]
                               PNone)
                    (PList [PStr "net"; PStr "fax"; PStr "web"]) None)).
    reflexivity.
  - apply (proj2 (@list_items_formatted_in_order Sample.collaborators "rows"
                    (ListField "" (ScalarField "" PNone))
                    (PList [PList [PInt 1]; PInt 2; PList []]) None)
             [PList [PInt 1]] (PInt 2) [PList []] TypeError).
    + reflexivity.
    + repeat constructor. eexists. reflexivity.
    + reflexivity.
Defined.

(** X2.  The formatted form of an enum value is a {value, label} pair that
    is either a declared choice whose value is the input -- the first such
    choice -- or the empty pair; it never names a choice other than the
    input. *)
Theorem enum_is_first_matching_choice {C : Collaborators} i choices default value members :
  exists v l,
    format_template_field (EnumField i choices default) value members
    = Ok (PDict [("value", PStr v); ("label", PStr l)]) /\
    ((value = PStr v /\
      exists before after,
        choices = (before ++ mkEnumChoice v l :: after)%list /\
        Forall (fun c => choice_value c <> v) before) \/
     (v = "" /\ l = "" /\
      Forall (fun c => value <> PStr (choice_value c)) choices)).
Proof.
  simpl.
  induction choices as [|c choices IH]; simpl.
  - exists "", "". split; auto.
  - destruct (py_eq_str value (choice_value c)) eqn:Hc.
    + exists (choice_value c), (choice_label c). split; auto. left.
      destruct value; try discriminate. simpl in Hc.
      apply String.eqb_eq in Hc. subst. split; auto.
      exists [], choices. destruct c; auto.
    + destruct IH as (v & l & Heq & Hcase).
      exists v, l. split; auto.
      destruct Hcase as [[Hv (before & after & -> & Hbefore)]|(-> & -> & Hnone)].
      * left. split; auto. exists (c :: before), after. split; auto.
        constructor; auto. intros Heqv. subst value. simpl in Hc.
        rewrite Heqv, String.eqb_refl in Hc. discriminate.
      * right. repeat split; auto. constructor; auto.
        intros ->. simpl in Hc. rewrite String.eqb_refl in Hc. discriminate.
Qed.

(** X3.  A CWE value is resolved by the first table entry whose key
    "CWE-<id>" it equals: the result is the null-defaulted record with that
    entry written over it, whatever stands behind the entry in the table;
    its 'id' is the entry's, and its 'value' is the original value unless
    the entry has a 'value' of its own. *)
Theorem cwe_is_first_matching_entry {C : Collaborators} i default value members
    before entry after n :
  cwe_definitions = (before ++ entry :: after)%list ->
  Forall (fun c => exists m, dict_get c "id" = Some m /\
                             py_eq_str value ("CWE-" ++ py_str m) = false) before ->
  dict_get entry "id" = Some n ->
  py_eq_str value ("CWE-" ++ py_str n) = true ->
  NoDup (map fst entry) ->
  exists d,
    format_template_field (CweField i default) value members = Ok (PDict d) /\
    d = dict_or [("id", PNone); ("name", PNone); ("description", PNone);
                 ("value", value)] entry /\
    dict_get d "id" = Some n /\
    (dict_get entry "value" = None -> dict_get d "value" = Some value).
Proof.
  intros Htable Hbefore Hid Hmatch Hnd.
  assert (Hfind : find_cwe value cwe_definitions = Ok entry).
  { rewrite Htable. clear Htable.
    induction Hbefore as [|c before [m [Hm Hne]] _ IH]; cbn [find_cwe app].
    - now rewrite Hid, Hmatch.
    - now rewrite Hm, Hne. }
  eexists. cbn [format_template_field]. rewrite Hfind. cbn [bind].
  split; [reflexivity|]. split; [reflexivity|]. split.
  - now apply dict_get_or_present.
  - intros Hnone. rewrite dict_get_or_absent by assumption. reflexivity.
Qed.

(** [cwe_is_first_matching_entry] at a concrete input. *)
Lemma cwe_is_first_matching_entry_witness :
  exists d,
    @format_template_field Sample.collaborators (CweField "cwe" PNone)
       (PStr "CWE-79") None = Ok (PDict d) /\
    d = dict_or [("id", PNone); ("name", PNone); ("description", PNone);
                 ("value", PStr "CWE-79")]
          [("id", PInt 79); ("name", PStr "Cross-site Scripting");
           ("description", PStr "Improper neutralization of input")] /\
    dict_get d "id" = Some (PInt 79) /\
    (dict_get [("id", PInt 79); ("name", PStr "Cross-site Scripting");
               ("description", PStr "Improper neutralization of input")] "value"
     = None ->
     dict_get d "value" = Some (PStr "CWE-79")).
Proof.
  apply (@cwe_is_first_matching_entry Sample.collaborators "cwe" PNone
           (PStr "CWE-79") None [] _ [] (PInt 79)).
  - reflexivity.
  - constructor.
  - reflexivity.
  - reflexivity.
  - distinct_ids.
Defined.

(** ** Objects: stale keys and identifiers *)

Section ObjectFacts.
Context {C : Collaborators}.

Lemma ensure_defined_fields_undeclared value fields k :
  ~ In k (map field_id fields) -> dict_get (ensure_defined_fields value fields) k = None.
Proof.
  intros Hk. unfold ensure_defined_fields, fill_fields.
  now rewrite fill_fields_acc_other.
Qed.

(** Under a key the schema does not declare, the loop leaves what the raw
    mapping had. *)
Lemma format_object_undeclared fmt raw fields d0 k :
  format_object fmt (PDict raw) fields = Ok d0 ->
  ~ In k (map field_id fields) ->
  dict_get d0 k = dict_get raw k.
Proof.
  unfold format_object. intros H Hk.
  rewrite (format_fields_other _ _ _ _ _ H Hk).
  apply dict_get_or_absent. now apply ensure_defined_fields_undeclared.
Qed.

End ObjectFacts.

(** X4.  Formatting an object keeps the stale entries of the raw mapping:
    an entry under a key that the definition does not declare comes out
    with the value it had, the 'id' included, which is then never replaced
    by a generated one. *)
Theorem undeclared_entries_survive {C : Collaborators}
    raw fields members require_id new_id out k v :
  format_template_field_object (PDict raw) fields members require_id new_id = Ok out ->
  ~ In k (map field_id fields) ->
  dict_get raw k = Some v ->
  exists d, out = PDict d /\ dict_get d k = Some v.
Proof.
  unfold format_template_field_object. intros H Hk Hv.
  destruct (format_object _ (PDict raw) fields) as [d0|] eqn:Hd; [|discriminate].
  assert (Hd0 : dict_get d0 k = Some v)
    by (rewrite (format_object_undeclared _ _ _ _ _ Hd Hk); exact Hv).
  destruct (require_id && negb (dict_mem d0 "id")) eqn:Hid; injection H as <-.
  - eexists. split; [reflexivity|]. rewrite dict_get_set.
    destruct (String.eqb_spec "id" k) as [<-|]; auto.
    apply andb_prop in Hid. destruct Hid as [_ Hid].
    unfold dict_mem in Hid. rewrite Hd0 in Hid. discriminate.
  - eauto.
Qed.

(** [undeclared_entries_survive] at a concrete input: a finding with an id
    and an order, neither declared by the schema. *)
Lemma undeclared_entries_survive_witness :
  exists d,
    @format_template_field_object Sample.collaborators
       (PDict [("id", PStr "f-1"); ("order", PInt 3); ("title", PStr "XSS")])
       Sample.finding_schema None true "generated" = Ok (PDict d) /\
    dict_get d "id" = Some (PStr "f-1") /\
    dict_get d "order" = Some (PInt 3).
Proof.
  eexists. split; [reflexivity|]. split.
  - destruct (@undeclared_entries_survive Sample.collaborators
                [("id", PStr "f-1"); ("order", PInt 3); ("title", PStr "XSS")]
                Sample.finding_schema None true "generated" _ "id" (PStr "f-1") eq_refl)
      as (d & Heq & Hget).
    + simpl. intuition discriminate.
    + reflexivity.
    + injection Heq as <-. exact Hget.
  - destruct (@undeclared_entries_survive Sample.collaborators
                [("id", PStr "f-1"); ("order", PInt 3); ("title", PStr "XSS")]
                Sample.finding_schema None true "generated" _ "order" (PInt 3) eq_refl)
      as (d & Heq & Hget).
    + simpl. intuition discriminate.
    + reflexivity.
    + injection Heq as <-. exact Hget.
Defined.

(** X5.  With [require_id] the formatted object always has an 'id'; when
    neither the raw mapping nor the definition has one it is the generated
    identifier, and without [require_id] such an object gets none. *)
Theorem require_id_gives_an_id {C : Collaborators}
    raw fields members require_id new_id out :
  format_template_field_object (PDict raw) fields members require_id new_id = Ok out ->
  exists d,
    out = PDict d /\
    (require_id = true -> dict_mem d "id" = true) /\
    (~ In "id" (map field_id fields) -> dict_get raw "id" = None ->
     dict_get d "id" = if require_id then Some (PStr new_id) else None).
Proof.
  unfold format_template_field_object. intros H.
  destruct (format_object _ (PDict raw) fields) as [d0|] eqn:Hd; [|discriminate].
  destruct (require_id && negb (dict_mem d0 "id")) eqn:Hid; injection H as <-;
    eexists; (split; [reflexivity|]); split.
  - intros _. rewrite dict_mem_set. reflexivity.
  - intros _ _. apply andb_prop in Hid. destruct Hid as [-> _].
    apply dict_get_set_same.
  - intros ->. simpl in Hid. now apply negb_false_iff in Hid.
  - intros Hk Hraw. rewrite (format_object_undeclared _ _ _ _ _ Hd Hk), Hraw.
    destruct require_id; auto. simpl in Hid. apply negb_false_iff in Hid.
    unfold dict_mem in Hid.
    rewrite (format_object_undeclared _ _ _ _ _ Hd Hk), Hraw in Hid. discriminate.
Qed.

(** [require_id_gives_an_id] at a concrete input: a finding without id. *)
Lemma require_id_gives_an_id_witness :
  exists d,
    @format_template_field_object Sample.collaborators
       (PDict [("title", PStr "XSS")]) Sample.finding_schema None true "generated"
    = Ok (PDict d) /\
    dict_mem d "id" = true /\
    dict_get d "id" = Some (PStr "generated").
Proof.
  destruct (@require_id_gives_an_id Sample.collaborators
              [("title", PStr "XSS")] Sample.finding_schema None true "generated" _
              eq_refl)
    as (d & Heq & Hmem & Hget).
  injection Heq as <-.
  eexists. split; [reflexivity|]. split.
  - exact (Hmem eq_refl).
  - apply Hget; [simpl; intuition discriminate|reflexivity].
Defined.

(** ** User references *)

Lemma find_first_match (A : Type) (p : A -> bool) pre x post :
  Forall (fun a => p a = false) pre -> p x = true ->
  find p (pre ++ x :: post) = Some x.
Proof.
  induction 1 as [|a pre Ha _ IH]; simpl; intros Hx.
  - now rewrite Hx.
  - rewrite Ha. auto.
Qed.

Section UserShape.
Context {C : Collaborators}.

(** The record that [format_user] builds: the projection of its source and
    the 'roles'. *)
Lemma format_user_shape u d :
  format_user u = Ok (PDict d) ->
  exists source roles,
    d = dict_or (copy_keys source user_keys) [("roles", PList roles)].
Proof.
  unfold format_user. destruct (truthy u); simpl; [|discriminate].
  destruct (match u with
            | PObj ProjectMemberInfo attrs => _
            | _ => Ok u
            end) as [src|]; [|discriminate].
  simpl. destruct (format_roles _) as [roles|]; [|discriminate].
  simpl. intros H. injection H as <-. eauto.
Qed.

End UserShape.

(** X6.  A bare id is resolved from the candidate members first: the first
    candidate whose id has the same string as the value, when it is not
    empty, is the one that is formatted, whatever the user store holds. *)
Theorem id_resolves_to_first_matching_member {C : Collaborators}
    value before m after :
  (exists s, value = PStr s \/ value = PUuid s) ->
  Forall (fun i => py_str (get_key_or_attr i "id" PNone) <> py_str value) before ->
  py_str (get_key_or_attr m "id" PNone) = py_str value ->
  truthy m = true ->
  format_template_field_user value (Some (before ++ m :: after)%list) = format_user m.
Proof.
  intros [s Hs] Hbefore Hm Htruthy. unfold format_template_field_user.
  assert (Hfind : find (fun i => String.eqb (py_str (get_key_or_attr i "id" PNone))
                                            (py_str value))
                       (before ++ m :: after) = Some m).
  { apply find_first_match.
    - eapply Forall_impl; [|exact Hbefore]. simpl. intros a Ha.
      now apply String.eqb_neq.
    - now apply String.eqb_eq. }
  destruct Hs as [-> | ->]; rewrite Hfind, Htruthy; reflexivity.
Qed.

(** [id_resolves_to_first_matching_member] at a concrete input: a UUID
    that the second candidate has as its id string. *)
Lemma id_resolves_to_first_matching_member_witness :
  @format_template_field_user Sample.collaborators (PUuid "m-2")
     (Some [Sample.zed; Sample.amy; Sample.zed])
  = @format_user Sample.collaborators Sample.amy.
Proof.
  apply (@id_resolves_to_first_matching_member Sample.collaborators
           (PUuid "m-2") [Sample.zed] Sample.amy [Sample.zed]).
  - eexists. right. reflexivity.
  - repeat constructor. discriminate.
  - reflexivity.
  - reflexivity.
Defined.

(** X7.  An id that no candidate has and the user store knows is formatted
    from the stored user, with no roles: the record is the projection of
    the user to the contact fields plus an empty 'roles' list. *)
Theorem stored_user_has_no_roles {C : Collaborators} value members usr :
  set_iter_ok set_iter ->
  (exists s, value = PStr s \/ value = PUuid s) ->
  Forall (fun i => py_str (get_key_or_attr i "id" PNone) <> py_str value)
         (match members with Some l => l | None => [] end) ->
  user_store_get value = Found usr ->
  format_template_field_user value members
  = Ok (PDict (dict_or (copy_keys usr user_keys) [("roles", PList [])])).
Proof.
  intros [_ Hincl] [s Hs] Hmembers Hstore. unfold format_template_field_user.
  assert (Hfind : find (fun i => String.eqb (py_str (get_key_or_attr i "id" PNone))
                                            (py_str value))
                       match members with Some l => l | None => [] end = None).
  { apply find_no_match. intros i Hin. apply String.eqb_neq.
    rewrite Forall_forall in Hmembers. auto. }
  assert (Hset : set_iter [] = []).
  { destruct (set_iter []) as [|x l] eqn:Hx; auto.
    exfalso. apply (Hincl [] x). rewrite Hx. now left. }
  assert (Huser : format_user (PObj ProjectMemberInfo [("user", usr); ("roles", PList [])])
                  = Ok (PDict (dict_or (copy_keys usr user_keys) [("roles", PList [])]))).
  { unfold format_user, format_roles, py_set. simpl. now rewrite Hset. }
  destruct Hs as [-> | ->]; rewrite Hfind, Hstore; exact Huser.
Qed.

(** [stored_user_has_no_roles] at a concrete input. *)
Lemma stored_user_has_no_roles_witness :
  @format_template_field_user Sample.collaborators (PStr "u-1")
     (Some [Sample.zed; Sample.amy])
  = Ok (PDict [("id", PStr "u-1"); ("name", PStr "Ada Admin");
               ("email", PStr "ada@example.com"); ("roles", PList [])]).
Proof.
  apply (@stored_user_has_no_roles Sample.collaborators (PStr "u-1")
           (Some [Sample.zed; Sample.amy]) Sample.admin).
  - exact insertion_order_ok.
  - eexists. left. reflexivity.
  - repeat constructor; discriminate.
  - reflexivity.
Defined.

(** X8.  A formatted user record has no keys but the ten contact fields
    and 'roles': whatever else the member record or the stored user holds
    (a username, say) is not passed on. *)
Theorem user_record_has_contact_keys_only {C : Collaborators} value members d k v :
  format_template_field_user value members = Ok (PDict d) ->
  dict_get d k = Some v ->
  In k user_keys \/ k = "roles".
Proof.
  intros H Hk.
  destruct (format_template_field_user_inv _ _ _ H) as [Hnone|[u Hu]]; [discriminate|].
  destruct (format_user_shape _ _ Hu) as (source & roles & ->).
  unfold dict_or in Hk. simpl in Hk. rewrite dict_get_set in Hk.
  destruct (String.eqb_spec "roles" k) as [<-|]; auto.
  left. eapply copy_keys_only; eauto.
Qed.

(** [user_record_has_contact_keys_only] at a concrete input: a member
    record with a username and a password hash. *)
Lemma user_record_has_contact_keys_only_witness :
  exists d,
    @format_template_field_user Sample.collaborators
       (PDict [("id", PStr "m-9"); ("username", PStr "eve");
               ("password", PStr "pbkdf2$..."); ("email", PStr "eve@example.com");
               ("roles", PList [PStr "reviewer"])]) None = Ok (PDict d) /\
    dict_get d "email" = Some (PStr "eve@example.com") /\
    (In "email" user_keys \/ "email" = "roles") /\
    dict_get d "password" = None /\
    dict_get d "username" = None.
Proof.
  eexists. split; [reflexivity|]. split; [reflexivity|]. split; [|split; reflexivity].
  eapply (@user_record_has_contact_keys_only Sample.collaborators
            (PDict [("id", PStr "m-9"); ("username", PStr "eve");
                    ("password", PStr "pbkdf2$..."); ("email", PStr "eve@example.com");
                    ("roles", PList [PStr "reviewer"])]) None _ "email"
            (PStr "eve@example.com")); reflexivity.
Defined.

(** ** The assembled template data *)

Lemma Forall2_combine_seq (A B : Type) (P : nat * A -> B -> Prop) (raw : list A) :
  forall s outs,
    Forall2 P (combine (seq s (length raw)) raw) outs ->
    Forall2 (fun f o => exists n, P (n, f) o) raw outs.
Proof.
  induction raw as [|f raw IH]; simpl; intros s outs H;
    inversion H; subst; constructor; eauto.
Qed.

Lemma Forall2_In_l (A B : Type) (P : A -> B -> Prop) l l' x :
  Forall2 P l l' -> In x l -> exists y, In y l' /\ P x y.
Proof.
  induction 1 as [|a b l l' Hab _ IH]; simpl; intros Hin; [contradiction|].
  destruct Hin as [->|Hin]; [eauto|].
  destruct (IH Hin) as (y & Hy & Hxy). eauto.
Qed.

Section AssemblerSteps.
Context {C : Collaborators}.

(** A formatted finding is a mapping that has the stale entries of the raw
    finding. *)
Lemma finding_keeps_undeclared f fields members n o :
  format_template_field_object
    (PDict (dict_or (match f with PDict e => e | _ => [] end)
                    (ensure_defined_fields f fields)))
    fields members true n = Ok o ->
  exists od,
    o = PDict od /\
    forall k v, ~ In k (map field_id fields) ->
                match f with PDict e => dict_get e k | _ => None end = Some v ->
                dict_get od k = Some v.
Proof.
  unfold format_template_field_object. intros H.
  destruct (format_object _ _ fields) as [d0|] eqn:Hd; [|discriminate].
  assert (Hd0 : forall k v, ~ In k (map field_id fields) ->
                  match f with PDict e => dict_get e k | _ => None end = Some v ->
                  dict_get d0 k = Some v).
  { intros k v Hk Hv. rewrite (format_object_undeclared _ _ _ _ _ Hd Hk).
    rewrite dict_get_or_absent by now apply ensure_defined_fields_undeclared.
    destruct f; try discriminate. exact Hv. }
  simpl in H. destruct (negb (dict_mem d0 "id")) eqn:Hid; injection H as <-;
    eexists; (split; [reflexivity|]); auto.
  intros k v Hk Hv. rewrite dict_get_set.
  destruct (String.eqb_spec "id" k) as [<-|]; auto.
  apply negb_true_iff in Hid. unfold dict_mem in Hid.
  now rewrite (Hd0 _ _ Hk Hv) in Hid.
Qed.

(** The steps of [format_template_data] on a mapping, the findings paired
    with the raw values they come from. *)
Lemma format_template_data_steps d project_type imported_members override out :
  format_template_data (PDict d) project_type imported_members override = Ok out ->
  exists l members report raw findings pentesters,
    dict_get_or d "pentesters" (PList []) = PList l /\
    Forall2 (fun u m => format_template_field_user u imported_members = Ok m)
            (l ++ match imported_members with Some i => i | None => [] end)%list
            members /\
    py_iter (dict_get_or d "findings" (PList [])) = Ok raw /\
    Forall2 (fun f o =>
               exists n,
                 format_template_field_object
                   (PDict (dict_or (match f with PDict e => e | _ => [] end)
                                   (ensure_defined_fields f (finding_fields_obj project_type))))
                   (finding_fields_obj project_type) (Some members) true (uuid4 n) = Ok o)
            raw findings /\
    py_sorted key_lt pentester_key members = Ok pentesters /\
    out = PDict (dict_set
                   (dict_set (dict_set d "report" report) "findings"
                      (PList (sort_findings findings project_type override)))
                   "pentesters" (PList pentesters)).
Proof.
  unfold format_template_data.
  destruct (dict_get_or d "pentesters" (PList [])) as [| | | | |l| |]; try discriminate.
  simpl. destruct (mapM _ (l ++ _)%list) as [members|] eqn:Hm; [|discriminate]. simpl.
  destruct (format_template_field_object _ _ _ true (uuid4 0%nat)) as [report|];
    [|discriminate]. simpl.
  assert (Hfindings : dict_get_or (dict_set d "report" report) "findings" (PList [])
                      = dict_get_or d "findings" (PList [])).
  { unfold dict_get_or. now rewrite dict_get_set_other by discriminate. }
  rewrite Hfindings.
  destruct (py_iter _) as [raw|]; [|discriminate]. simpl.
  destruct (mapM _ (combine _ raw)) as [findings|] eqn:Hf; [|discriminate]. simpl.
  destruct (py_sorted _ _ members) as [pentesters|] eqn:Hp; [|discriminate]. simpl.
  intros H. injection H as <-.
  exists l, members, report, raw, findings, pentesters.
  split; [reflexivity|]. split; [now apply mapM_ok|]. split; [reflexivity|].
  split; [|split; [exact Hp|reflexivity]].
  apply mapM_ok in Hf. apply Forall2_combine_seq in Hf. exact Hf.
Qed.

(** Sorting by [pentester_key] succeeds on mappings only. *)
Lemma py_sorted_mappings members pentesters :
  py_sorted key_lt pentester_key members = Ok pentesters ->
  Forall (fun m => exists md, m = PDict md) members.
Proof.
  unfold py_sorted.
  destruct (mapM _ members) as [keyed|] eqn:Hk; [|discriminate]. intros _.
  apply mapM_ok in Hk. induction Hk as [|m ka members keyed Hm _ IH]; constructor; auto.
  destruct m; try discriminate. eauto.
Qed.

End AssemblerSteps.

(** X9.  The findings of the template data are formatted one for one: what
    is stored under 'findings' is a reordering of the list that has, for
    every raw finding and in the raw order, its formatted form, a mapping
    that still has the entries of the raw finding under keys the schema
    does not declare.  No finding is dropped or added. *)
Theorem findings_formatted_one_for_one {C : Collaborators}
    d project_type imported_members override out :
  sort_findings_ok sort_findings ->
  format_template_data (PDict d) project_type imported_members override = Ok out ->
  exists raw formatted d' findings,
    py_iter (dict_get_or d "findings" (PList [])) = Ok raw /\
    out = PDict d' /\
    dict_get d' "findings" = Some (PList findings) /\
    Permutation findings formatted /\
    length findings = length raw /\
    Forall2 (fun f o =>
               exists od,
                 o = PDict od /\
                 forall k v, ~ In k (map field_id (finding_fields_obj project_type)) ->
                             match f with PDict e => dict_get e k | _ => None end = Some v ->
                             dict_get od k = Some v)
            raw formatted.
Proof.
  intros Hsort H.
  destruct (format_template_data_steps _ _ _ _ _ H)
    as (l & members & report & raw & formatted & pentesters
        & _ & _ & Hraw & Hf & _ & ->).
  exists raw, formatted. eexists _, _.
  split; [exact Hraw|]. split; [reflexivity|]. split.
  { rewrite dict_get_set_other by discriminate. apply dict_get_set_same. }
  split; [apply Hsort|]. split.
  - rewrite (Permutation_length (Hsort formatted project_type override)).
    symmetry. eapply Forall2_length, Hf.
  - eapply Forall2_impl; [|exact Hf]. simpl.
    intros f o [n Ho]. eapply finding_keeps_undeclared, Ho.
Qed.

(** [findings_formatted_one_for_one] at a concrete input: two findings, the
    second with an id and a stale entry. *)
Lemma findings_formatted_one_for_one_witness :
  exists raw formatted d' findings,
    py_iter (dict_get_or [("findings",
                           PList [PDict [("title", PStr "XSS")];
                                  PDict [("id", PStr "f-2"); ("retest", PStr "open")]])]
                         "findings" (PList [])) = Ok raw /\
    @format_template_data Sample.collaborators
       (PDict [("findings",
                PList [PDict [("title", PStr "XSS")];
                       PDict [("id", PStr "f-2"); ("retest", PStr "open")]])])
       Sample.project_type None false = Ok (PDict d') /\
    dict_get d' "findings" = Some (PList findings) /\
    Permutation findings formatted /\
    length findings = length raw /\
    Forall2 (fun f o =>
               exists od,
                 o = PDict od /\
                 forall k v, ~ In k (map field_id (finding_fields_obj Sample.project_type)) ->
                             match f with PDict e => dict_get e k | _ => None end = Some v ->
                             dict_get od k = Some v)
            raw formatted.
Proof.
  destruct (@findings_formatted_one_for_one Sample.collaborators
              [("findings",
                PList [PDict [("title", PStr "XSS")];
                       PDict [("id", PStr "f-2"); ("retest", PStr "open")]])]
              Sample.project_type None false _ sample_sort_findings_ok eq_refl)
    as (raw & formatted & d' & findings & Hraw & Hout & Hrest).
  injection Hout as <-. eexists raw, formatted, _, findings.
  split; [exact Hraw|]. split; [reflexivity|]. exact Hrest.
Defined.

(** X10.  The 'pentesters' of the template data are the pool -- the
    pentesters of the data followed by the imported members -- each
    resolved to a mapping, reordered: there are as many of them as the pool
    has members.  A pool member that resolves to nothing (an id no user
    has, an empty record) makes the whole call raise. *)
Theorem pentesters_are_the_resolved_pool {C : Collaborators}
    d project_type imported_members override l :
  dict_get_or d "pentesters" (PList []) = PList l ->
  (forall out,
      format_template_data (PDict d) project_type imported_members override = Ok out ->
      exists d' members pentesters,
        out = PDict d' /\
        dict_get d' "pentesters" = Some (PList pentesters) /\
        Forall2 (fun u m => format_template_field_user u imported_members = Ok m /\
                            exists md, m = PDict md)
                (l ++ match imported_members with Some i => i | None => [] end)%list
                members /\
        Permutation pentesters members /\
        length pentesters
        = (length l + length match imported_members with Some i => i | None => [] end)%nat) /\
  (forall u,
      In u (l ++ match imported_members with Some i => i | None => [] end)%list ->
      format_template_field_user u imported_members = Ok PNone ->
      exists e,
        format_template_data (PDict d) project_type imported_members override = Raise e).
Proof.
  intros Hl.
  assert (Hok : forall out,
      format_template_data (PDict d) project_type imported_members override = Ok out ->
      exists d' members pentesters,
        out = PDict d' /\
        dict_get d' "pentesters" = Some (PList pentesters) /\
        Forall2 (fun u m => format_template_field_user u imported_members = Ok m /\
                            exists md, m = PDict md)
                (l ++ match imported_members with Some i => i | None => [] end)%list
                members /\
        Permutation pentesters members /\
        length pentesters
        = (length l + length match imported_members with Some i => i | None => [] end)%nat).
  { intros out H.
    destruct (format_template_data_steps _ _ _ _ _ H)
      as (l' & members & report & raw & findings & pentesters
          & Hl' & Hpool & _ & _ & Hsort & ->).
    rewrite Hl in Hl'. injection Hl' as <-.
    eexists _, members, pentesters. split; [reflexivity|].
    split; [apply dict_get_set_same|].
    assert (Hperm : Permutation pentesters members).
    { rewrite (py_sorted_members _ _ _ _ Hpool Hsort). apply sorted_by_perm. }
    split; [|split; [exact Hperm|]].
    - apply py_sorted_mappings in Hsort. clear - Hpool Hsort.
      induction Hpool; constructor; inversion Hsort; subst; auto.
    - rewrite (Permutation_length Hperm), <- (Forall2_length Hpool).
      apply length_app. }
  split; [exact Hok|].
  intros u Hin Hnone.
  destruct (format_template_data (PDict d) project_type imported_members override)
    as [out|e] eqn:H; [|eauto].
  exfalso.
  destruct (Hok out eq_refl) as (d' & members & pentesters & _ & _ & Hpool & _ & _).
  destruct (Forall2_In_l _ _ _ _ _ _ Hpool Hin) as (m & _ & Hm & md & ->).
  rewrite Hnone in Hm. discriminate.
Qed.

(** [pentesters_are_the_resolved_pool] at concrete inputs: a pool of one
    pentester and one imported member, and a pool with an id no user
    has. *)
Lemma pentesters_are_the_resolved_pool_witness :
  (exists d' members pentesters,
      @format_template_data Sample.collaborators
         (PDict [("pentesters", PList [Sample.zed])])
         Sample.project_type (Some [Sample.amy]) false = Ok (PDict d') /\
      dict_get d' "pentesters" = Some (PList pentesters) /\
      Forall2 (fun u m =>
                 @format_template_field_user Sample.collaborators u (Some [Sample.amy])
                 = Ok m /\ exists md, m = PDict md)
              [Sample.zed; Sample.amy] members /\
      Permutation pentesters members /\
      length pentesters = 2%nat) /\
  (exists e,
      @format_template_data Sample.collaborators
         (PDict [("pentesters", PList [Sample.zed; PStr "ghost"])])
         Sample.project_type None false = Raise e).
Proof.
  split.
  - destruct (proj1 (@pentesters_are_the_resolved_pool Sample.collaborators
                       [("pentesters", PList [Sample.zed])]
                       Sample.project_type (Some [Sample.amy]) false [Sample.zed]
                       eq_refl) _ eq_refl)
      as (d' & members & pentesters & Hout & Hrest).
    injection Hout as <-. eexists _, members, pentesters.
    split; [reflexivity|]. exact Hrest.
  - apply (proj2 (@pentesters_are_the_resolved_pool Sample.collaborators
                    [("pentesters", PList [Sample.zed; PStr "ghost"])]
                    Sample.project_type None false [Sample.zed; PStr "ghost"]
                    eq_refl) (PStr "ghost")).
    + simpl. auto.
    + reflexivity.
Defined.

(** X11.  The assembler writes 'report', 'findings' and 'pentesters' and
    nothing else: every other entry of the data comes out as it went
    in. *)
Theorem other_entries_untouched {C : Collaborators}
    d project_type imported_members override out k :
  format_template_data (PDict d) project_type imported_members override = Ok out ->
  k <> "report" -> k <> "findings" -> k <> "pentesters" ->
  exists d', out = PDict d' /\ dict_get d' k = dict_get d k.
Proof.
  intros H Hr Hf Hp.
  destruct (format_template_data_steps _ _ _ _ _ H)
    as (l & members & report & raw & findings & pentesters & _ & _ & _ & _ & _ & ->).
  eexists. split; [reflexivity|].
  now rewrite !dict_get_set_other by congruence.
Qed.

(** [other_entries_untouched] at a concrete input: preview data with a
    'markdown_fields' entry. *)
Lemma other_entries_untouched_witness :
  exists d',
    @format_template_data Sample.collaborators
       (PDict [("markdown_fields", PDict [("a", PStr "**b**")]);
               ("pentesters", PList [Sample.zed])])
       Sample.project_type None false = Ok (PDict d') /\
    dict_get d' "markdown_fields" = Some (PDict [("a", PStr "**b**")]).
Proof.
  destruct (@other_entries_untouched Sample.collaborators
              [("markdown_fields", PDict [("a", PStr "**b**")]);
               ("pentesters", PList [Sample.zed])]
              Sample.project_type None false _ "markdown_fields" eq_refl)
    as (d' & Hout & Hget); try discriminate.
  injection Hout as <-. eexists. split; [reflexivity|]. exact Hget.
Defined.

(** ** Template data of a stored project *)



(** ** Polling: results, deadlines and revocation *)

Section PollFacts.
Import Celery.
Variables (start : Z) (timeout : option Z).

Lemma poll_never_revokes ts terminate wait :
  ~ In (Revoke terminate wait) (fst (poll start timeout ts)).
Proof.
  induction ts as [|t ts IH]; simpl; [tauto|].
  destruct (ready t); simpl; [intuition discriminate|].
  destruct (expired start timeout t); simpl; [intuition discriminate|].
  destruct (sleep_cancelled t); simpl; [intuition discriminate|].
  destruct (poll start timeout ts) as [es x]; simpl in *. intuition discriminate.
Qed.

Lemma poll_cancelled ts :
  snd (poll start timeout ts) = CancelledInSleep ->
  exists pre t post,
    ts = (pre ++ t :: post)%list /\
    Forall (fun t => quiet start timeout t = true) pre /\
    ready t = false /\ expired start timeout t = false /\ sleep_cancelled t = true.
Proof.
  induction ts as [|t ts IH]; simpl; [discriminate|].
  destruct (ready t) eqn:Hr; simpl; [discriminate|].
  destruct (expired start timeout t) eqn:He; simpl; [discriminate|].
  destruct (sleep_cancelled t) eqn:Hc; simpl.
  - intros _. exists [], t, ts. auto.
  - destruct (poll start timeout ts) as [es x]; simpl in *. intros Hx.
    destruct (IH Hx) as (pre & t' & post & -> & Hpre & Ht').
    exists (t :: pre), t', post. split; [reflexivity|]. split; [|exact Ht'].
    constructor; auto. unfold quiet. now rewrite Hr, He, Hc.
Qed.

Lemma poll_without_deadline ts :
  timeout_set timeout = false -> snd (poll start timeout ts) <> TimedOut.
Proof.
  intros Hset.
  assert (Hexp : forall t, expired start timeout t = false).
  { intros t. unfold expired. destruct timeout; auto. now rewrite Hset. }
  induction ts as [|t ts IH]; simpl; [discriminate|].
  destruct (ready t); simpl; [discriminate|].
  rewrite Hexp.
  destruct (sleep_cancelled t); simpl; [discriminate|].
  destruct (poll start timeout ts) as [es x]; simpl in *. exact IH.
Qed.

End PollFacts.

(** X13.  The deadline is looked at only while the task is not ready: once
    a readiness check succeeds the task's result is returned, or raised
    when it is an exception instance, however much time has passed. *)
Theorem ready_task_is_never_timed_out (env : Celery.Env) (timeout : option Z) pre t post :
  Celery.turns env = (pre ++ t :: post)%list ->
  Forall (fun t => Celery.quiet (Celery.start_time env) timeout t = true) pre ->
  Celery.ready t = true ->
  (forall v, Celery.result env = Celery.Value v ->
     Celery.get_celery_result_async env timeout
     = ((Celery.rounds pre ++ [Celery.Poll])%list, Celery.Returned (Celery.Value v))) /\
  (forall e, Celery.result env = Celery.Failure e -> is_Exception e = true ->
     Celery.get_celery_result_async env timeout
     = ((Celery.rounds pre ++ [Celery.Poll])%list, Celery.Raised e)).
Proof.
  intros Hturns Hpre Hready.
  unfold Celery.get_celery_result_async.
  rewrite Hturns, poll_quiet_prefix by assumption. simpl. rewrite Hready. simpl.
  split.
  - intros v ->. reflexivity.
  - intros e -> ->. reflexivity.
Qed.

(** [ready_task_is_never_timed_out] at a concrete input: the slow task
    under a deadline of 350 ms is found ready 400 ms after the start. *)
Lemma ready_task_is_never_timed_out_witness :
  Celery.get_celery_result_async Sample.slow_task (Some 350)
  = ([Celery.Poll; Celery.Sleep 100; Celery.Poll; Celery.Sleep 100;
      Celery.Poll; Celery.Sleep 100; Celery.Poll; Celery.Sleep 100; Celery.Poll],
     Celery.Returned (Celery.Value (PStr "done"))).
Proof.
  apply (proj1 (ready_task_is_never_timed_out Sample.slow_task (Some 350)
                  [Celery.mkTurn false 1000 false; Celery.mkTurn false 1100 false;
                   Celery.mkTurn false 1200 false; Celery.mkTurn false 1300 false]
                  (Celery.mkTurn true 1400 false) []
                  eq_refl ltac:(repeat constructor) eq_refl)).
  reflexivity.
Defined.

(** X14.  Without a deadline -- no timeout, or a zero one -- the loop
    raises no TimeoutError of its own: a TimeoutError that comes out is the
    task's result. *)
Theorem no_deadline_no_timeout (env : Celery.Env) (timeout : option Z) msg :
  Celery.timeout_set timeout = false ->
  snd (Celery.get_celery_result_async env timeout) = Celery.Raised (TimeoutError msg) ->
  Celery.result env = Celery.Failure (TimeoutError msg).
Proof.
  intros Hset. unfold Celery.get_celery_result_async.
  pose proof (poll_without_deadline (Celery.start_time env) timeout
                (Celery.turns env) Hset) as Hpoll.
  destruct (Celery.poll _ _ _) as [es x]; simpl in *.
  destruct x; try contradiction.
  - destruct (Celery.result env) as [v|e]; simpl; [discriminate|].
    destruct (is_Exception e) eqn:He; simpl; [congruence|discriminate].
  - destruct (Celery.revoke env) as [|e]; simpl; [discriminate|].
    destruct (is_Exception e) eqn:He; simpl; [discriminate|].
    intros H. injection H as ->. discriminate.
  - discriminate.
Qed.

(** [no_deadline_no_timeout] at a concrete input: a task that failed with
    a timeout of its own, polled with a zero timeout. *)
Lemma no_deadline_no_timeout_witness :
  Celery.result (Celery.mkEnv 0 [Celery.mkTurn false 900000 false;
                                 Celery.mkTurn true 900100 false]
                   (Celery.Failure (TimeoutError "worker lost")) Celery.Revoked)
  = Celery.Failure (TimeoutError "worker lost").
Proof.
  apply (no_deadline_no_timeout
           (Celery.mkEnv 0 [Celery.mkTurn false 900000 false;
                            Celery.mkTurn true 900100 false]
              (Celery.Failure (TimeoutError "worker lost")) Celery.Revoked)
           (Some 0) "worker lost").
  - reflexivity.
  - reflexivity.
Defined.

(** X15.  The task is revoked only when the coroutine is cancelled in its
    sleep, and then with terminate=True and wait=False: a revocation in
    the trace means that a turn on which the task was not ready and the
    deadline not passed was cancelled.  A task that times out is left
    running. *)
Theorem revoked_only_when_cancelled (env : Celery.Env) (timeout : option Z)
    terminate wait :
  In (Celery.Revoke terminate wait) (fst (Celery.get_celery_result_async env timeout)) ->
  terminate = true /\ wait = false /\
  snd (Celery.get_celery_result_async env timeout) <> Celery.Raised (TimeoutError "") /\
  exists pre t post,
    Celery.turns env = (pre ++ t :: post)%list /\
    Forall (fun t => Celery.quiet (Celery.start_time env) timeout t = true) pre /\
    Celery.ready t = false /\
    Celery.expired (Celery.start_time env) timeout t = false /\
    Celery.sleep_cancelled t = true.
Proof.
  unfold Celery.get_celery_result_async.
  pose proof (poll_never_revokes (Celery.start_time env) timeout (Celery.turns env)
                terminate wait) as Hnever.
  pose proof (poll_cancelled (Celery.start_time env) timeout (Celery.turns env))
    as Hcancelled.
  destruct (Celery.poll _ _ _) as [es x]; simpl in *.
  assert (Hin : In (Celery.Revoke terminate wait) (es ++ [Celery.Revoke true false]) ->
                terminate = true /\ wait = false).
  { intros H. apply in_app_or in H. destruct H as [H|[H|[]]]; [contradiction|].
    injection H as <- <-. auto. }
  destruct x; simpl.
  - destruct (Celery.result env) as [v|e]; [|destruct (is_Exception e)]; simpl;
      contradiction.
  - contradiction.
  - destruct (Celery.revoke env) as [|e] eqn:Hrev; [|destruct (is_Exception e) eqn:He];
      simpl; intros H; destruct (Hin H) as [-> ->];
      (split; [reflexivity|]); (split; [reflexivity|]); (split; [|now apply Hcancelled]);
      try discriminate.
    intros Heq. injection Heq as ->. discriminate.
  - contradiction.
Qed.

(** [revoked_only_when_cancelled] at a concrete input. *)
Lemma revoked_only_when_cancelled_witness :
  true = true /\ false = false /\
  snd (Celery.get_celery_result_async Sample.cancelled_task (Some 250))
  <> Celery.Raised (TimeoutError "") /\
  exists pre t post,
    Celery.turns Sample.cancelled_task = (pre ++ t :: post)%list /\
    Forall (fun t => Celery.quiet (Celery.start_time Sample.cancelled_task)
                       (Some 250) t = true) pre /\
    Celery.ready t = false /\
    Celery.expired (Celery.start_time Sample.cancelled_task) (Some 250) t = false /\
    Celery.sleep_cancelled t = true.
Proof.
  apply (revoked_only_when_cancelled Sample.cancelled_task (Some 250) true false).
  simpl. tauto.
Defined.

(** ** Submitting a render and waiting for it *)

Section RenderAsyncFacts.
Import RenderAsync.

Lemma reraise_renames e msg :
  reraise e = TimeoutError msg -> msg = "PDF rendering timeout".
Proof. destruct e; simpl; intros H; try discriminate. now injection H as <-. Qed.

Lemma handled_renames (A : Type) (r : Result A) msg :
  handled r = Raise (TimeoutError msg) -> msg = "PDF rendering timeout".
Proof.
  destruct r as [a|e]; simpl; intros H; [discriminate|].
  injection H as H. exact (reraise_renames _ _ H).
Qed.

Lemma default_deadline settings timeout l :
  Celery.timeout_set timeout = false ->
  PDF_RENDERING_TIME_LIMIT settings = Some l -> l <> 0 ->
  effective_timeout settings timeout = Some ((l + 5) * 1000).
Proof.
  intros Hset Hl Hne. unfold effective_timeout, limit_set. rewrite Hset, Hl.
  destruct (Z.eqb_spec l 0); [contradiction|]. reflexivity.
Qed.

End RenderAsyncFacts.

(** X16.  Whatever raised it -- the polling loop at its deadline, the
    inline wait, the submission, the task itself or the decoding of its
    result -- a TimeoutError leaves [_render_pdf_task_async] with the
    message 'PDF rendering timeout' and no other. *)
Theorem timeouts_surface_renamed settings env timeout msg :
  snd (RenderAsync._render_pdf_task_async settings env timeout)
  = RenderAsync.Done (Raise (TimeoutError msg)) ->
  msg = "PDF rendering timeout".
Proof.
  unfold RenderAsync._render_pdf_task_async.
  destruct (RenderAsync.CELERY_TASK_ALWAYS_EAGER settings).
  - destruct (RenderAsync.effective_timeout settings timeout) as [ms|]; simpl;
      intros H; [|discriminate].
    injection H as H. exact (handled_renames _ _ _ H).
  - destruct (RenderAsync.delay env) as [task|e]; simpl.
    + destruct (Celery.get_celery_result_async task _) as [effects polled].
      destruct polled as [res|e|]; simpl; intros H; [| |discriminate].
      * injection H as H. exact (handled_renames _ _ _ H).
      * injection H as H. exact (reraise_renames _ _ H).
    + intros H. injection H as H. exact (reraise_renames _ _ H).
Qed.

(** [timeouts_surface_renamed] at a concrete input: the slow task, queued
    and polled with a timeout of 250 ms. *)
Lemma timeouts_surface_renamed_witness :
  snd (RenderAsync._render_pdf_task_async
         (RenderAsync.mkSettings None false)
         (RenderAsync.mkEnv (fun _ => Raise (OtherException "unused"))
            (Ok Sample.slow_task) (fun _ => Raise ValueError))
         (Some 250))
  = RenderAsync.Done (Raise (TimeoutError "PDF rendering timeout")) /\
  "PDF rendering timeout" = "PDF rendering timeout".
Proof.
  split; [reflexivity|].
  apply (timeouts_surface_renamed
           (RenderAsync.mkSettings None false)
           (RenderAsync.mkEnv (fun _ => Raise (OtherException "unused"))
              (Ok Sample.slow_task) (fun _ => Raise ValueError))
           (Some 250) "PDF rendering timeout").
  reflexivity.
Defined.

(** X17.  A queued render that is given no timeout is polled under the
    configured limit plus five seconds: at the first check that finds the
    task not ready after that time the call raises
    TimeoutError('PDF rendering timeout'), without revoking the task. *)
Theorem default_deadline_is_limit_plus_five settings env timeout l task pre t post :
  RenderAsync.CELERY_TASK_ALWAYS_EAGER settings = false ->
  Celery.timeout_set timeout = false ->
  RenderAsync.PDF_RENDERING_TIME_LIMIT settings = Some l ->
  0 < l ->
  RenderAsync.delay env = Ok task ->
  Celery.turns task = (pre ++ t :: post)%list ->
  Forall (fun t => Celery.quiet (Celery.start_time task) (Some ((l + 5) * 1000)) t = true)
         pre ->
  Celery.ready t = false ->
  Celery.start_time task + (l + 5) * 1000 < Celery.now t ->
  RenderAsync._render_pdf_task_async settings env timeout
  = ((Celery.rounds pre ++ [Celery.Poll])%list,
     RenderAsync.Done (Raise (TimeoutError "PDF rendering timeout"))).
Proof.
  intros Heager Hset Hl Hpos Hdelay Hturns Hpre Hready Hlate.
  unfold RenderAsync._render_pdf_task_async.
  rewrite Heager, Hdelay, (default_deadline _ _ _ Hset Hl) by lia.
  unfold Celery.get_celery_result_async.
  rewrite Hturns, poll_quiet_prefix by assumption. simpl. rewrite Hready.
  unfold Celery.expired, Celery.timeout_set.
  destruct (Z.eqb_spec ((l + 5) * 1000) 0); [lia|]. simpl.
  destruct (Z.ltb_spec (Celery.start_time task + (l + 5) * 1000) (Celery.now t)); [|lia].
  reflexivity.
Qed.

(** [default_deadline_is_limit_plus_five] at a concrete input: a limit of
    one second, a task that is not ready 6.05 s after the start. *)
Lemma default_deadline_is_limit_plus_five_witness :
  RenderAsync._render_pdf_task_async
    (RenderAsync.mkSettings (Some 1) false)
    (RenderAsync.mkEnv (fun _ => Raise (OtherException "unused"))
       (Ok (Celery.mkEnv 0 [Celery.mkTurn false 5900 false;
                            Celery.mkTurn false 6050 false;
                            Celery.mkTurn true 6150 false]
              (Celery.Value PNone) Celery.Revoked))
       (fun _ => Raise ValueError))
    None
  = ([Celery.Poll; Celery.Sleep 100; Celery.Poll],
     RenderAsync.Done (Raise (TimeoutError "PDF rendering timeout"))).
Proof.
  apply (default_deadline_is_limit_plus_five
           (RenderAsync.mkSettings (Some 1) false)
           (RenderAsync.mkEnv (fun _ => Raise (OtherException "unused"))
              (Ok (Celery.mkEnv 0 [Celery.mkTurn false 5900 false;
                                   Celery.mkTurn false 6050 false;
                                   Celery.mkTurn true 6150 false]
                     (Celery.Value PNone) Celery.Revoked))
              (fun _ => Raise ValueError))
           None 1
           (Celery.mkEnv 0 [Celery.mkTurn false 5900 false;
                            Celery.mkTurn false 6050 false;
                            Celery.mkTurn true 6150 false]
              (Celery.Value PNone) Celery.Revoked)
           [Celery.mkTurn false 5900 false] (Celery.mkTurn false 6050 false)
           [Celery.mkTurn true 6150 false]).
  - reflexivity.
  - reflexivity.
  - reflexivity.
  - lia.
  - reflexivity.
  - reflexivity.
  - repeat constructor.
  - reflexivity.
  - simpl. lia.
Defined.

(** X18.  With tasks executed eagerly, a call that is given no timeout
    while no rendering time limit is configured fails before anything is
    rendered: the seconds of a timeout that is None are asked for, which
    raises AttributeError, and neither handler catches it. *)
Theorem eager_render_needs_a_deadline settings env :
  RenderAsync.CELERY_TASK_ALWAYS_EAGER settings = true ->
  RenderAsync.limit_set settings = false ->
  RenderAsync._render_pdf_task_async settings env None
  = ([], RenderAsync.Done (Raise AttributeError)).
Proof.
  intros Heager Hlimit. unfold RenderAsync._render_pdf_task_async.
  unfold RenderAsync.effective_timeout. rewrite Heager, Hlimit. reflexivity.
Qed.

(** [eager_render_needs_a_deadline] at a concrete input: a limit of 0. *)
Lemma eager_render_needs_a_deadline_witness :
  RenderAsync._render_pdf_task_async
    (RenderAsync.mkSettings (Some 0) true)
    (RenderAsync.mkEnv (fun _ => Ok (PDict [])) (Raise (OtherException "unused"))
       (fun _ => Ok (RenderTask.mkResult None [] [] [])))
    None
  = ([], RenderAsync.Done (Raise AttributeError)).
Proof.
  apply (eager_render_needs_a_deadline
           (RenderAsync.mkSettings (Some 0) true)
           (RenderAsync.mkEnv (fun _ => Ok (PDict [])) (Raise (OtherException "unused"))
              (fun _ => Ok (RenderTask.mkResult None [] [] [])))).
  - reflexivity.
  - reflexivity.
Defined.

(** ** The result of [render_pdf_task]: messages and timings *)

Section RenderResultFacts.
Import RenderTask.

Lemma dict_mem_remove_other (V : Type) (d : list (string * V)) k k' :
  k <> k' -> dict_mem (dict_remove d k) k' = dict_mem d k'.
Proof. intros H. unfold dict_mem. now rewrite dict_get_remove_other. Qed.

Lemma reconciled_timings_mem r queue k :
  dict_mem (timings r) k = true ->
  dict_mem (reconciled_timings r queue) k = true.
Proof.
  intros H. destruct queue as [q|]; simpl; auto.
  rewrite dict_mem_set, H. apply orb_true_r.
Qed.

Lemma after_merge_mem env timings0 res_pdf k :
  k = "collect_data" \/ k = "queue" \/ k = "task_total" ->
  dict_mem (timings (after_merge env timings0 res_pdf)) k = true.
Proof.
  intros Hk. unfold after_merge, merge. simpl. apply dict_mem_or_left.
  rewrite !dict_mem_set.
  destruct Hk as [-> | [-> | ->]]; simpl; auto using orb_true_r.
Qed.

End RenderResultFacts.

(** X19.  The messages that [render_pdf_task] returns are the worker's, one
    for one and in order, with level and text unchanged.  Each has a
    location: its own when it had one, otherwise the design location made
    of the project type's id and name. *)
Theorem messages_get_a_location (env : RenderTask.Env) project_type timings0 r :
  RenderTask.render_pdf_task env project_type timings0 = Ok r ->
  exists res_pdf,
    RenderTask.worker env = Ok res_pdf /\
    Forall2 (fun m m' =>
               RenderTask.level m' = RenderTask.level m /\
               RenderTask.message m' = RenderTask.message m /\
               RenderTask.location m'
               = Some match RenderTask.location m with
                      | Some loc => loc
                      | None => RenderTask.mkLocation RenderTask.DESIGN
                                  (project_type_id project_type)
                                  (project_type_name project_type)
                      end)
            (RenderTask.messages res_pdf) (RenderTask.messages r).
Proof.
  intros H.
  destruct (render_pdf_task_inv _ _ _ _ H)
    as (res_pdf & start & queue & task_total & Hw & _ & _ & _ & ->).
  exists res_pdf. split; [exact Hw|]. simpl.
  induction (RenderTask.messages res_pdf) as [|m ms IH]; simpl; constructor; auto.
  unfold RenderTask.stamp. destruct m as [lvl msg [loc|]]; simpl; auto.
Qed.

(** [messages_get_a_location] at a concrete input: the sample render, whose
    one warning has no location. *)
Lemma messages_get_a_location_witness :
  exists r res_pdf,
    RenderTask.render_pdf_task
      (Sample.render_env [("task_start_time", PStr "2024-05-01T10:00:02+00:00")])
      Sample.project_type None = Ok r /\
    RenderTask.worker
      (Sample.render_env [("task_start_time", PStr "2024-05-01T10:00:02+00:00")])
    = Ok res_pdf /\
    Forall2 (fun m m' =>
               RenderTask.level m' = RenderTask.level m /\
               RenderTask.message m' = RenderTask.message m /\
               RenderTask.location m'
               = Some match RenderTask.location m with
                      | Some loc => loc
                      | None => RenderTask.mkLocation RenderTask.DESIGN
                                  (project_type_id Sample.project_type)
                                  (project_type_name Sample.project_type)
                      end)
            (RenderTask.messages res_pdf) (RenderTask.messages r).
Proof.
  destruct (messages_get_a_location
              (Sample.render_env [("task_start_time", PStr "2024-05-01T10:00:02+00:00")])
              Sample.project_type None _ eq_refl)
    as (res_pdf & Hw & Hm).
  eexists _, res_pdf. split; [reflexivity|]. split; [exact Hw|exact Hm].
Defined.

(** X20.  The timings that [render_pdf_task] returns have no 'task_total'
    any more, have 'collect_data' and 'queue', and have an 'other' that is
    not negative; the auxiliary data has no 'task_start_time'. *)
Theorem returned_timings_shape (env : RenderTask.Env) project_type timings0 r :
  RenderTask.render_pdf_task env project_type timings0 = Ok r ->
  dict_get (RenderTask.timings r) "task_total" = None /\
  dict_mem (RenderTask.timings r) "collect_data" = true /\
  dict_mem (RenderTask.timings r) "queue" = true /\
  (exists o, dict_get (RenderTask.timings r) "other" = Some o /\ 0 <= o) /\
  dict_get (RenderTask.other r) "task_start_time" = None.
Proof.
  intros H.
  destruct (render_pdf_task_inv _ _ _ _ H)
    as (res_pdf & start & queue & task_total & _ & _ & _ & _ & ->).
  simpl. split; [|split; [|split; [|split]]].
  - rewrite dict_get_set_other by discriminate. apply dict_get_remove_same.
  - rewrite dict_mem_set, dict_mem_remove_other by discriminate.
    rewrite reconciled_timings_mem; [apply orb_true_r|].
    apply after_merge_mem. auto.
  - rewrite dict_mem_set, dict_mem_remove_other by discriminate.
    rewrite reconciled_timings_mem; [apply orb_true_r|].
    apply after_merge_mem. auto.
  - eexists. split; [apply dict_get_set_same|]. apply Z.le_max_l.
  - apply dict_get_remove_same.
Qed.

(** [returned_timings_shape] at a concrete input. *)
Lemma returned_timings_shape_witness :
  exists r,
    RenderTask.render_pdf_task
      (Sample.render_env [("task_start_time", PStr "2024-05-01T10:00:02+00:00")])
      Sample.project_type (Some [("collect_data", 250000)]) = Ok r /\
    dict_get (RenderTask.timings r) "task_total" = None /\
    dict_mem (RenderTask.timings r) "collect_data" = true /\
    dict_mem (RenderTask.timings r) "queue" = true /\
    (exists o, dict_get (RenderTask.timings r) "other" = Some o /\ 0 <= o) /\
    dict_get (RenderTask.other r) "task_start_time" = None.
Proof.
  eexists. split; [reflexivity|].
  apply (returned_timings_shape
           (Sample.render_env [("task_start_time", PStr "2024-05-01T10:00:02+00:00")])
           Sample.project_type (Some [("collect_data", 250000)])).
  reflexivity.
Defined.

(** ** The resources sent with a render *)

Section MoreDictFacts.
Variable V : Type.
Implicit Types (d e : list (string * V)) (k : string) (v : V).

Lemma dict_get_In d k v : dict_get d k = Some v -> In (k, v) d.
Proof.
  induction d as [|[k' v'] d IH]; simpl; [discriminate|].
  destruct (String.eqb_spec k' k) as [->|]; auto.
  intros H. injection H as ->. auto.
Qed.

Lemma dict_set_In d k0 v0 k v :
  In (k, v) (dict_set d k0 v0) -> In (k, v) d \/ (k, v) = (k0, v0).
Proof.
  induction d as [|[k' v'] d IH]; simpl.
  - intros [H|[]]. auto.
  - destruct (String.eqb_spec k' k0) as [->|]; simpl; intuition.
Qed.

Lemma dict_or_In d e k v : In (k, v) (dict_or d e) -> In (k, v) d \/ In (k, v) e.
Proof.
  unfold dict_or. revert d.
  induction e as [|[k0 v0] e IH]; simpl; intros d H; auto.
  destruct (IH _ H) as [Hd|He]; auto.
  destruct (dict_set_In _ _ _ _ _ Hd); auto.
Qed.

Lemma dict_set_keys_mem d k v :
  dict_mem d k = true -> map fst (dict_set d k v) = map fst d.
Proof.
  unfold dict_mem. induction d as [|[k' v'] d IH]; simpl; [discriminate|].
  destruct (String.eqb_spec k' k) as [->|]; simpl; auto.
  intros H. now rewrite IH.
Qed.

End MoreDictFacts.

Section ComprehensionFacts.
Import Resources.
Variable A : Type.
Variables (key value : A -> string).

Let step (acc : list (string * string)) (x : A) := dict_set acc (key x) (value x).

Lemma fold_comprehension_In xs : forall acc k v,
  In (k, v) (fold_left step xs acc) ->
  In (k, v) acc \/ exists x, In x xs /\ k = key x /\ v = value x.
Proof.
  induction xs as [|y xs IH]; simpl; intros acc k v H; auto.
  destruct (IH _ _ _ H) as [Hacc|(x & Hx & Hk & Hv)].
  - destruct (dict_set_In _ _ _ _ _ _ Hacc) as [|Heq]; auto.
    injection Heq as -> ->. right. exists y. auto.
  - right. exists x. auto.
Qed.

Lemma comprehension_In xs k v :
  In (k, v) (comprehension key value xs) ->
  exists x, In x xs /\ k = key x /\ v = value x.
Proof.
  intros H. destruct (fold_comprehension_In _ _ _ _ H) as [[]|]; auto.
Qed.

Lemma fold_comprehension_other xs : forall acc k,
  ~ In k (map key xs) -> dict_get (fold_left step xs acc) k = dict_get acc k.
Proof.
  induction xs as [|y xs IH]; simpl; intros acc k Hk; auto.
  rewrite IH by tauto. apply dict_get_set_other. tauto.
Qed.

Lemma fold_comprehension_get xs : forall acc x,
  NoDup (map key xs) -> In x xs ->
  dict_get (fold_left step xs acc) (key x) = Some (value x).
Proof.
  induction xs as [|y xs IH]; simpl; intros acc x Hnd Hin; [contradiction|].
  inversion Hnd as [|? ? Hnotin Hnd']; subst.
  destruct Hin as [->|Hin]; auto.
  rewrite fold_comprehension_other by assumption. apply dict_get_set_same.
Qed.

Lemma fold_comprehension_nodup xs : forall acc,
  NoDup (map fst acc) -> NoDup (map fst (fold_left step xs acc)).
Proof.
  induction xs as [|y xs IH]; simpl; intros acc Hnd; auto.
  apply IH. now apply dict_set_keys_nodup.
Qed.

Lemma comprehension_get xs x :
  NoDup (map key xs) -> In x xs ->
  dict_get (comprehension key value xs) (key x) = Some (value x).
Proof. apply fold_comprehension_get. Qed.

Lemma comprehension_nodup xs : NoDup (map fst (comprehension key value xs)).
Proof. apply fold_comprehension_nodup. constructor. Qed.

Lemma comprehension_absent xs k :
  (forall x, In x xs -> key x <> k) -> dict_get (comprehension key value xs) k = None.
Proof.
  intros H. destruct (dict_get _ k) as [v|] eqn:Hv; auto.
  apply dict_get_In, comprehension_In in Hv. destruct Hv as (x & Hx & -> & _).
  now destruct (H x Hx).
Qed.

End ComprehensionFacts.

Lemma prefixed_names_nodup (prefix : string) (A : Type) (name : A -> string) xs :
  NoDup (map name xs) -> NoDup (map (fun x => prefix ++ name x) xs).
Proof.
  assert (Hinj : forall s t, prefix ++ s = prefix ++ t -> s = t).
  { induction prefix as [|c p IH]; simpl; auto. intros s t H. injection H. auto. }
  induction xs as [|x xs IH]; simpl; intros Hnd; constructor;
    inversion Hnd as [|? ? Hnotin Hnd']; subst; auto.
  intros Hin. apply Hnotin. apply in_map_iff in Hin. destruct Hin as (y & Hy & Hin).
  apply Hinj in Hy. rewrite <- Hy. now apply in_map.
Qed.

(** X22.  What is sent with a render is assets of the design and
    referenced images of the project and nothing else: every resource is
    the base64 text of an asset under '/assets/name/<name>', or of an image
    the project references under '/images/name/<name>'.  Without a project
    there are no images. *)
Theorem resources_are_assets_and_referenced_images
    (b64encode : string -> string) assets project k v :
  dict_get (Resources.format_resources b64encode assets project) k = Some v ->
  (exists a, In a assets /\
             k = "/assets/name/" ++ Resources.file_name a /\
             v = b64encode (Resources.file_bytes a)) \/
  (exists p i, project = Some p /\
               In i (Resources.images p) /\
               Resources.is_file_referenced p i = true /\
               k = "/images/name/" ++ Resources.file_name i /\
               v = b64encode (Resources.file_bytes i)).
Proof.
  intros H. apply dict_get_In in H. unfold Resources.format_resources in H.
  assert (Hassets : forall k v,
            In (k, v) (dict_or [] (Resources.comprehension Resources.asset_key
                                     (Resources.encoded b64encode) assets)) ->
            exists a, In a assets /\
                      k = "/assets/name/" ++ Resources.file_name a /\
                      v = b64encode (Resources.file_bytes a)).
  { intros k0 v0 H0. apply dict_or_In in H0. destruct H0 as [[]|H0].
    apply comprehension_In in H0. exact H0. }
  destruct project as [p|]; [|left; now apply Hassets].
  apply dict_or_In in H. destruct H as [H|H]; [left; now apply Hassets|].
  right. apply comprehension_In in H. destruct H as (i & Hi & -> & ->).
  apply filter_In in Hi. exists p, i. tauto.
Qed.

(** [resources_are_assets_and_referenced_images] at a concrete input: one
    asset and two images, of which the project references the first. *)
Lemma resources_are_assets_and_referenced_images_witness :
  Resources.format_resources (fun bytes => "b64:" ++ bytes)
    [Resources.mkFile "logo.png" "PNG1"]
    (Some (Resources.mkProjectFiles
             [Resources.mkFile "shot.png" "PNG2"; Resources.mkFile "old.png" "PNG3"]
             (fun i => String.eqb (Resources.file_name i) "shot.png")))
  = [("/assets/name/logo.png", "b64:PNG1"); ("/images/name/shot.png", "b64:PNG2")] /\
  ((exists a, In a [Resources.mkFile "logo.png" "PNG1"] /\
              "/images/name/shot.png" = "/assets/name/" ++ Resources.file_name a /\
              "b64:PNG2" = "b64:" ++ Resources.file_bytes a) \/
   (exists p i,
       Some (Resources.mkProjectFiles
               [Resources.mkFile "shot.png" "PNG2"; Resources.mkFile "old.png" "PNG3"]
               (fun i => String.eqb (Resources.file_name i) "shot.png")) = Some p /\
       In i (Resources.images p) /\
       Resources.is_file_referenced p i = true /\
       "/images/name/shot.png" = "/images/name/" ++ Resources.file_name i /\
       "b64:PNG2" = "b64:" ++ Resources.file_bytes i)).
Proof.
  split; [reflexivity|].
  apply (resources_are_assets_and_referenced_images (fun bytes => "b64:" ++ bytes)
           [Resources.mkFile "logo.png" "PNG1"]
           (Some (Resources.mkProjectFiles
                    [Resources.mkFile "shot.png" "PNG2"; Resources.mkFile "old.png" "PNG3"]
                    (fun i => String.eqb (Resources.file_name i) "shot.png")))
           "/images/name/shot.png" "b64:PNG2").
  reflexivity.
Defined.

(** X23.  When the assets have distinct names every asset is sent, with
    its own bytes, whatever the images of the project are called: images
    never take the place of an asset.  Likewise every referenced image is
    sent when the referenced images have distinct names. *)
Theorem every_asset_and_referenced_image_is_sent
    (b64encode : string -> string) assets project :
  (forall a,
      NoDup (map Resources.file_name assets) -> In a assets ->
      dict_get (Resources.format_resources b64encode assets project)
               ("/assets/name/" ++ Resources.file_name a)
      = Some (b64encode (Resources.file_bytes a))) /\
  (forall p i,
      project = Some p ->
      NoDup (map Resources.file_name
               (filter (Resources.is_file_referenced p) (Resources.images p))) ->
      In i (Resources.images p) -> Resources.is_file_referenced p i = true ->
      dict_get (Resources.format_resources b64encode assets project)
               ("/images/name/" ++ Resources.file_name i)
      = Some (b64encode (Resources.file_bytes i))).
Proof.
  unfold Resources.format_resources. split.
  - intros a Hnd Hin.
    assert (Hassets : dict_get (dict_or [] (Resources.comprehension Resources.asset_key
                                              (Resources.encoded b64encode) assets))
                               (Resources.asset_key a)
                      = Some (Resources.encoded b64encode a)).
    { apply dict_get_or_present; [apply comprehension_nodup|].
      apply comprehension_get; auto.
      now apply (prefixed_names_nodup "/assets/name/"). }
    destruct project as [p|]; [|exact Hassets].
    rewrite dict_get_or_absent; [exact Hassets|].
    apply comprehension_absent. intros i _. discriminate.
  - intros p i -> Hnd Hin Href.
    apply dict_get_or_present; [apply comprehension_nodup|].
    apply (comprehension_get _ Resources.image_key (Resources.encoded b64encode)).
    + now apply (prefixed_names_nodup "/images/name/").
    + apply filter_In. auto.
Qed.

(** [every_asset_and_referenced_image_is_sent] at a concrete input: an
    asset and a referenced image of the same name. *)
Lemma every_asset_and_referenced_image_is_sent_witness :
  dict_get (Resources.format_resources (fun bytes => "b64:" ++ bytes)
              [Resources.mkFile "logo.png" "PNG1"]
              (Some (Resources.mkProjectFiles [Resources.mkFile "logo.png" "PNG2"]
                       (fun _ => true))))
           "/assets/name/logo.png"
  = Some "b64:PNG1" /\
  dict_get (Resources.format_resources (fun bytes => "b64:" ++ bytes)
              [Resources.mkFile "logo.png" "PNG1"]
              (Some (Resources.mkProjectFiles [Resources.mkFile "logo.png" "PNG2"]
                       (fun _ => true))))
           "/images/name/logo.png"
  = Some "b64:PNG2".
Proof.
  split.
  - apply (proj1 (every_asset_and_referenced_image_is_sent
                    (fun bytes => "b64:" ++ bytes)
                    [Resources.mkFile "logo.png" "PNG1"]
                    (Some (Resources.mkProjectFiles [Resources.mkFile "logo.png" "PNG2"]
                             (fun _ => true))))
             (Resources.mkFile "logo.png" "PNG1")).
    + repeat constructor. simpl. tauto.
    + simpl. auto.
  - apply (proj2 (every_asset_and_referenced_image_is_sent
                    (fun bytes => "b64:" ++ bytes)
                    [Resources.mkFile "logo.png" "PNG1"]
                    (Some (Resources.mkProjectFiles [Resources.mkFile "logo.png" "PNG2"]
                             (fun _ => true))))
             (Resources.mkProjectFiles [Resources.mkFile "logo.png" "PNG2"] (fun _ => true))
             (Resources.mkFile "logo.png" "PNG2")).
    + reflexivity.
    + repeat constructor. simpl. tauto.
    + simpl. auto.
    + reflexivity.
Defined.

(** ** Rendered markdown: fragments taken out and put in *)

Section ExtractFacts.
Import Markdown.
Variable env : Env.

Lemma extract_app pre post fields :
  extract env (pre ++ post) fields = extract env post (extract env pre fields).
Proof. apply fold_left_app. Qed.

Lemma extract_keys nodes : forall fields,
  map fst (extract env nodes fields) = map fst fields.
Proof.
  induction nodes as [|n nodes IH]; simpl; intros fields; auto.
  unfold extract in *. simpl. rewrite IH.
  destruct (dict_get (attrib n) "id") as [k|]; auto.
  destruct (dict_mem fields k) eqn:Hk; auto. now apply dict_set_keys_mem.
Qed.

Lemma extract_other nodes k : forall fields,
  Forall (fun n => dict_get (attrib n) "id" <> Some k) nodes ->
  dict_get (extract env nodes fields) k = dict_get fields k.
Proof.
  induction nodes as [|n nodes IH]; simpl; intros fields Hn; auto.
  inversion Hn as [|? ? Hk Hn']; subst.
  unfold extract in *. simpl. rewrite IH by assumption.
  destruct (dict_get (attrib n) "id") as [k'|]; auto.
  destruct (dict_mem fields k'); auto.
  apply dict_get_set_other. congruence.
Qed.

Lemma extract_mem nodes k : forall fields,
  dict_mem (extract env nodes fields) k = dict_mem fields k.
Proof.
  induction nodes as [|n nodes IH]; simpl; intros fields; auto.
  unfold extract in *. simpl. rewrite IH.
  destruct (dict_get (attrib n) "id") as [k'|]; auto.
  destruct (dict_mem fields k') eqn:Hk; auto.
  rewrite dict_mem_set. destruct (String.eqb_spec k' k) as [<-|]; auto.
Qed.

End ExtractFacts.

(** X24.  Taking the rendered fragments out changes no key: the markdown
    fields keep their keys and their order, a rendered node with an
    unknown id adds nothing, and a field with no rendered node keeps its
    markdown text.  A known field is replaced by the serialized children
    of the last node that has its id. *)
Theorem extract_keeps_the_known_fields (env : Markdown.Env) nodes fields :
  map fst (Markdown.extract env nodes fields) = map fst fields /\
  (forall k,
      Forall (fun n => dict_get (Markdown.attrib n) "id" <> Some k) nodes ->
      dict_get (Markdown.extract env nodes fields) k = dict_get fields k) /\
  (forall before n after k,
      nodes = (before ++ n :: after)%list ->
      dict_get (Markdown.attrib n) "id" = Some k ->
      Forall (fun n => dict_get (Markdown.attrib n) "id" <> Some k) after ->
      dict_mem fields k = true ->
      dict_get (Markdown.extract env nodes fields) k
      = Some (String.concat "" (map (Markdown.tostring env) (Markdown.getchildren n)))).
Proof.
  split; [apply extract_keys|]. split; [intros k; apply extract_other|].
  intros before n after k -> Hid Hafter Hmem.
  rewrite extract_app. change (n :: after) with ([n] ++ after)%list.
  rewrite extract_app, extract_other by assumption.
  unfold Markdown.extract at 1. simpl. rewrite Hid, extract_mem, Hmem.
  apply dict_get_set_same.
Qed.

(** [extract_keeps_the_known_fields] at a concrete input: the sample
    project's field, rendered twice, and a node with an unknown id. *)
Lemma extract_keeps_the_known_fields_witness :
  Markdown.extract (Sample.markdown_env (Ok Sample.rendered_markup) (Ok None))
    [Markdown.Element [("id", "[sections, s1, summary]")] [];
     Markdown.Element [("id", "[sections, s1, summary]")]
       [Markdown.Element [] []; Markdown.Element [] []];
     Markdown.Element [("id", "[sections, s9, other]")] [Markdown.Element [] []]]
    [("[sections, s1, summary]", "**bold**")]
  = [("[sections, s1, summary]",
      "<p><strong>bold</strong></p><p><strong>bold</strong></p>")] /\
  dict_get
    (Markdown.extract (Sample.markdown_env (Ok Sample.rendered_markup) (Ok None))
       [Markdown.Element [("id", "[sections, s1, summary]")] [];
        Markdown.Element [("id", "[sections, s1, summary]")]
          [Markdown.Element [] []; Markdown.Element [] []];
        Markdown.Element [("id", "[sections, s9, other]")] [Markdown.Element [] []]]
       [("[sections, s1, summary]", "**bold**")])
    "[sections, s1, summary]"
  = Some (String.concat ""
            (map (Markdown.tostring
                    (Sample.markdown_env (Ok Sample.rendered_markup) (Ok None)))
                 (Markdown.getchildren
                    (Markdown.Element [("id", "[sections, s1, summary]")]
                       [Markdown.Element [] []; Markdown.Element [] []])))).
Proof.
  split; [reflexivity|].
  apply (proj2 (proj2 (extract_keeps_the_known_fields
                         (Sample.markdown_env (Ok Sample.rendered_markup) (Ok None))
                         _ [("[sections, s1, summary]", "**bold**")]))
           [Markdown.Element [("id", "[sections, s1, summary]")] []]
           (Markdown.Element [("id", "[sections, s1, summary]")]
              [Markdown.Element [] []; Markdown.Element [] []])
           [Markdown.Element [("id", "[sections, s9, other]")] [Markdown.Element [] []]]).
  - reflexivity.
  - reflexivity.
  - repeat constructor. discriminate.
  - reflexivity.
Defined.

(** X25.  Putting a fragment in touches one item: the first section or
    finding of the serialized project whose 'id' is the path's gets its
    'data' replaced by what [set_value_at_path] makes of it, and every
    other item, before or after, stays as it is.  When no item has that id
    the search raises StopIteration. *)
Theorem splice_updates_first_matching_item (env : Markdown.Env) items id path html :
  (forall items',
      Markdown.splice_item env items id path html = Ok items' ->
      exists before d after data data',
        items = (before ++ PDict d :: after)%list /\
        items' = (before ++ PDict (dict_set d "data" data') :: after)%list /\
        Forall (fun s => exists sid, Markdown.subscript s "id" = Ok sid /\
                                     py_eq_str sid id = false) before /\
        (exists sid, dict_get d "id" = Some sid /\ py_eq_str sid id = true) /\
        dict_get d "data" = Some data /\
        Markdown.set_value_at_path env data path html = Ok data') /\
  (Forall (fun s => exists sid, Markdown.subscript s "id" = Ok sid /\
                                py_eq_str sid id = false) items ->
   Markdown.splice_item env items id path html = Raise StopIteration).
Proof.
  split.
  - induction items as [|s items IH]; simpl; intros items' H; [discriminate|].
    destruct (Markdown.subscript s "id") as [sid|] eqn:Hsid; [|discriminate].
    simpl in H. destruct (py_eq_str sid id) eqn:Hmatch.
    + destruct (Markdown.subscript s "data") as [data|] eqn:Hdata; [|discriminate].
      simpl in H.
      destruct (Markdown.set_value_at_path env data path html) as [data'|] eqn:Hset;
        [|discriminate].
      simpl in H. destruct s as [| | | | | |d|]; try discriminate.
      injection H as <-. exists [], d, items, data, data'.
      simpl in Hsid, Hdata.
      destruct (dict_get d "id") as [sid'|] eqn:Hid; [|discriminate].
      injection Hsid as ->.
      destruct (dict_get d "data") as [data0|]; [|discriminate].
      injection Hdata as ->. repeat split; eauto.
    + destruct (Markdown.splice_item env items id path html) as [r|]; [|discriminate].
      simpl in H. injection H as <-.
      destruct (IH r eq_refl)
        as (before & d & after & data & data' & -> & -> & Hbefore & Hrest).
      exists (s :: before), d, after, data, data'. repeat split; try apply Hrest; eauto.
  - induction 1 as [|s items (sid & Hsid & Hne) _ IH]; simpl; auto.
    rewrite Hsid. simpl. rewrite Hne, IH. reflexivity.
Qed.

(** [splice_updates_first_matching_item] at concrete inputs: two sections
    of which the second has the id, and a search for an id that no section
    has. *)
Lemma splice_updates_first_matching_item_witness :
  (exists before d after data data',
      [PDict [("id", PStr "s0"); ("data", PDict [("summary", PStr "old")])];
       PDict [("id", PStr "s1"); ("data", PDict [("summary", PStr "**bold**")])]]
      = (before ++ PDict d :: after)%list /\
      [PDict [("id", PStr "s0"); ("data", PDict [("summary", PStr "old")])];
       PDict [("id", PStr "s1"); ("data", PDict [("summary", PStr "<b>bold</b>")])]]
      = (before ++ PDict (dict_set d "data" data') :: after)%list /\
      Forall (fun s => exists sid, Markdown.subscript s "id" = Ok sid /\
                                   py_eq_str sid "s1" = false) before /\
      (exists sid, dict_get d "id" = Some sid /\ py_eq_str sid "s1" = true) /\
      dict_get d "data" = Some data /\
      Markdown.set_value_at_path
        (Sample.markdown_env (Ok Sample.rendered_markup) (Ok None))
        data ["summary"] "<b>bold</b>" = Ok data') /\
  Markdown.splice_item (Sample.markdown_env (Ok Sample.rendered_markup) (Ok None))
    [PDict [("id", PStr "s0"); ("data", PDict [("summary", PStr "old")])]]
    "s1" ["summary"] "<b>bold</b>"
  = Raise StopIteration.
Proof.
  split.
  - apply (proj1 (splice_updates_first_matching_item
                    (Sample.markdown_env (Ok Sample.rendered_markup) (Ok None))
                    [PDict [("id", PStr "s0"); ("data", PDict [("summary", PStr "old")])];
                     PDict [("id", PStr "s1");
                            ("data", PDict [("summary", PStr "**bold**")])]]
                    "s1" ["summary"] "<b>bold</b>")).
    reflexivity.
  - apply (proj2 (splice_updates_first_matching_item
                    (Sample.markdown_env (Ok Sample.rendered_markup) (Ok None))
                    [PDict [("id", PStr "s0"); ("data", PDict [("summary", PStr "old")])]]
                    "s1" ["summary"] "<b>bold</b>")).
    repeat constructor. eexists. split; reflexivity.
Defined.

(** ** A fragment whose section or finding is gone *)

Lemma splice_item_miss (env : Markdown.Env) items id path html :
  Forall (fun s => exists sid, Markdown.subscript s "id" = Ok sid /\
                               py_eq_str sid id = false) items ->
  Markdown.splice_item env items id path html = Raise StopIteration.
Proof.
  induction 1 as [|s items (sid & Hsid & Hne) _ IH]; simpl; auto.
  rewrite Hsid. simpl. rewrite Hne, IH. reflexivity.
Qed.

(** X26.  When the first markdown field belongs to a section or finding
    that the serialized project does not have, the search for it raises
    StopIteration inside [format_output]; the worker thread cannot hand
    that exception to the coroutine, so the handler never runs: the call
    neither returns nor raises, and no error message is reported. *)
Theorem stale_path_is_never_reported (env : Markdown.Env)
    res root body wrapper result path_str html others kind id rest l :
  Markdown.rendered env = Ok res ->
  RenderTask.has_pdf res = true ->
  Markdown.etree_HTML env (match RenderTask.pdf res with Some b => b | None => "" end)
  = Ok (Some root) ->
  Markdown.item (Markdown.getchildren root) 1 = Ok body ->
  Markdown.item (Markdown.getchildren body) 0 = Ok wrapper ->
  Markdown.serialized env = Ok result ->
  Markdown.extract env (Markdown.getchildren wrapper) (Markdown.markdown_fields env)
  = (path_str, html) :: others ->
  Markdown.json_loads env path_str = Ok (kind :: id :: rest) ->
  kind = "sections" \/ kind = "findings" ->
  Markdown.subscript result kind = Ok (PList l) ->
  Forall (fun s => exists sid, Markdown.subscript s "id" = Ok sid /\
                               py_eq_str sid id = false) l ->
  Markdown.render_project_markdown_fields_to_html env = Markdown.NeverResumed.
Proof.
  intros Hres Hpdf Htree Hbody Hwrapper Hser Hfields Hpath Hkind Hitems Hmiss.
  assert (Hout : Markdown.format_output env res = Raise StopIteration).
  { unfold Markdown.format_output.
    rewrite Htree. simpl. rewrite Hbody. simpl. rewrite Hwrapper. simpl.
    rewrite Hser. simpl. rewrite Hfields. simpl.
    unfold Markdown.splice. simpl. rewrite Hpath. simpl.
    assert (Hk : String.eqb kind "sections" || String.eqb kind "findings" = true)
      by (destruct Hkind as [-> | ->]; reflexivity).
    rewrite Hk, Hitems. simpl.
    now rewrite (splice_item_miss env l id rest html Hmiss). }
  unfold Markdown.render_project_markdown_fields_to_html.
  rewrite Hres, Hpdf, Hout. reflexivity.
Qed.

(** [stale_path_is_never_reported] at a concrete input: the sample project
    after section s1 was deleted. *)
Lemma stale_path_is_never_reported_witness :
  Markdown.render_project_markdown_fields_to_html Sample.stale_markdown_env
  = Markdown.NeverResumed.
Proof.
  apply (stale_path_is_never_reported Sample.stale_markdown_env
           (RenderTask.mkResult (Some "<html>...</html>")
              [RenderTask.mkMessage RenderTask.WARNING "font not found" None] [] [])
           (Markdown.Element []
              [Markdown.Element [] [];
               Markdown.Element []
                 [Markdown.Element []
                    [Markdown.Element [("id", "[sections, s1, summary]")]
                       [Markdown.Element [] []]]]])
           (Markdown.Element []
              [Markdown.Element []
                 [Markdown.Element [("id", "[sections, s1, summary]")]
                    [Markdown.Element [] []]]])
           (Markdown.Element []
              [Markdown.Element [("id", "[sections, s1, summary]")]
                 [Markdown.Element [] []]])
           (PDict [("id", PStr "p1");
                   ("sections",
                    PList [PDict [("id", PStr "s2");
                                  ("data", PDict [("title", PStr "Scope")])]]);
                   ("findings", PList [])])
           "[sections, s1, summary]" "<p><strong>bold</strong></p>" []
           "sections" "s1" ["summary"]
           [PDict [("id", PStr "s2"); ("data", PDict [("title", PStr "Scope")])]]).
  - reflexivity.
  - reflexivity.
  - reflexivity.
  - reflexivity.
  - reflexivity.
  - reflexivity.
  - reflexivity.
  - reflexivity.
  - left. reflexivity.
  - reflexivity.
  - repeat constructor. eexists. split; reflexivity.
Defined.
